(** * Storage core of the laboratory notebook server

    A shallow embedding of [server/storage.ts] (the [IStorage] interface with
    its two implementations, [DatabaseStorage] and [MemStorage]) and of the
    table declarations of [shared/schema.ts], followed by the properties of
    the repository layer: cascade deletion, search, the owner/collaborator
    union, partial updates, absent ids, creation and collaborator rows.

    Conventions of the embedding.
    - A JavaScript [number] used as an id or as a counter is a [Z]; the
      counters are incremented far below the range where doubles stop being
      exact, and that range is not modelled. The columns of the relational
      backend that hold such numbers are 32-bit ([DatabaseStorage.in_int4]),
      and there the range is modelled.
    - A [Date] is a [Z] (an instant); every operation that reads the clock
      ([new Date()], [defaultNow()]) takes the instant as an argument [now].
    - A [text] column or JavaScript string is a [string] of 8-bit characters,
      read as ASCII text: [toLowerCase], [trim] and the [_] of [LIKE] are
      modelled on ASCII, and a theorem whose truth depends on what they do
      outside ASCII carries the hypothesis [Str.is_ascii].
    - A nullable column, or an optional property, is an [option]; a
      [Partial<T>] has one [option] per property of [T] ([None]: the key is
      absent from the object).
    - [Promise]s are awaited one after the other, so the asynchronous methods
      are sequential state transformers. *)

From Stdlib Require Import ZArith List String Ascii Bool Lia Permutation.
Import ListNotations.

Local Open Scope Z_scope.
Local Open Scope string_scope.

Set Implicit Arguments.

(** ** Strings *)

Module Str.

(** [String.prototype.toLowerCase], on ASCII. *)
Definition lower_ascii (c : ascii) : ascii :=
  let n := nat_of_ascii c in
  if (Nat.leb 65 n && Nat.leb n 90)%bool then ascii_of_nat (n + 32) else c.

Fixpoint toLowerCase (s : string) : string :=
  match s with
  | EmptyString => EmptyString
  | String c r => String (lower_ascii c) (toLowerCase r)
  end.

Fixpoint startsWith (s p : string) {struct p} : bool :=
  match p, s with
  | EmptyString, _ => true
  | String a p', String b s' => Ascii.eqb a b && startsWith s' p'
  | String _ _, EmptyString => false
  end.

(** [hay.includes(needle)]: [needle] occurs in [hay] as a substring. *)
Fixpoint includes (hay needle : string) : bool :=
  startsWith hay needle ||
  match hay with
  | EmptyString => false
  | String _ r => includes r needle
  end.

(** The strings on which the operations of this module are those of
    JavaScript and of PostgreSQL character for character: ASCII text. *)
Fixpoint is_ascii (s : string) : bool :=
  match s with
  | EmptyString => true
  | String c r => Nat.ltb (nat_of_ascii c) 128 && is_ascii r
  end.

(** JavaScript truthiness of a string: only the empty string is falsy. *)
Definition truthy (s : string) : bool :=
  match s with EmptyString => false | String _ _ => true end.

(** [String.prototype.trim] leaves nothing of an ASCII string: every
    character is white space (space, tab, line feed, vertical tab, form
    feed, carriage return). Used by the search route of [routes.ts]. *)
Definition is_space (c : ascii) : bool :=
  let n := nat_of_ascii c in
  (Nat.eqb n 32 || (Nat.leb 9 n && Nat.leb n 13))%bool.

Fixpoint blank (s : string) : bool :=
  match s with
  | EmptyString => true
  | String c r => is_space c && blank r
  end.

(** SQL [LIKE] of PostgreSQL, as reached through drizzle's [like]: the
    comparison is case sensitive, [%] matches any run of characters, [_]
    any one character and a backslash quotes the next pattern character.
    A pattern ending in an unquoted backslash is rejected by the server;
    the patterns built by the search methods always end in [%], so that
    branch (answered [false] here) is never taken. *)
Fixpoint like (s p : string) {struct p} : bool :=
  match p with
  | EmptyString => negb (truthy s)
  | String c p' =>
      if Ascii.eqb c "%"%char then
        (fix skip (t : string) : bool :=
           like t p' ||
           match t with
           | EmptyString => false
           | String _ t' => skip t'
           end) s
      else if Ascii.eqb c "_"%char then
        match s with
        | EmptyString => false
        | String _ s' => like s' p'
        end
      else if Ascii.eqb c "\"%char then
        match p' with
        | EmptyString => false
        | String d p'' =>
            match s with
            | EmptyString => false
            | String e s' => Ascii.eqb d e && like s' p''
            end
        end
      else
        match s with
        | EmptyString => false
        | String e s' => Ascii.eqb c e && like s' p'
        end
  end.

(** The template literal [`%${query}%`]. *)
Definition searchTerm (query : string) : string := "%" ++ query ++ "%".

End Str.

(** ** The JavaScript [Map<number, V>]

    Entries are kept in insertion order, which is the order in which
    [values()] yields them; [set] on a key that is present replaces the value
    in place, [delete] reports whether the key was present. *)

Module JsMap.
Section Ops.
Variable V : Type.

Definition t : Type := list (Z * V).

Definition empty : t := [].

Fixpoint get (k : Z) (m : t) : option V :=
  match m with
  | [] => None
  | (k', v) :: r => if Z.eqb k k' then Some v else get k r
  end.

Definition has (k : Z) (m : t) : bool :=
  match get k m with Some _ => true | None => false end.

Fixpoint set (k : Z) (v : V) (m : t) : t :=
  match m with
  | [] => [(k, v)]
  | (k', v') :: r =>
      if Z.eqb k k' then (k, v) :: r else (k', v') :: set k v r
  end.

Fixpoint remove (k : Z) (m : t) : t :=
  match m with
  | [] => []
  | (k', v') :: r => if Z.eqb k k' then r else (k', v') :: remove k r
  end.

(** [m.delete(k)]: the answer and the map afterwards. *)
Definition delete (k : Z) (m : t) : bool * t := (has k m, remove k m).

Definition keys (m : t) : list Z := map fst m.

(** [Array.from(m.values())]. *)
Definition values (m : t) : list V := map snd m.
End Ops.

Arguments empty {V}.
End JsMap.

(** ** The entity model ([shared/schema.ts])

    One record per table row type ([$inferSelect]), one per insert shape
    (the zod insert schema, with the store-assigned columns omitted) and one
    per partial insert shape. *)

Module Schema.

Record User := mkUser {
  u_id : Z;
  u_username : string;
  u_password : string;
  u_displayName : string;
  u_role : option string;
  u_avatarUrl : option string;
  u_createdAt : Z }.

Record InsertUser := mkInsertUser {
  iu_username : string;
  iu_password : string;
  iu_displayName : string;
  iu_role : option string;
  iu_avatarUrl : option string }.

Record Project := mkProject {
  p_id : Z;
  p_name : string;
  p_description : option string;
  p_createdAt : Z;
  p_updatedAt : Z;
  p_ownerId : Z }.

Record InsertProject := mkInsertProject {
  ip_name : string;
  ip_description : option string;
  ip_ownerId : Z }.

Record PartialProject := mkPartialProject {
  pp_name : option string;
  pp_description : option (option string);
  pp_ownerId : option Z }.

Record Experiment := mkExperiment {
  e_id : Z;
  e_name : string;
  e_description : option string;
  e_projectId : Z;
  e_createdAt : Z;
  e_updatedAt : Z }.

Record InsertExperiment := mkInsertExperiment {
  ie_name : string;
  ie_description : option string;
  ie_projectId : Z }.

Record PartialExperiment := mkPartialExperiment {
  pe_name : option string;
  pe_description : option (option string);
  pe_projectId : option Z }.

Record Note := mkNote {
  n_id : Z;
  n_title : string;
  n_content : option string;
  n_experimentId : Z;
  n_authorId : Z;
  n_createdAt : Z;
  n_updatedAt : Z }.

Record InsertNote := mkInsertNote {
  in_title : string;
  in_content : option string;
  in_experimentId : Z;
  in_authorId : Z }.

Record PartialNote := mkPartialNote {
  pn_title : option string;
  pn_content : option (option string);
  pn_experimentId : option Z;
  pn_authorId : option Z }.

Record Attachment := mkAttachment {
  a_id : Z;
  a_fileName : string;
  a_fileSize : Z;
  a_fileType : string;
  a_fileData : string;
  a_noteId : Z;
  a_createdAt : Z }.

Record InsertAttachment := mkInsertAttachment {
  ia_fileName : string;
  ia_fileSize : Z;
  ia_fileType : string;
  ia_fileData : string;
  ia_noteId : Z }.

Record ProjectCollaborator := mkProjectCollaborator {
  c_id : Z;
  c_projectId : Z;
  c_userId : Z;
  c_role : option string }.

Record InsertProjectCollaborator := mkInsertProjectCollaborator {
  ic_projectId : Z;
  ic_userId : Z;
  ic_role : option string }.

(** A property of a partial shape overrides the stored one when its key is
    present: the object spread [{...existing, ...update}] of [MemStorage]
    and the column list of [UPDATE ... SET] of [DatabaseStorage]. *)
Definition override {A : Type} (update : option A) (existing : A) : A :=
  match update with Some v => v | None => existing end.

Definition patchProject (existing : Project) (u : PartialProject) (now : Z)
  : Project :=
  {| p_id := p_id existing;
     p_name := override (pp_name u) (p_name existing);
     p_description := override (pp_description u) (p_description existing);
     p_createdAt := p_createdAt existing;
     p_updatedAt := now;
     p_ownerId := override (pp_ownerId u) (p_ownerId existing) |}.

Definition patchExperiment (existing : Experiment) (u : PartialExperiment)
  (now : Z) : Experiment :=
  {| e_id := e_id existing;
     e_name := override (pe_name u) (e_name existing);
     e_description := override (pe_description u) (e_description existing);
     e_projectId := override (pe_projectId u) (e_projectId existing);
     e_createdAt := e_createdAt existing;
     e_updatedAt := now |}.

Definition patchNote (existing : Note) (u : PartialNote) (now : Z) : Note :=
  {| n_id := n_id existing;
     n_title := override (pn_title u) (n_title existing);
     n_content := override (pn_content u) (n_content existing);
     n_experimentId := override (pn_experimentId u) (n_experimentId existing);
     n_authorId := override (pn_authorId u) (n_authorId existing);
     n_createdAt := n_createdAt existing;
     n_updatedAt := now |}.

End Schema.

Import Schema.

(** [array.filter(Boolean)] on an array of objects or [undefined]. *)
Fixpoint filter_Boolean {A : Type} (l : list (option A)) : list A :=
  match l with
  | [] => []
  | Some x :: r => x :: filter_Boolean r
  | None :: r => filter_Boolean r
  end.

(** [[...new Set(array)]] on an array of objects: a [Set] compares objects
    by reference and keeps the first occurrence of each. The objects come
    out of a [Map], where every entry holds an object built by its own
    object literal, so a reference is named by the key of its entry. *)
Fixpoint Set_of_refs {V : Type} (seen : list Z) (l : list (Z * V))
  : list (Z * V) :=
  match l with
  | [] => []
  | (k, v) :: r =>
      if existsb (Z.eqb k) seen then Set_of_refs seen r
      else (k, v) :: Set_of_refs (k :: seen) r
  end.

(** ** The in-memory backend ([class MemStorage]) *)

Module MemStorage.

Record t := mk {
  users : JsMap.t User;
  projects : JsMap.t Project;
  experiments : JsMap.t Experiment;
  notes : JsMap.t Note;
  attachments : JsMap.t Attachment;
  projectCollaborators : JsMap.t ProjectCollaborator;
  userId : Z;
  projectId : Z;
  experimentId : Z;
  noteId : Z;
  attachmentId : Z;
  collaboratorId : Z }.

Definition with_users (m : JsMap.t User) (n : Z) (s : t) : t :=
  mk m (projects s) (experiments s) (notes s) (attachments s)
     (projectCollaborators s) n (projectId s) (experimentId s) (noteId s)
     (attachmentId s) (collaboratorId s).

Definition with_projects (m : JsMap.t Project) (n : Z) (s : t) : t :=
  mk (users s) m (experiments s) (notes s) (attachments s)
     (projectCollaborators s) (userId s) n (experimentId s) (noteId s)
     (attachmentId s) (collaboratorId s).

Definition with_experiments (m : JsMap.t Experiment) (n : Z) (s : t) : t :=
  mk (users s) (projects s) m (notes s) (attachments s)
     (projectCollaborators s) (userId s) (projectId s) n (noteId s)
     (attachmentId s) (collaboratorId s).

Definition with_notes (m : JsMap.t Note) (n : Z) (s : t) : t :=
  mk (users s) (projects s) (experiments s) m (attachments s)
     (projectCollaborators s) (userId s) (projectId s) (experimentId s) n
     (attachmentId s) (collaboratorId s).

Definition with_attachments (m : JsMap.t Attachment) (n : Z) (s : t) : t :=
  mk (users s) (projects s) (experiments s) (notes s) m
     (projectCollaborators s) (userId s) (projectId s) (experimentId s)
     (noteId s) n (collaboratorId s).

Definition with_projectCollaborators (m : JsMap.t ProjectCollaborator)
  (n : Z) (s : t) : t :=
  mk (users s) (projects s) (experiments s) (notes s) (attachments s)
     m (userId s) (projectId s) (experimentId s) (noteId s)
     (attachmentId s) n.

(** *** User operations *)

Definition getUser (id : Z) (s : t) : option User := JsMap.get id (users s).

Definition getUserByUsername (username : string) (s : t) : option User :=
  find (fun user => String.eqb (u_username user) username)
       (JsMap.values (users s)).

Definition createUser (insertUser : InsertUser) (now : Z) (s : t)
  : User * t :=
  let id := userId s in
  let createdAt := now in
  let user :=
    {| u_id := id;
       u_username := iu_username insertUser;
       u_password := iu_password insertUser;
       u_displayName := iu_displayName insertUser;
       u_role := iu_role insertUser;
       u_avatarUrl := iu_avatarUrl insertUser;
       u_createdAt := createdAt |} in
  (user, with_users (JsMap.set id user (users s)) (id + 1) s).

Definition listUsers (s : t) : list User := JsMap.values (users s).

(** The constructor: empty maps, counters at 1, then the default user. *)
Definition blank : t :=
  mk JsMap.empty JsMap.empty JsMap.empty JsMap.empty JsMap.empty
     JsMap.empty 1 1 1 1 1 1.

Definition constructor (now : Z) : t :=
  snd (createUser
         {| iu_username := "sarah.chen";
            iu_password := "password123";
            iu_displayName := "Dr. Sarah Chen";
            iu_role := Some "Principal Investigator";
            iu_avatarUrl := None |} now blank).

(** *** Attachment operations *)

Definition getAttachment (id : Z) (s : t) : option Attachment :=
  JsMap.get id (attachments s).

Definition listAttachmentsByNote (noteId : Z) (s : t) : list Attachment :=
  filter (fun attachment => Z.eqb (a_noteId attachment) noteId)
         (JsMap.values (attachments s)).

Definition createAttachment (insertAttachment : InsertAttachment) (now : Z)
  (s : t) : Attachment * t :=
  let id := attachmentId s in
  let createdAt := now in
  let attachment :=
    {| a_id := id;
       a_fileName := ia_fileName insertAttachment;
       a_fileSize := ia_fileSize insertAttachment;
       a_fileType := ia_fileType insertAttachment;
       a_fileData := ia_fileData insertAttachment;
       a_noteId := ia_noteId insertAttachment;
       a_createdAt := createdAt |} in
  (attachment,
   with_attachments (JsMap.set id attachment (attachments s)) (id + 1) s).

Definition deleteAttachment (id : Z) (s : t) : bool * t :=
  let (r, m) := JsMap.delete id (attachments s) in
  (r, with_attachments m (attachmentId s) s).

(** *** Note operations *)

Definition getNote (id : Z) (s : t) : option Note := JsMap.get id (notes s).

Definition listNotes (s : t) : list Note := JsMap.values (notes s).

Definition listNotesByExperiment (experimentId : Z) (s : t) : list Note :=
  filter (fun note => Z.eqb (n_experimentId note) experimentId)
         (JsMap.values (notes s)).

Definition createNote (insertNote : InsertNote) (now : Z) (s : t)
  : Note * t :=
  let id := noteId s in
  let createdAt := now in
  let updatedAt := createdAt in
  let note :=
    {| n_id := id;
       n_title := in_title insertNote;
       n_content := in_content insertNote;
       n_experimentId := in_experimentId insertNote;
       n_authorId := in_authorId insertNote;
       n_createdAt := createdAt;
       n_updatedAt := updatedAt |} in
  (note, with_notes (JsMap.set id note (notes s)) (id + 1) s).

Definition updateNote (id : Z) (noteUpdate : PartialNote) (now : Z) (s : t)
  : option Note * t :=
  match JsMap.get id (notes s) with
  | None => (None, s)
  | Some existingNote =>
      let updatedNote := patchNote existingNote noteUpdate now in
      (Some updatedNote,
       with_notes (JsMap.set id updatedNote (notes s)) (noteId s) s)
  end.

Definition deleteNote (id : Z) (s : t) : bool * t :=
  let noteAttachments := listAttachmentsByNote id s in
  let s1 :=
    fold_left (fun st attachment => snd (deleteAttachment (a_id attachment) st))
              noteAttachments s in
  let (r, m) := JsMap.delete id (notes s1) in
  (r, with_notes m (noteId s1) s1).

(** *** Experiment operations *)

Definition getExperiment (id : Z) (s : t) : option Experiment :=
  JsMap.get id (experiments s).

Definition listExperiments (s : t) : list Experiment :=
  JsMap.values (experiments s).

Definition listExperimentsByProject (projectId : Z) (s : t)
  : list Experiment :=
  filter (fun experiment => Z.eqb (e_projectId experiment) projectId)
         (JsMap.values (experiments s)).

Definition createExperiment (insertExperiment : InsertExperiment) (now : Z)
  (s : t) : Experiment * t :=
  let id := experimentId s in
  let createdAt := now in
  let updatedAt := createdAt in
  let experiment :=
    {| e_id := id;
       e_name := ie_name insertExperiment;
       e_description := ie_description insertExperiment;
       e_projectId := ie_projectId insertExperiment;
       e_createdAt := createdAt;
       e_updatedAt := updatedAt |} in
  (experiment,
   with_experiments (JsMap.set id experiment (experiments s)) (id + 1) s).

Definition updateExperiment (id : Z) (experimentUpdate : PartialExperiment)
  (now : Z) (s : t) : option Experiment * t :=
  match JsMap.get id (experiments s) with
  | None => (None, s)
  | Some existingExperiment =>
      let updatedExperiment :=
        patchExperiment existingExperiment experimentUpdate now in
      (Some updatedExperiment,
       with_experiments (JsMap.set id updatedExperiment (experiments s))
                        (experimentId s) s)
  end.

Definition deleteExperiment (id : Z) (s : t) : bool * t :=
  let experimentNotes := listNotesByExperiment id s in
  let s1 :=
    fold_left (fun st note => snd (deleteNote (n_id note) st))
              experimentNotes s in
  let (r, m) := JsMap.delete id (experiments s1) in
  (r, with_experiments m (experimentId s1) s1).

(** *** Project collaborator operations *)

Definition addCollaborator (insertCollaborator : InsertProjectCollaborator)
  (s : t) : ProjectCollaborator * t :=
  let id := collaboratorId s in
  let collaborator :=
    {| c_id := id;
       c_projectId := ic_projectId insertCollaborator;
       c_userId := ic_userId insertCollaborator;
       c_role := ic_role insertCollaborator |} in
  (collaborator,
   with_projectCollaborators
     (JsMap.set id collaborator (projectCollaborators s)) (id + 1) s).

Definition removeCollaborator (projectId userId : Z) (s : t) : bool * t :=
  match find (fun c => Z.eqb (c_projectId c) projectId
                       && Z.eqb (c_userId c) userId)
             (JsMap.values (projectCollaborators s)) with
  | None => (false, s)
  | Some collaborator =>
      let (r, m) := JsMap.delete (c_id collaborator)
                                 (projectCollaborators s) in
      (r, with_projectCollaborators m (collaboratorId s) s)
  end.

Definition listCollaboratorsByProject (projectId : Z) (s : t)
  : list ProjectCollaborator :=
  filter (fun collaborator => Z.eqb (c_projectId collaborator) projectId)
         (JsMap.values (projectCollaborators s)).

(** *** Project operations *)

Definition getProject (id : Z) (s : t) : option Project :=
  JsMap.get id (projects s).

Definition listProjects (s : t) : list Project := JsMap.values (projects s).

(** The elements of the arrays are objects of [this.projects]; each is
    carried with the key of its entry, which is what the [Set] compares. *)
Definition project_ref (id : Z) (s : t) : option (Z * Project) :=
  match JsMap.get id (projects s) with
  | Some p => Some (id, p)
  | None => None
  end.

Definition listProjectsByUser (userId : Z) (s : t) : list Project :=
  let userProjects :=
    filter (fun entry => Z.eqb (p_ownerId (snd entry)) userId)
           (projects s) in
  let collaboratorProjects :=
    filter_Boolean
      (map (fun collab => project_ref (c_projectId collab) s)
           (filter (fun collab => Z.eqb (c_userId collab) userId)
                   (JsMap.values (projectCollaborators s)))) in
  map snd (Set_of_refs [] (userProjects ++ collaboratorProjects)).

Definition createProject (insertProject : InsertProject) (now : Z) (s : t)
  : Project * t :=
  let id := projectId s in
  let createdAt := now in
  let updatedAt := createdAt in
  let project :=
    {| p_id := id;
       p_name := ip_name insertProject;
       p_description := ip_description insertProject;
       p_createdAt := createdAt;
       p_updatedAt := updatedAt;
       p_ownerId := ip_ownerId insertProject |} in
  (project, with_projects (JsMap.set id project (projects s)) (id + 1) s).

Definition updateProject (id : Z) (projectUpdate : PartialProject) (now : Z)
  (s : t) : option Project * t :=
  match JsMap.get id (projects s) with
  | None => (None, s)
  | Some existingProject =>
      let updatedProject := patchProject existingProject projectUpdate now in
      (Some updatedProject,
       with_projects (JsMap.set id updatedProject (projects s))
                     (projectId s) s)
  end.

Definition deleteProject (id : Z) (s : t) : bool * t :=
  let projectExperiments := listExperimentsByProject id s in
  let s1 :=
    fold_left (fun st experiment => snd (deleteExperiment (e_id experiment) st))
              projectExperiments s in
  let collaborators := listCollaboratorsByProject id s1 in
  let s2 :=
    fold_left (fun st collaborator =>
                 snd (removeCollaborator id (c_userId collaborator) st))
              collaborators s1 in
  let (r, m) := JsMap.delete id (projects s2) in
  (r, with_projects m (projectId s2) s2).

(** *** Search operations *)

(** [field && field.toLowerCase().includes(q)] on an optional text. *)
Definition optional_includes (field : option string) (q : string) : bool :=
  match field with
  | Some text => Str.truthy text && Str.includes (Str.toLowerCase text) q
  | None => false
  end.

Definition searchNotes (query : string) (s : t) : list Note :=
  if negb (Str.truthy query) then []
  else
    let lowercaseQuery := Str.toLowerCase query in
    filter (fun note =>
              Str.includes (Str.toLowerCase (n_title note)) lowercaseQuery
              || optional_includes (n_content note) lowercaseQuery)
           (JsMap.values (notes s)).

Definition searchProjects (query : string) (s : t) : list Project :=
  if negb (Str.truthy query) then []
  else
    let lowercaseQuery := Str.toLowerCase query in
    filter (fun project =>
              Str.includes (Str.toLowerCase (p_name project)) lowercaseQuery
              || optional_includes (p_description project) lowercaseQuery)
           (JsMap.values (projects s)).

Definition searchExperiments (query : string) (s : t) : list Experiment :=
  if negb (Str.truthy query) then []
  else
    let lowercaseQuery := Str.toLowerCase query in
    filter (fun experiment =>
              Str.includes (Str.toLowerCase (e_name experiment))
                           lowercaseQuery
              || optional_includes (e_description experiment) lowercaseQuery)
           (JsMap.values (experiments s)).

End MemStorage.

(** ** The relational backend ([class DatabaseStorage])

    The database behind [db] is PostgreSQL reached through drizzle; the
    module [./db], which only opens the connection, is not among the sources,
    and the query builders are modelled by the SQL statements drizzle emits
    for them. A state is the content of the six tables of
    [shared/schema.ts], each in the order in which a scan of the table
    meets its rows (the order of insertion, an updated row coming after
    the others), and the value the sequence of each [serial] column hands
    out next. The methods issue their statements one at a time on the
    connection; no method opens a transaction, so every statement that
    completes is committed on its own.

    A statement can be rejected: by the only constraints the schema
    declares (the primary keys and [users.username] unique), by the type
    of its columns ([serial] and [integer] are 32-bit: an integer parameter
    outside that range is refused when the statement is bound, error 22003,
    and a sequence that has handed out its last value refuses the next
    one), or because the backend has become unreachable. The last cause is
    driven by a fault plan: [Some n] lets [n] more statements through and
    fails the next one, [None] never fails. A rejected [await] throws out
    of the method (none of them catches), which leaves the state as the
    completed statements made it. ([TypeError] is not a rejection of the
    backend: it is what JavaScript itself throws in a caller of the
    storage, see [Routes].) *)

Module DatabaseStorage.

Record t := mk {
  users : list User;
  projects : list Project;
  experiments : list Experiment;
  notes : list Note;
  attachments : list Attachment;
  projectCollaborators : list ProjectCollaborator;
  users_id_seq : Z;
  projects_id_seq : Z;
  experiments_id_seq : Z;
  notes_id_seq : Z;
  attachments_id_seq : Z;
  project_collaborators_id_seq : Z }.

Inductive error :=
| StorageUnavailable
| UniqueViolation
| IntegerOutOfRange
| SequenceExhausted
| TypeError.

Inductive outcome (A : Type) :=
| Resolved (a : A) (s : t) (plan : option nat)
| Rejected (e : error) (s : t).

Arguments Rejected {A} e s.

Definition db (A : Type) : Type := t -> option nat -> outcome A.

Definition ret {A : Type} (a : A) : db A := fun s plan => Resolved a s plan.

Definition bind {A B : Type} (m : db A) (k : A -> db B) : db B :=
  fun s plan =>
    match m s plan with
    | Resolved a s' plan' => k a s' plan'
    | Rejected e s' => Rejected e s'
    end.

(** [throw e] in an [async] function. *)
Definition throw {A : Type} (e : error) : db A := fun s _ => Rejected e s.

Declare Scope db_scope.
Delimit Scope db_scope with db.
Notation "x <- m ;; k" := (bind m (fun x => k))
  (at level 61, m at next level, right associativity) : db_scope.
Notation "m ;;; k" := (bind m (fun _ => k))
  (at level 61, right associativity) : db_scope.

(** [for (const x of xs) { await body(x) }]. *)
Fixpoint for_of {X : Type} (xs : list X) (body : X -> db unit) : db unit :=
  match xs with
  | [] => ret tt
  | x :: r => bind (body x) (fun _ => for_of r body)
  end.

(** One statement sent to the server. *)
Definition statement {A : Type} (run : t -> (error + A) * t) : db A :=
  fun s plan =>
    match plan with
    | Some O => Rejected StorageUnavailable s
    | _ =>
        match run s with
        | (inr a, s') => Resolved a s' (option_map Nat.pred plan)
        | (inl e, s') => Rejected e s'
        end
    end.

(** The values of an [integer] or [serial] column (PostgreSQL [int4]). *)
Definition in_int4 (z : Z) : bool :=
  (-2147483648 <=? z)%Z && (z <=? 2147483647)%Z.

Definition in_range (params : list Z) : bool := forallb in_int4 params.

(** The integer a partial shape carries for a column, if it carries one. *)
Definition opt_param (o : option Z) : list Z :=
  match o with Some z => [z] | None => [] end.

(** A method whose caller hands it the integers [params], all of which it
    passes to its first statement as parameters for [integer] columns:
    when one of them does not fit, the server refuses that statement as it
    binds it, before anything is run (if the server is reached at all).
    The integers a method reads back from the tables fit by construction
    and are not checked again. *)
Definition bound {A : Type} (params : list Z) (m : db A) : db A :=
  if in_range params then m
  else fun s plan =>
         match plan with
         | Some O => Rejected StorageUnavailable s
         | _ => Rejected IntegerOutOfRange s
         end.

(** A table of the schema as the statements see it: its rows, its
    sequence, its primary key and, beyond the primary key, the columns
    declared [unique()]. *)
Record table (R : Type) := mkTable {
  rows : t -> list R;
  put_rows : list R -> t -> t;
  nextval : t -> Z;
  advance : t -> t;
  pkey : R -> Z;
  unique_clash : R -> R -> bool }.

Definition users_table : table User :=
  {| rows := users;
     put_rows := fun l s =>
       mk l (projects s) (experiments s) (notes s) (attachments s)
          (projectCollaborators s) (users_id_seq s) (projects_id_seq s)
          (experiments_id_seq s) (notes_id_seq s) (attachments_id_seq s)
          (project_collaborators_id_seq s);
     nextval := users_id_seq;
     advance := fun s =>
       mk (users s) (projects s) (experiments s) (notes s) (attachments s)
          (projectCollaborators s) (users_id_seq s + 1) (projects_id_seq s)
          (experiments_id_seq s) (notes_id_seq s) (attachments_id_seq s)
          (project_collaborators_id_seq s);
     pkey := u_id;
     unique_clash := fun a b => String.eqb (u_username a) (u_username b) |}.

Definition projects_table : table Project :=
  {| rows := projects;
     put_rows := fun l s =>
       mk (users s) l (experiments s) (notes s) (attachments s)
          (projectCollaborators s) (users_id_seq s) (projects_id_seq s)
          (experiments_id_seq s) (notes_id_seq s) (attachments_id_seq s)
          (project_collaborators_id_seq s);
     nextval := projects_id_seq;
     advance := fun s =>
       mk (users s) (projects s) (experiments s) (notes s) (attachments s)
          (projectCollaborators s) (users_id_seq s) (projects_id_seq s + 1)
          (experiments_id_seq s) (notes_id_seq s) (attachments_id_seq s)
          (project_collaborators_id_seq s);
     pkey := p_id;
     unique_clash := fun _ _ => false |}.

Definition experiments_table : table Experiment :=
  {| rows := experiments;
     put_rows := fun l s =>
       mk (users s) (projects s) l (notes s) (attachments s)
          (projectCollaborators s) (users_id_seq s) (projects_id_seq s)
          (experiments_id_seq s) (notes_id_seq s) (attachments_id_seq s)
          (project_collaborators_id_seq s);
     nextval := experiments_id_seq;
     advance := fun s =>
       mk (users s) (projects s) (experiments s) (notes s) (attachments s)
          (projectCollaborators s) (users_id_seq s) (projects_id_seq s)
          (experiments_id_seq s + 1) (notes_id_seq s) (attachments_id_seq s)
          (project_collaborators_id_seq s);
     pkey := e_id;
     unique_clash := fun _ _ => false |}.

Definition notes_table : table Note :=
  {| rows := notes;
     put_rows := fun l s =>
       mk (users s) (projects s) (experiments s) l (attachments s)
          (projectCollaborators s) (users_id_seq s) (projects_id_seq s)
          (experiments_id_seq s) (notes_id_seq s) (attachments_id_seq s)
          (project_collaborators_id_seq s);
     nextval := notes_id_seq;
     advance := fun s =>
       mk (users s) (projects s) (experiments s) (notes s) (attachments s)
          (projectCollaborators s) (users_id_seq s) (projects_id_seq s)
          (experiments_id_seq s) (notes_id_seq s + 1) (attachments_id_seq s)
          (project_collaborators_id_seq s);
     pkey := n_id;
     unique_clash := fun _ _ => false |}.

Definition attachments_table : table Attachment :=
  {| rows := attachments;
     put_rows := fun l s =>
       mk (users s) (projects s) (experiments s) (notes s) l
          (projectCollaborators s) (users_id_seq s) (projects_id_seq s)
          (experiments_id_seq s) (notes_id_seq s) (attachments_id_seq s)
          (project_collaborators_id_seq s);
     nextval := attachments_id_seq;
     advance := fun s =>
       mk (users s) (projects s) (experiments s) (notes s) (attachments s)
          (projectCollaborators s) (users_id_seq s) (projects_id_seq s)
          (experiments_id_seq s) (notes_id_seq s) (attachments_id_seq s + 1)
          (project_collaborators_id_seq s);
     pkey := a_id;
     unique_clash := fun _ _ => false |}.

Definition projectCollaborators_table : table ProjectCollaborator :=
  {| rows := projectCollaborators;
     put_rows := fun l s =>
       mk (users s) (projects s) (experiments s) (notes s) (attachments s)
          l (users_id_seq s) (projects_id_seq s)
          (experiments_id_seq s) (notes_id_seq s) (attachments_id_seq s)
          (project_collaborators_id_seq s);
     nextval := project_collaborators_id_seq;
     advance := fun s =>
       mk (users s) (projects s) (experiments s) (notes s) (attachments s)
          (projectCollaborators s) (users_id_seq s) (projects_id_seq s)
          (experiments_id_seq s) (notes_id_seq s) (attachments_id_seq s)
          (project_collaborators_id_seq s + 1);
     pkey := c_id;
     unique_clash := fun _ _ => false |}.

(** The query builders of drizzle, each awaited as one statement. *)
Section Builders.
Variables (R : Type) (tbl : table R).

(** [db.select(columns).from(tbl).where(cond)]. *)
Definition select {C : Type} (columns : R -> C) (cond : R -> bool)
  : db (list C) :=
  statement (fun s => (inr (map columns (filter cond (rows tbl s))), s)).

(** [db.delete(tbl).where(cond)]; the answer is [result.rowCount]. *)
Definition delete (cond : R -> bool) : db Z :=
  statement (fun s =>
    (inr (Z.of_nat (List.length (filter cond (rows tbl s)))),
     put_rows tbl (filter (fun r => negb (cond r)) (rows tbl s)) s)).

(** [db.insert(tbl).values(v).returning()]: the row takes its id from
    the sequence of the [serial] column. A sequence whose next value
    is beyond the column type has run out and refuses; otherwise it moves
    on, also when the insertion is then refused by a constraint. *)
Definition insert (values : Z -> R) : db (list R) :=
  statement (fun s =>
    if negb (in_int4 (nextval tbl s)) then (inl SequenceExhausted, s)
    else
      let row := values (nextval tbl s) in
      let s' := advance tbl s in
      if existsb (fun r => Z.eqb (pkey tbl r) (pkey tbl row)
                           || unique_clash tbl r row) (rows tbl s')
      then (inl UniqueViolation, s')
      else (inr [row], put_rows tbl (rows tbl s' ++ [row]) s')).

(** [db.update(tbl).set(assign).where(cond).returning()]. PostgreSQL
    writes a new version of each row it updates and leaves the old one
    dead in its place: a later scan of the table meets the updated rows
    after the rows that were left alone. *)
Definition update (assign : R -> R) (cond : R -> bool) : db (list R) :=
  statement (fun s =>
    (inr (map assign (filter cond (rows tbl s))),
     put_rows tbl
       (filter (fun r => negb (cond r)) (rows tbl s)
        ++ map assign (filter cond (rows tbl s))) s)).
End Builders.

(** [const [x] = rows; return x || undefined]. *)
Definition first {R : Type} (l : list R) : option R := hd_error l.

Definition everything {R : Type} (r : R) : R := r.
Definition always {R : Type} (r : R) : bool := true.

(** A column [LIKE] a pattern; on a null column the comparison is
    unknown, and a row is kept only when the condition is true. *)
Definition like_nullable (column : option string) (pattern : string)
  : bool :=
  match column with
  | Some text => Str.like text pattern
  | None => false
  end.

Local Open Scope db_scope.

(** *** User operations *)

Definition getUser (id : Z) : db (option User) :=
  bound [id] (
    l <- select users_table everything (fun r => Z.eqb (u_id r) id) ;;
    ret (first l)).

Definition getUserByUsername (username : string) : db (option User) :=
  l <- select users_table everything
         (fun r => String.eqb (u_username r) username) ;;
  ret (first l).

Definition createUser (insertUser : InsertUser) (now : Z)
  : db (option User) :=
  l <- insert users_table (fun id =>
         {| u_id := id;
            u_username := iu_username insertUser;
            u_password := iu_password insertUser;
            u_displayName := iu_displayName insertUser;
            u_role := Some (override (iu_role insertUser) "Researcher");
            u_avatarUrl := iu_avatarUrl insertUser;
            u_createdAt := now |}) ;;
  ret (first l).

Definition listUsers : db (list User) :=
  select users_table everything always.

(** *** Project operations *)

Definition getProject (id : Z) : db (option Project) :=
  bound [id] (
    l <- select projects_table everything (fun r => Z.eqb (p_id r) id) ;;
    ret (first l)).

Definition listProjects : db (list Project) :=
  select projects_table everything always.

Definition listProjectsByUser (userId : Z) : db (list Project) :=
  bound [userId] (
    ownedProjects <- select projects_table everything
                       (fun r => Z.eqb (p_ownerId r) userId) ;;
    collaboratedProjectIds <- select projectCollaborators_table c_projectId
                                (fun r => Z.eqb (c_userId r) userId) ;;
    collabProjects <-
      (if (0 <? Z.of_nat (List.length collaboratedProjectIds))%Z
       then select projects_table everything
              (fun r => existsb (fun collab => Z.eqb (p_id r) collab)
                                collaboratedProjectIds)
       else ret []) ;;
    ret (ownedProjects ++ collabProjects)%list).

Definition createProject (insertProject : InsertProject) (now : Z)
  : db (option Project) :=
  bound [ip_ownerId insertProject] (
    l <- insert projects_table (fun id =>
           {| p_id := id;
              p_name := ip_name insertProject;
              p_description := ip_description insertProject;
              p_createdAt := now;
              p_updatedAt := now;
              p_ownerId := ip_ownerId insertProject |}) ;;
    ret (first l)).

Definition updateProject (id : Z) (projectUpdate : PartialProject) (now : Z)
  : db (option Project) :=
  bound (id :: opt_param (pp_ownerId projectUpdate)) (
    l <- update projects_table (fun r => patchProject r projectUpdate now)
           (fun r => Z.eqb (p_id r) id) ;;
    ret (first l)).

Definition deleteProject (id : Z) : db bool :=
  bound [id] (
    projectExperiments <- select experiments_table e_id
                            (fun r => Z.eqb (e_projectId r) id) ;;
    for_of projectExperiments (fun exp =>
      expNotes <- select notes_table n_id
                    (fun r => Z.eqb (n_experimentId r) exp) ;;
      for_of expNotes (fun note =>
        delete attachments_table (fun r => Z.eqb (a_noteId r) note) ;;;
        ret tt) ;;;
      delete notes_table (fun r => Z.eqb (n_experimentId r) exp) ;;;
      ret tt) ;;;
    delete experiments_table (fun r => Z.eqb (e_projectId r) id) ;;;
    delete projectCollaborators_table (fun r => Z.eqb (c_projectId r) id) ;;;
    rowCount <- delete projects_table (fun r => Z.eqb (p_id r) id) ;;
    ret (0 <? rowCount)%Z).

(** *** Experiment operations *)

Definition getExperiment (id : Z) : db (option Experiment) :=
  bound [id] (
    l <- select experiments_table everything (fun r => Z.eqb (e_id r) id) ;;
    ret (first l)).

Definition listExperiments : db (list Experiment) :=
  select experiments_table everything always.

Definition listExperimentsByProject (projectId : Z) : db (list Experiment) :=
  bound [projectId] (
    select experiments_table everything
      (fun r => Z.eqb (e_projectId r) projectId)).

Definition createExperiment (insertExperiment : InsertExperiment) (now : Z)
  : db (option Experiment) :=
  bound [ie_projectId insertExperiment] (
    l <- insert experiments_table (fun id =>
           {| e_id := id;
              e_name := ie_name insertExperiment;
              e_description := ie_description insertExperiment;
              e_projectId := ie_projectId insertExperiment;
              e_createdAt := now;
              e_updatedAt := now |}) ;;
    ret (first l)).

Definition updateExperiment (id : Z) (experimentUpdate : PartialExperiment)
  (now : Z) : db (option Experiment) :=
  bound (id :: opt_param (pe_projectId experimentUpdate)) (
    l <- update experiments_table
           (fun r => patchExperiment r experimentUpdate now)
           (fun r => Z.eqb (e_id r) id) ;;
    ret (first l)).

Definition deleteExperiment (id : Z) : db bool :=
  bound [id] (
    experimentNotes <- select notes_table n_id
                         (fun r => Z.eqb (n_experimentId r) id) ;;
    for_of experimentNotes (fun note =>
      delete attachments_table (fun r => Z.eqb (a_noteId r) note) ;;;
      ret tt) ;;;
    delete notes_table (fun r => Z.eqb (n_experimentId r) id) ;;;
    rowCount <- delete experiments_table (fun r => Z.eqb (e_id r) id) ;;
    ret (0 <? rowCount)%Z).

(** *** Note operations *)

Definition getNote (id : Z) : db (option Note) :=
  bound [id] (
    l <- select notes_table everything (fun r => Z.eqb (n_id r) id) ;;
    ret (first l)).

Definition createNote (insertNote : InsertNote) (now : Z)
  : db (option Note) :=
  bound [in_experimentId insertNote; in_authorId insertNote] (
    l <- insert notes_table (fun id =>
           {| n_id := id;
              n_title := in_title insertNote;
              n_content := in_content insertNote;
              n_experimentId := in_experimentId insertNote;
              n_authorId := in_authorId insertNote;
              n_createdAt := now;
              n_updatedAt := now |}) ;;
    ret (first l)).

Definition updateNote (id : Z) (noteUpdate : PartialNote) (now : Z)
  : db (option Note) :=
  bound (id :: opt_param (pn_experimentId noteUpdate)
            ++ opt_param (pn_authorId noteUpdate)) (
    l <- update notes_table (fun r => patchNote r noteUpdate now)
           (fun r => Z.eqb (n_id r) id) ;;
    ret (first l)).

Definition deleteNote (id : Z) : db bool :=
  bound [id] (
    delete attachments_table (fun r => Z.eqb (a_noteId r) id) ;;;
    rowCount <- delete notes_table (fun r => Z.eqb (n_id r) id) ;;
    ret (0 <? rowCount)%Z).

(** *** Attachment operations *)

Definition getAttachment (id : Z) : db (option Attachment) :=
  bound [id] (
    l <- select attachments_table everything (fun r => Z.eqb (a_id r) id) ;;
    ret (first l)).

Definition listAttachmentsByNote (noteId : Z) : db (list Attachment) :=
  bound [noteId] (
    select attachments_table everything (fun r => Z.eqb (a_noteId r) noteId)).

Definition createAttachment (insertAttachment : InsertAttachment) (now : Z)
  : db (option Attachment) :=
  bound [ia_fileSize insertAttachment; ia_noteId insertAttachment] (
    l <- insert attachments_table (fun id =>
           {| a_id := id;
              a_fileName := ia_fileName insertAttachment;
              a_fileSize := ia_fileSize insertAttachment;
              a_fileType := ia_fileType insertAttachment;
              a_fileData := ia_fileData insertAttachment;
              a_noteId := ia_noteId insertAttachment;
              a_createdAt := now |}) ;;
    ret (first l)).

Definition deleteAttachment (id : Z) : db bool :=
  bound [id] (
    rowCount <- delete attachments_table (fun r => Z.eqb (a_id r) id) ;;
    ret (0 <? rowCount)%Z).

(** *** Project collaborator operations *)

Definition addCollaborator (insertCollaborator : InsertProjectCollaborator)
  : db (option ProjectCollaborator) :=
  bound [ic_projectId insertCollaborator; ic_userId insertCollaborator] (
    l <- insert projectCollaborators_table (fun id =>
           {| c_id := id;
              c_projectId := ic_projectId insertCollaborator;
              c_userId := ic_userId insertCollaborator;
              c_role := Some (override (ic_role insertCollaborator)
                                       "Viewer") |}) ;;
    ret (first l)).

Definition removeCollaborator (projectId userId : Z) : db bool :=
  bound [projectId; userId] (
    rowCount <- delete projectCollaborators_table
                  (fun r => Z.eqb (c_projectId r) projectId
                            && Z.eqb (c_userId r) userId) ;;
    ret (0 <? rowCount)%Z).

Definition listCollaboratorsByProject (projectId : Z)
  : db (list ProjectCollaborator) :=
  bound [projectId] (
    select projectCollaborators_table everything
      (fun r => Z.eqb (c_projectId r) projectId)).

(** *** Search operations

    [notes.content || ''] is evaluated in JavaScript on the column
    object, which is truthy: the operand of [like] is the column itself. *)

Definition searchNotes (query : string) : db (list Note) :=
  let searchTerm := Str.searchTerm query in
  select notes_table everything
    (fun r => Str.like (n_title r) searchTerm
              || like_nullable (n_content r) searchTerm).

Definition searchProjects (query : string) : db (list Project) :=
  let searchTerm := Str.searchTerm query in
  select projects_table everything
    (fun r => Str.like (p_name r) searchTerm
              || like_nullable (p_description r) searchTerm).

Definition searchExperiments (query : string) : db (list Experiment) :=
  let searchTerm := Str.searchTerm query in
  select experiments_table everything
    (fun r => Str.like (e_name r) searchTerm
              || like_nullable (e_description r) searchTerm).

(** A database on which the migrations have just run. *)
Definition fresh : t := mk [] [] [] [] [] [] 1 1 1 1 1 1.

End DatabaseStorage.

(** ** Well-formed states

    What the constructors establish and every method keeps: an object sits
    in a [Map] under its own id, below the counter that hands out the next
    id ([Map] keys are distinct by construction); a row carries an id its
    sequence has already handed out, and primary keys are distinct. *)

Fixpoint distinct (l : list Z) : bool :=
  match l with
  | [] => true
  | x :: r => negb (existsb (Z.eqb x) r) && distinct r
  end.

Definition keyed {V : Type} (id : V -> Z) (next : Z) (m : JsMap.t V) : bool :=
  distinct (JsMap.keys m)
  && forallb (fun e => Z.eqb (id (snd e)) (fst e) && Z.ltb (fst e) next) m.

Definition issued {R : Type} (id : R -> Z) (next : Z) (l : list R) : bool :=
  distinct (map id l) && forallb (fun r => Z.ltb (id r) next) l.

Module Wf.

Definition mem (s : MemStorage.t) : Prop :=
  keyed u_id (MemStorage.userId s) (MemStorage.users s) = true /\
  keyed p_id (MemStorage.projectId s) (MemStorage.projects s) = true /\
  keyed e_id (MemStorage.experimentId s) (MemStorage.experiments s) = true /\
  keyed n_id (MemStorage.noteId s) (MemStorage.notes s) = true /\
  keyed a_id (MemStorage.attachmentId s) (MemStorage.attachments s) = true /\
  keyed c_id (MemStorage.collaboratorId s)
        (MemStorage.projectCollaborators s) = true.

Definition db (s : DatabaseStorage.t) : Prop :=
  issued u_id (DatabaseStorage.users_id_seq s)
         (DatabaseStorage.users s) = true /\
  issued p_id (DatabaseStorage.projects_id_seq s)
         (DatabaseStorage.projects s) = true /\
  issued e_id (DatabaseStorage.experiments_id_seq s)
         (DatabaseStorage.experiments s) = true /\
  issued n_id (DatabaseStorage.notes_id_seq s)
         (DatabaseStorage.notes s) = true /\
  issued a_id (DatabaseStorage.attachments_id_seq s)
         (DatabaseStorage.attachments s) = true /\
  issued c_id (DatabaseStorage.project_collaborators_id_seq s)
         (DatabaseStorage.projectCollaborators s) = true.

End Wf.

(** ** Reachable states

    The calls of [IStorage] that can change a store, and the states a
    backend can be in: the one its constructor (or the migration) leaves,
    and every state reached from such a state by a call. For the relational
    backend a call runs under any fault plan, and the state it leaves when
    it is rejected is reachable as well. *)

Module Call.

Inductive t :=
| CreateUser (insertUser : InsertUser) (now : Z)
| CreateProject (insertProject : InsertProject) (now : Z)
| UpdateProject (id : Z) (projectUpdate : PartialProject) (now : Z)
| DeleteProject (id : Z)
| CreateExperiment (insertExperiment : InsertExperiment) (now : Z)
| UpdateExperiment (id : Z) (experimentUpdate : PartialExperiment) (now : Z)
| DeleteExperiment (id : Z)
| CreateNote (insertNote : InsertNote) (now : Z)
| UpdateNote (id : Z) (noteUpdate : PartialNote) (now : Z)
| DeleteNote (id : Z)
| CreateAttachment (insertAttachment : InsertAttachment) (now : Z)
| DeleteAttachment (id : Z)
| AddCollaborator (insertCollaborator : InsertProjectCollaborator)
| RemoveCollaborator (projectId userId : Z).

Definition mem (c : t) (s : MemStorage.t) : MemStorage.t :=
  match c with
  | CreateUser i now => snd (MemStorage.createUser i now s)
  | CreateProject i now => snd (MemStorage.createProject i now s)
  | UpdateProject id u now => snd (MemStorage.updateProject id u now s)
  | DeleteProject id => snd (MemStorage.deleteProject id s)
  | CreateExperiment i now => snd (MemStorage.createExperiment i now s)
  | UpdateExperiment id u now => snd (MemStorage.updateExperiment id u now s)
  | DeleteExperiment id => snd (MemStorage.deleteExperiment id s)
  | CreateNote i now => snd (MemStorage.createNote i now s)
  | UpdateNote id u now => snd (MemStorage.updateNote id u now s)
  | DeleteNote id => snd (MemStorage.deleteNote id s)
  | CreateAttachment i now => snd (MemStorage.createAttachment i now s)
  | DeleteAttachment id => snd (MemStorage.deleteAttachment id s)
  | AddCollaborator i => snd (MemStorage.addCollaborator i s)
  | RemoveCollaborator p u => snd (MemStorage.removeCollaborator p u s)
  end.

(** The state a database computation leaves, resolved or rejected. *)
Definition left {A : Type} (o : DatabaseStorage.outcome A)
  : DatabaseStorage.t :=
  match o with
  | DatabaseStorage.Resolved _ s _ => s
  | DatabaseStorage.Rejected _ s => s
  end.

Definition db (c : t) (s : DatabaseStorage.t) (plan : option nat)
  : DatabaseStorage.t :=
  match c with
  | CreateUser i now => left (DatabaseStorage.createUser i now s plan)
  | CreateProject i now => left (DatabaseStorage.createProject i now s plan)
  | UpdateProject id u now =>
      left (DatabaseStorage.updateProject id u now s plan)
  | DeleteProject id => left (DatabaseStorage.deleteProject id s plan)
  | CreateExperiment i now =>
      left (DatabaseStorage.createExperiment i now s plan)
  | UpdateExperiment id u now =>
      left (DatabaseStorage.updateExperiment id u now s plan)
  | DeleteExperiment id => left (DatabaseStorage.deleteExperiment id s plan)
  | CreateNote i now => left (DatabaseStorage.createNote i now s plan)
  | UpdateNote id u now => left (DatabaseStorage.updateNote id u now s plan)
  | DeleteNote id => left (DatabaseStorage.deleteNote id s plan)
  | CreateAttachment i now =>
      left (DatabaseStorage.createAttachment i now s plan)
  | DeleteAttachment id => left (DatabaseStorage.deleteAttachment id s plan)
  | AddCollaborator i => left (DatabaseStorage.addCollaborator i s plan)
  | RemoveCollaborator p u =>
      left (DatabaseStorage.removeCollaborator p u s plan)
  end.

End Call.

Module Reachable.

Inductive mem : MemStorage.t -> Prop :=
| mem_constructed (now : Z) : mem (MemStorage.constructor now)
| mem_called (c : Call.t) (s : MemStorage.t) : mem s -> mem (Call.mem c s).

Inductive db : DatabaseStorage.t -> Prop :=
| db_fresh : db DatabaseStorage.fresh
| db_called (c : Call.t) (s : DatabaseStorage.t) (plan : option nat) :
    db s -> db (Call.db c s plan).

End Reachable.

(** The two backends hold the same data: table by table, the same records
    in the same order. *)
Definition same_data (m : MemStorage.t) (d : DatabaseStorage.t) : Prop :=
  JsMap.values (MemStorage.users m) = DatabaseStorage.users d /\
  JsMap.values (MemStorage.projects m) = DatabaseStorage.projects d /\
  JsMap.values (MemStorage.experiments m) = DatabaseStorage.experiments d /\
  JsMap.values (MemStorage.notes m) = DatabaseStorage.notes d /\
  JsMap.values (MemStorage.attachments m) = DatabaseStorage.attachments d /\
  JsMap.values (MemStorage.projectCollaborators m)
  = DatabaseStorage.projectCollaborators d.

(** What a method of [DatabaseStorage] answers when the backend stays
    reachable throughout. *)
Definition settled {A : Type} (m : DatabaseStorage.db A)
  (s : DatabaseStorage.t) : option (A * DatabaseStorage.t) :=
  match m s None with
  | DatabaseStorage.Resolved a s' _ => Some (a, s')
  | DatabaseStorage.Rejected _ _ => None
  end.

(** The test of [find] in [MemStorage.removeCollaborator]. *)
Definition is_pair (p u : Z) (c : ProjectCollaborator) : bool :=
  Z.eqb (c_projectId c) p && Z.eqb (c_userId c) u.

(** ** States that only lost records

    The order in which a cascade moves: no table has gained a record, the
    counters and sequences stand where they stood, and the tables above the
    cascade (users, projects) are untouched. *)

Module Below.

Definition mem (s' s : MemStorage.t) : Prop :=
  MemStorage.users s' = MemStorage.users s /\
  MemStorage.projects s' = MemStorage.projects s /\
  incl (MemStorage.experiments s') (MemStorage.experiments s) /\
  incl (MemStorage.notes s') (MemStorage.notes s) /\
  incl (MemStorage.attachments s') (MemStorage.attachments s) /\
  incl (MemStorage.projectCollaborators s')
       (MemStorage.projectCollaborators s) /\
  MemStorage.userId s' = MemStorage.userId s /\
  MemStorage.projectId s' = MemStorage.projectId s /\
  MemStorage.experimentId s' = MemStorage.experimentId s /\
  MemStorage.noteId s' = MemStorage.noteId s /\
  MemStorage.attachmentId s' = MemStorage.attachmentId s /\
  MemStorage.collaboratorId s' = MemStorage.collaboratorId s.

Definition db (s' s : DatabaseStorage.t) : Prop :=
  DatabaseStorage.users s' = DatabaseStorage.users s /\
  DatabaseStorage.projects s' = DatabaseStorage.projects s /\
  incl (DatabaseStorage.experiments s') (DatabaseStorage.experiments s) /\
  incl (DatabaseStorage.notes s') (DatabaseStorage.notes s) /\
  incl (DatabaseStorage.attachments s') (DatabaseStorage.attachments s) /\
  incl (DatabaseStorage.projectCollaborators s')
       (DatabaseStorage.projectCollaborators s) /\
  DatabaseStorage.users_id_seq s' = DatabaseStorage.users_id_seq s /\
  DatabaseStorage.projects_id_seq s' = DatabaseStorage.projects_id_seq s /\
  DatabaseStorage.experiments_id_seq s'
  = DatabaseStorage.experiments_id_seq s /\
  DatabaseStorage.notes_id_seq s' = DatabaseStorage.notes_id_seq s /\
  DatabaseStorage.attachments_id_seq s'
  = DatabaseStorage.attachments_id_seq s /\
  DatabaseStorage.project_collaborators_id_seq s'
  = DatabaseStorage.project_collaborators_id_seq s.

End Below.

(** ** Specifications of database computations

    [triple m s plan Q E]: run from [s] under [plan], the computation [m]
    either resolves with an answer and a state that satisfy [Q], or is
    rejected because the backend became unreachable, in a state that
    satisfies [E]. Under the plan that never fails it resolves. *)

Definition triple {A : Type} (m : DatabaseStorage.db A)
  (s : DatabaseStorage.t) (plan : option nat)
  (Q : A -> DatabaseStorage.t -> Prop) (E : DatabaseStorage.t -> Prop)
  : Prop :=
  match m s plan with
  | DatabaseStorage.Resolved a s' plan' => Q a s' /\ (plan = None -> plan' = None)
  | DatabaseStorage.Rejected e s' =>
      e = DatabaseStorage.StorageUnavailable /\ plan <> None /\ E s'
  end.

(** ** A worked state

    One small laboratory, in both backends: project "Lab A" owned
    by user 1, its experiment "Trial 1", the note "Obs 1" of that
    experiment, the attachment "scan.png" of that note, and user 2 as a
    collaborator of the project. All at instant 0. *)

Module Demo.

Definition lab_a : InsertProject :=
  {| ip_name := "Lab A"; ip_description := None; ip_ownerId := 1 |}.

Definition trial_1 : InsertExperiment :=
  {| ie_name := "Trial 1"; ie_description := None; ie_projectId := 1 |}.

Definition obs_1 : InsertNote :=
  {| in_title := "Obs 1"; in_content := None; in_experimentId := 1;
     in_authorId := 1 |}.

Definition scan_png : InsertAttachment :=
  {| ia_fileName := "scan.png"; ia_fileSize := 4; ia_fileType := "image/png";
     ia_fileData := "c2Nhbg=="; ia_noteId := 1 |}.

Definition helper : InsertProjectCollaborator :=
  {| ic_projectId := 1; ic_userId := 2; ic_role := None |}.

Definition mem : MemStorage.t :=
  let s := MemStorage.constructor 0 in
  let s := snd (MemStorage.createProject lab_a 0 s) in
  let s := snd (MemStorage.createExperiment trial_1 0 s) in
  let s := snd (MemStorage.createNote obs_1 0 s) in
  let s := snd (MemStorage.createAttachment scan_png 0 s) in
  snd (MemStorage.addCollaborator helper s).

(** The state a computation settles in, or the state it started from. *)
Definition after {A : Type} (m : DatabaseStorage.db A)
  (s : DatabaseStorage.t) : DatabaseStorage.t :=
  match settled m s with Some (_, s') => s' | None => s end.

Definition db : DatabaseStorage.t :=
  let s := DatabaseStorage.fresh in
  let s := after (DatabaseStorage.createProject lab_a 0) s in
  let s := after (DatabaseStorage.createExperiment trial_1 0) s in
  let s := after (DatabaseStorage.createNote obs_1 0) s in
  let s := after (DatabaseStorage.createAttachment scan_png 0) s in
  after (DatabaseStorage.addCollaborator helper) s.

(** A second pair of states, holding the same data in both backends: the
    default user and one note, "Protein Assay". *)

Definition sarah : InsertUser :=
  {| iu_username := "sarah.chen"; iu_password := "password123";
     iu_displayName := "Dr. Sarah Chen";
     iu_role := Some "Principal Investigator"; iu_avatarUrl := None |}.

Definition assay : InsertNote :=
  {| in_title := "Protein Assay"; in_content := None; in_experimentId := 1;
     in_authorId := 1 |}.

Definition assay_note : Note :=
  {| n_id := 1; n_title := "Protein Assay"; n_content := None;
     n_experimentId := 1; n_authorId := 1; n_createdAt := 0;
     n_updatedAt := 0 |}.

Definition mem_assay : MemStorage.t :=
  snd (MemStorage.createNote assay 0 (MemStorage.constructor 0)).

Definition db_assay : DatabaseStorage.t :=
  after (DatabaseStorage.createNote assay 0)
        (after (DatabaseStorage.createUser sarah 0) DatabaseStorage.fresh).

(** A third pair: user 1 owns project "Lab A" and is also listed as its
    collaborator. *)

Definition owner_too : InsertProjectCollaborator :=
  {| ic_projectId := 1; ic_userId := 1; ic_role := Some "Viewer" |}.

Definition mem_owner : MemStorage.t :=
  snd (MemStorage.addCollaborator owner_too
         (snd (MemStorage.createProject lab_a 0 (MemStorage.constructor 0)))).

Definition db_owner : DatabaseStorage.t :=
  after (DatabaseStorage.addCollaborator owner_too)
        (after (DatabaseStorage.createProject lab_a 0)
               (after (DatabaseStorage.createUser sarah 0)
                      DatabaseStorage.fresh)).

End Demo.

(** [preserves I m]: whatever state [m] leaves, resolved or rejected, under
    whatever plan, satisfies [I] if the state it started from did. *)
Definition preserves {A : Type} (I : DatabaseStorage.t -> Prop)
  (m : DatabaseStorage.db A) : Prop :=
  forall s plan, I s -> I (Call.left (m s plan)).

(** What well-formedness asks of one table. *)
Record table_ok {R : Type} (tbl : DatabaseStorage.table R) : Prop := {
  ok_rows : forall s, Wf.db s ->
    issued (DatabaseStorage.pkey tbl) (DatabaseStorage.nextval tbl s)
           (DatabaseStorage.rows tbl s) = true;
  ok_put : forall s l, Wf.db s ->
    issued (DatabaseStorage.pkey tbl) (DatabaseStorage.nextval tbl s) l
    = true ->
    Wf.db (DatabaseStorage.put_rows tbl l s);
  ok_advance : forall s, Wf.db s -> Wf.db (DatabaseStorage.advance tbl s);
  ok_advance_rows : forall s,
    DatabaseStorage.rows tbl (DatabaseStorage.advance tbl s)
    = DatabaseStorage.rows tbl s;
  ok_advance_next : forall s,
    DatabaseStorage.nextval tbl (DatabaseStorage.advance tbl s)
    = DatabaseStorage.nextval tbl s + 1 }.

(** ** What the search is meant to find

    [occurs_ci q text]: the query occurs in the text as a substring, case
    set aside. *)

Definition occurs_ci (q text : string) : Prop :=
  exists pre post,
    Str.toLowerCase text = (pre ++ Str.toLowerCase q ++ post)%string.

(** ** The merge law, field by field

    What a partial update may do to one field: take the value the partial
    shape carries, or keep the old one when the shape omits the field. *)





(** * The rest of the storage layer and its callers *)

(** ** Runs of calls *)

Module Run.

(** The calls of a list, one after the other, on the in-memory backend. *)
Definition mem (cs : list Call.t) (s : MemStorage.t) : MemStorage.t :=
  fold_left (fun st c => Call.mem c st) cs s.

(** The same on the relational backend, each call under its own fault
    plan. *)
Definition db (cs : list (Call.t * option nat)) (s : DatabaseStorage.t)
  : DatabaseStorage.t :=
  fold_left (fun st c => Call.db (fst c) st (snd c)) cs s.

End Run.

(** ** The search route ([routes.ts], [GET /api/search])

    The handler reads [req.query.q], answers three empty arrays when the
    trimmed query is empty, and otherwise asks the storage (the exported
    [storage] is a [DatabaseStorage]) for the three searches; [Promise.all]
    is given the three calls in the order notes, projects, experiments, and
    they are taken here in that order. [apiErrorHandler] turns a rejection
    that is not a [ZodError] into status 500. White space is the ASCII white
    space of [Str.is_space]: [trim] is that of JavaScript on ASCII
    strings. *)

Module Routes.

Record SearchResults := mkSearchResults {
  sr_notes : list Note;
  sr_projects : list Project;
  sr_experiments : list Experiment }.

Inductive response (A : Type) :=
| Json (status : Z) (body : A)
| Message (status : Z) (message : string).

Arguments Message {A} status message.

(** [String.prototype.trimStart], [trimEnd] and [trim]. *)
Fixpoint trimStart (s : string) : string :=
  match s with
  | EmptyString => EmptyString
  | String c r => if Str.is_space c then trimStart r else s
  end.

Fixpoint trimEnd (s : string) : string :=
  match s with
  | EmptyString => EmptyString
  | String c r =>
      match trimEnd r with
      | EmptyString => if Str.is_space c then EmptyString
                       else String c EmptyString
      | r' => String c r'
      end
  end.

Definition trim (s : string) : string := trimEnd (trimStart s).

(** What Express hands the handler as [req.query.q]: nothing when the
    request has no [q], a string for one [q=...], and an array or an
    object of strings when [q] is repeated or written with brackets
    ([?q=a&q=b], [?q[k]=v]). *)
Inductive query_value :=
| Absent
| Text (s : string)
| Parsed.

(** [req.query.q as string || ""] where it is a string: the cast checks
    nothing, and an array or an object is truthy and stays what it is
    ([None]). *)
Definition query_of (q : query_value) : option string :=
  match q with
  | Absent => Some ""
  | Text s => Some (if Str.truthy s then s else "")
  | Parsed => None
  end.

(** The handler; on an array or an object [query.trim] is not a function
    and the call throws. *)
Definition search (q : query_value)
  : DatabaseStorage.db (response SearchResults) :=
  match query_of q with
  | None => DatabaseStorage.throw DatabaseStorage.TypeError
  | Some query =>
      if negb (Str.truthy (trim query)) then
        DatabaseStorage.ret (Json 200 (mkSearchResults [] [] []))
      else
        DatabaseStorage.bind (DatabaseStorage.searchNotes query) (fun notes =>
        DatabaseStorage.bind (DatabaseStorage.searchProjects query)
          (fun projects =>
        DatabaseStorage.bind (DatabaseStorage.searchExperiments query)
          (fun experiments =>
        DatabaseStorage.ret
          (Json 200 (mkSearchResults notes projects experiments)))))
  end.

(** [apiErrorHandler(fn)]: the response sent and the state left. *)
Definition apiErrorHandler {A : Type}
  (fn : DatabaseStorage.db (response A))
  (s : DatabaseStorage.t) (plan : option nat)
  : response A * DatabaseStorage.t :=
  match fn s plan with
  | DatabaseStorage.Resolved r s' _ => (r, s')
  | DatabaseStorage.Rejected _ s' =>
      (Message 500 "An unexpected error occurred", s')
  end.

End Routes.

(** ** The search page of the client ([pages/search.tsx])

    What the page shows of a search answer: [data] is the parsed JSON, absent
    while nothing was fetched, and each of its three arrays may be missing
    ([data.notes || []]). *)

Module SearchPage.

Record Data := mkData {
  d_notes : option (list Note);
  d_projects : option (list Project);
  d_experiments : option (list Experiment) }.

Inductive item :=
| OfNote (n : Note)
| OfProject (p : Project)
| OfExperiment (e : Experiment).

(** [xs || []] on an array that may be [undefined] (an array is truthy). *)
Definition or_empty {A : Type} (xs : option (list A)) : list A :=
  match xs with Some l => l | None => [] end.

(** [xs?.length || 0]. *)
Definition length_or_0 {A : Type} (xs : option (list A)) : Z :=
  match xs with Some l => Z.of_nat (List.length l) | None => 0 end.

Definition getFilteredResults (activeTab : string) (data : option Data)
  : list item :=
  match data with
  | None => []
  | Some data =>
      if String.eqb activeTab "notes" then
        map OfNote (or_empty (d_notes data))
      else if String.eqb activeTab "projects" then
        map OfProject (or_empty (d_projects data))
      else if String.eqb activeTab "experiments" then
        map OfExperiment (or_empty (d_experiments data))
      else
        (map OfNote (or_empty (d_notes data))
         ++ map OfProject (or_empty (d_projects data))
         ++ map OfExperiment (or_empty (d_experiments data)))%list
  end.

Definition getResultCount (activeTab : string) (data : option Data) : Z :=
  match data with
  | None => 0
  | Some data =>
      if String.eqb activeTab "notes" then length_or_0 (d_notes data)
      else if String.eqb activeTab "projects" then
        length_or_0 (d_projects data)
      else if String.eqb activeTab "experiments" then
        length_or_0 (d_experiments data)
      else
        length_or_0 (d_notes data) + length_or_0 (d_projects data)
        + length_or_0 (d_experiments data)
  end.

(** [res.json()] of the answer of the search route. *)
Definition of_results (r : Routes.SearchResults) : Data :=
  {| d_notes := Some (Routes.sr_notes r);
     d_projects := Some (Routes.sr_projects r);
     d_experiments := Some (Routes.sr_experiments r) |}.

End SearchPage.

(** No two stored users share a name. *)
Definition names_distinct (s : DatabaseStorage.t) : Prop :=
  NoDup (map u_username (DatabaseStorage.users s)).





(** A fourth pair of states holding the same data, all in lower case: the
    default user and one note, "buffer ph". *)
Module DemoLower.

Definition buffer : InsertNote :=
  {| in_title := "buffer ph"; in_content := Some "ph 7.4 at room temperature";
     in_experimentId := 1; in_authorId := 1 |}.

Definition mem : MemStorage.t :=
  snd (MemStorage.createNote buffer 0 (MemStorage.constructor 0)).

Definition db : DatabaseStorage.t :=
  Demo.after (DatabaseStorage.createNote buffer 0)
    (Demo.after (DatabaseStorage.createUser Demo.sarah 0)
                DatabaseStorage.fresh).

End DemoLower.

(** ** Counters and sequences

    The six id counters of [MemStorage], the six sequences of the
    relational backend, and the order in which they move. *)

Definition mem_counters (s : MemStorage.t) : Z * Z * Z * Z * Z * Z :=
  (MemStorage.userId s, MemStorage.projectId s, MemStorage.experimentId s,
   MemStorage.noteId s, MemStorage.attachmentId s,
   MemStorage.collaboratorId s).


Definition counters_le (a b : Z * Z * Z * Z * Z * Z) : Prop :=
  match a, b with
  | (a1, a2, a3, a4, a5, a6), (b1, b2, b3, b4, b5, b6) =>
      a1 <= b1 /\ a2 <= b2 /\ a3 <= b3 /\ a4 <= b4 /\ a5 <= b5 /\ a6 <= b6
  end.

(** ** Keeping part of the tables

    The state in which each table keeps the rows that pass a test, in
    their order, the users and the sequences being left alone. *)

Definition db_kept (fp : Project -> bool) (fe : Experiment -> bool)
  (fn : Note -> bool) (fa : Attachment -> bool)
  (fc : ProjectCollaborator -> bool) (d : DatabaseStorage.t)
  : DatabaseStorage.t :=
  DatabaseStorage.mk (DatabaseStorage.users d)
    (filter fp (DatabaseStorage.projects d))
    (filter fe (DatabaseStorage.experiments d))
    (filter fn (DatabaseStorage.notes d))
    (filter fa (DatabaseStorage.attachments d))
    (filter fc (DatabaseStorage.projectCollaborators d))
    (DatabaseStorage.users_id_seq d) (DatabaseStorage.projects_id_seq d)
    (DatabaseStorage.experiments_id_seq d) (DatabaseStorage.notes_id_seq d)
    (DatabaseStorage.attachments_id_seq d)
    (DatabaseStorage.project_collaborators_id_seq d).

(** The notes of the experiments listed, and the attachments of the notes
    of the experiments listed, among the notes [ns]. *)
Definition note_of (exps : list Z) (n : Note) : bool :=
  existsb (Z.eqb (n_experimentId n)) exps.

Definition attachment_of (exps : list Z) (ns : list Note) (a : Attachment)
  : bool :=
  existsb (fun n => Z.eqb (a_noteId a) (n_id n) && note_of exps n) ns.

(** The data of the in-memory backend laid out as the tables of the
    relational one: the values of each map in insertion order, the counters
    as sequences. *)
Definition mem_view (s : MemStorage.t) : DatabaseStorage.t :=
  DatabaseStorage.mk
    (JsMap.values (MemStorage.users s))
    (JsMap.values (MemStorage.projects s))
    (JsMap.values (MemStorage.experiments s))
    (JsMap.values (MemStorage.notes s))
    (JsMap.values (MemStorage.attachments s))
    (JsMap.values (MemStorage.projectCollaborators s))
    (MemStorage.userId s) (MemStorage.projectId s)
    (MemStorage.experimentId s) (MemStorage.noteId s)
    (MemStorage.attachmentId s) (MemStorage.collaboratorId s).

(** ** Records without a parent

    No record of the tables names a parent that is not stored: every
    experiment and every collaborator row has its project, every note its
    experiment, every attachment its note. *)
Definition no_orphans (d : DatabaseStorage.t) : Prop :=
  (forall x, In x (DatabaseStorage.experiments d) ->
     exists p, In p (DatabaseStorage.projects d) /\ p_id p = e_projectId x) /\
  (forall n, In n (DatabaseStorage.notes d) ->
     exists x, In x (DatabaseStorage.experiments d)
               /\ e_id x = n_experimentId n) /\
  (forall a, In a (DatabaseStorage.attachments d) ->
     exists n, In n (DatabaseStorage.notes d) /\ n_id n = a_noteId a) /\
  (forall c, In c (DatabaseStorage.projectCollaborators d) ->
     exists p, In p (DatabaseStorage.projects d) /\ p_id p = c_projectId c).

(** ** The statements of a cascade

    [DatabaseStorage.deleteProject] read a second time, as the list of the
    statements it sends from a given state, in the order it sends them,
    each as the change it makes to the tables: a selection changes
    nothing, a deletion removes the rows its condition selects. The
    selections are answered from the state the statements before them
    have left, so the list is built along the states. A computation that
    sends these statements one by one, each committed on its own, comes
    under a fault plan to what [sends] says: rejected after the first [n]
    statements when the plan cuts it there, in the state those [n] have
    made, resolved after all of them otherwise. *)

Section Statements.
Import DatabaseStorage.

Definition apply_all (steps : list (t -> t)) (s : t) : t :=
  fold_left (fun st step => step st) steps s.

Definition sends {A : Type} (steps : list (t -> t)) (a : A) : db A :=
  fun s plan =>
    match plan with
    | None => Resolved a (apply_all steps s) None
    | Some n =>
        if (n <? List.length steps)%nat
        then Rejected StorageUnavailable (apply_all (firstn n steps) s)
        else Resolved a (apply_all steps s)
                      (Some (n - List.length steps)%nat)
    end.

Definition selection : t -> t := fun s => s.

Definition deletion {R : Type} (tbl : table R) (cond : R -> bool) : t -> t :=
  fun s => put_rows tbl (filter (fun r => negb (cond r)) (rows tbl s)) s.

(** One turn of the loop over the experiments of the project. *)
Definition experiment_statements (exp : Z) (s : t) : list (t -> t) :=
  let expNotes :=
    map n_id (filter (fun r => Z.eqb (n_experimentId r) exp) (notes s)) in
  selection
  :: map (fun note =>
            deletion attachments_table (fun r => Z.eqb (a_noteId r) note))
         expNotes
  ++ [deletion notes_table (fun r => Z.eqb (n_experimentId r) exp)].

Fixpoint experiments_statements (exps : list Z) (s : t) : list (t -> t) :=
  match exps with
  | [] => []
  | exp :: r =>
      experiment_statements exp s
      ++ experiments_statements r (apply_all (experiment_statements exp s) s)
  end.

Definition deleteProject_statements (id : Z) (s : t) : list (t -> t) :=
  let projectExperiments :=
    map e_id (filter (fun r => Z.eqb (e_projectId r) id) (experiments s)) in
  selection
  :: experiments_statements projectExperiments s
  ++ [deletion experiments_table (fun r => Z.eqb (e_projectId r) id);
      deletion projectCollaborators_table
        (fun r => Z.eqb (c_projectId r) id);
      deletion projects_table (fun r => Z.eqb (p_id r) id)].

End Statements.

(** A statement that only removes rows below the projects. *)
Definition only_removes (step : DatabaseStorage.t -> DatabaseStorage.t)
  : Prop :=
  forall s, Below.db (step s) s.

(** An optional text of ASCII characters, or none. *)
Definition ascii_opt (text : option string) : bool :=
  match text with
  | Some t => Str.is_ascii t
  | None => true
  end.


(** * Properties *)

Local Open Scope list_scope.
Unset Implicit Arguments.

(** ** Lists of ids *)

Lemma existsb_eqb_In (x : Z) (l : list Z) :
  existsb (Z.eqb x) l = true <-> In x l.
Proof.
  rewrite existsb_exists. split.
  - intros [y [Hy E]]. apply Z.eqb_eq in E. now subst.
  - intros H. exists x. split; [assumption | apply Z.eqb_refl].
Qed.

Lemma distinct_NoDup (l : list Z) : distinct l = true <-> NoDup l.
Proof.
  induction l as [|x r IH]; simpl.
  - split; [constructor | reflexivity].
  - rewrite andb_true_iff, negb_true_iff, IH. split.
    + intros [H1 H2]. constructor; [|assumption].
      intros Hin. apply existsb_eqb_In in Hin. congruence.
    + intros H. inversion H as [|? ? Hn Hd]; subst. split; [|assumption].
      destruct (existsb (Z.eqb x) r) eqn:E; [|reflexivity].
      apply existsb_eqb_In in E. contradiction.
Qed.

Lemma filter_all {A : Type} (f : A -> bool) (l : list A) :
  (forall x, In x l -> f x = true) -> filter f l = l.
Proof.
  induction l as [|a r IH]; simpl; intros H; [reflexivity|].
  rewrite (H a (or_introl eq_refl)). f_equal. apply IH. intros x Hx.
  apply H. now right.
Qed.

Lemma filter_none {A : Type} (f : A -> bool) (l : list A) :
  filter f l = [] <-> (forall x, In x l -> f x = false).
Proof.
  induction l as [|a r IH]; simpl.
  - split; [intros _ x [] | reflexivity].
  - destruct (f a) eqn:E.
    + split; [discriminate|]. intros H.
      specialize (H a (or_introl eq_refl)). congruence.
    + rewrite IH. split.
      * intros H x [->|Hx]; [assumption | now apply H].
      * intros H x Hx. apply H. now right.
Qed.

(** ** The [Map] model *)

Section JsMapFacts.
Variable V : Type.
Variable id : V -> Z.
Implicit Types (m : JsMap.t V) (k : Z) (v : V).

Lemma keyed_spec next m :
  keyed id next m = true <->
  NoDup (JsMap.keys m) /\
  (forall k v, In (k, v) m -> id v = k /\ k < next).
Proof.
  unfold keyed. rewrite andb_true_iff, distinct_NoDup, forallb_forall.
  split; intros [H1 H2]; (split; [assumption|]).
  - intros k v Hin. specialize (H2 _ Hin). simpl in H2.
    apply andb_true_iff in H2 as [Ha Hb].
    apply Z.eqb_eq in Ha. apply Z.ltb_lt in Hb. now split.
  - intros [k v] Hin. destruct (H2 _ _ Hin) as [Ha Hb]. simpl.
    apply andb_true_iff. split; [now apply Z.eqb_eq | now apply Z.ltb_lt].
Qed.

Lemma In_keys k v m : In (k, v) m -> In k (JsMap.keys m).
Proof. intros H. apply (in_map fst) in H. exact H. Qed.

Lemma In_values k v m : In (k, v) m -> In v (JsMap.values m).
Proof. intros H. apply (in_map snd) in H. exact H. Qed.

Lemma values_In v m : In v (JsMap.values m) -> exists k, In (k, v) m.
Proof.
  intros H. apply in_map_iff in H as [[k v'] [E Hin]]. simpl in E. subst.
  now exists k.
Qed.

Lemma get_Some_In k v m : JsMap.get k m = Some v -> In (k, v) m.
Proof.
  induction m as [|[k' v'] r IH]; simpl; [discriminate|].
  destruct (Z.eqb_spec k k') as [->|Hne].
  - intros [= ->]. now left.
  - intros H. right. now apply IH.
Qed.

Lemma get_None k m : JsMap.get k m = None <-> ~ In k (JsMap.keys m).
Proof.
  induction m as [|[k' v'] r IH]; simpl.
  - split; [intros _ [] | reflexivity].
  - destruct (Z.eqb_spec k k') as [->|Hne].
    + split; [discriminate|]. intros H. exfalso. apply H. now left.
    + rewrite IH. split.
      * intros H [E|Hin]; [congruence | contradiction].
      * intros H Hin. apply H. now right.
Qed.

Lemma In_get k v m :
  NoDup (JsMap.keys m) -> In (k, v) m -> JsMap.get k m = Some v.
Proof.
  induction m as [|[k' v'] r IH]; simpl; [intros _ []|].
  intros Hnd [E|Hin].
  - injection E as -> ->. now rewrite Z.eqb_refl.
  - inversion Hnd as [|? ? Hn Hd]; subst.
    destruct (Z.eqb_spec k k') as [->|Hne].
    + exfalso. apply Hn. exact (In_keys _ _ _ Hin).
    + now apply IH.
Qed.

Lemma has_true k m : JsMap.has k m = true <-> JsMap.get k m <> None.
Proof.
  unfold JsMap.has. destruct (JsMap.get k m); split; congruence.
Qed.

Lemma remove_In k m e : In e (JsMap.remove k m) -> In e m.
Proof.
  induction m as [|[k' v'] r IH]; simpl; [intros []|].
  destruct (Z.eqb k k').
  - intros H. now right.
  - intros [E|H]; [now left | right; now apply IH].
Qed.

Lemma remove_keeps k m e : In e m -> fst e <> k -> In e (JsMap.remove k m).
Proof.
induction m as [|[k' v'] r IH]; simpl; [intros []|].
intros [<-|Hin] Hne; simpl in *.
- destruct (Z.eqb_spec k k'); [congruence | now left].
- destruct (Z.eqb k k'); [assumption | right; now apply IH].
Qed.

Lemma remove_absent k m : ~ In k (JsMap.keys m) -> JsMap.remove k m = m.
Proof.
  induction m as [|[k' v'] r IH]; simpl; [reflexivity|].
  intros H. destruct (Z.eqb_spec k k') as [->|Hne].
  - exfalso. apply H. now left.
  - f_equal. apply IH. intros Hin. apply H. now right.
Qed.

Lemma remove_NoDup k m :
  NoDup (JsMap.keys m) -> NoDup (JsMap.keys (JsMap.remove k m)).
Proof.
  induction m as [|[k' v'] r IH]; simpl; [intros; constructor|].
  intros Hnd. inversion Hnd as [|? ? Hn Hd]; subst.
  destruct (Z.eqb k k'); [assumption|]. simpl. constructor.
  - intros Hin. apply Hn. apply in_map_iff in Hin as [e [E He]].
    apply remove_In in He. apply in_map_iff. now exists e.
  - now apply IH.
Qed.

Lemma remove_gone k m :
  NoDup (JsMap.keys m) -> ~ In k (JsMap.keys (JsMap.remove k m)).
Proof.
  induction m as [|[k' v'] r IH]; simpl; [intros _ []|].
  intros Hnd. inversion Hnd as [|? ? Hn Hd]; subst.
  destruct (Z.eqb_spec k k') as [->|Hne]; [assumption|].
  simpl. intros [E|Hin]; [congruence | now apply IH in Hin].
Qed.

Lemma remove_keyed next k m :
  keyed id next m = true -> keyed id next (JsMap.remove k m) = true.
Proof.
  rewrite !keyed_spec. intros [Hnd H]. split.
  - now apply remove_NoDup.
  - intros k' v Hin. apply H. now apply remove_In in Hin.
Qed.

Lemma remove_split m1 k v m2 :
  ~ In k (JsMap.keys m1) ->
  JsMap.remove k (m1 ++ (k, v) :: m2) = m1 ++ m2.
Proof.
  induction m1 as [|[k' v'] r IH]; simpl; intros H.
  - now rewrite Z.eqb_refl.
  - destruct (Z.eqb_spec k k') as [->|Hne].
    + exfalso. apply H. now left.
    + f_equal. apply IH. intros Hin. apply H. now right.
Qed.

Lemma get_set_same k v m : JsMap.get k (JsMap.set k v m) = Some v.
Proof.
  induction m as [|[k' v'] r IH]; simpl.
  - now rewrite Z.eqb_refl.
  - destruct (Z.eqb_spec k k') as [->|Hne]; simpl.
    + now rewrite Z.eqb_refl.
    + destruct (Z.eqb_spec k k'); [contradiction | exact IH].
Qed.


Lemma set_fresh k v m :
  ~ In k (JsMap.keys m) -> JsMap.set k v m = m ++ [(k, v)].
Proof.
  induction m as [|[k' v'] r IH]; simpl; intros H; [reflexivity|].
  destruct (Z.eqb_spec k k') as [->|Hne].
  - exfalso. apply H. now left.
  - f_equal. apply IH. intros Hin. apply H. now right.
Qed.

Lemma keyed_fresh next m : keyed id next m = true -> ~ In next (JsMap.keys m).
Proof.
  rewrite keyed_spec. intros [_ H] Hin.
  apply in_map_iff in Hin as [[k v] [E Hin]]. simpl in E. subst.
  destruct (H _ _ Hin). lia.
Qed.

(** Storing a new object under the id the counter hands out. *)
Lemma set_next_keyed next v m :
  keyed id next m = true -> id v = next ->
  keyed id (next + 1) (JsMap.set next v m) = true.
Proof.
  intros Hk Hid. pose proof (keyed_fresh _ _ Hk) as Hf.
  rewrite (set_fresh _ _ _ Hf). apply keyed_spec in Hk as [Hnd H].
  apply keyed_spec. split.
  - unfold JsMap.keys. rewrite map_app. simpl.
    apply NoDup_app; [assumption | repeat constructor; intros [] |].
    intros x Hx [<-|[]]. contradiction.
  - intros k v' Hin. apply in_app_iff in Hin as [Hin|[E|[]]].
    + destruct (H _ _ Hin). split; [assumption | lia].
    + injection E as <- <-. split; [assumption | lia].
Qed.

Lemma set_In k v m e : In e (JsMap.set k v m) -> e = (k, v) \/ In e m.
Proof.
  induction m as [|[k' v'] r IH]; simpl.
  - intros [<-|[]]. now left.
  - destruct (Z.eqb k k'); simpl.
    + intros [<-|Hin]; [now left | right; now right].
    + intros [<-|Hin]; [right; now left|].
      destruct (IH Hin) as [->|H]; [now left | right; now right].
Qed.

Lemma keys_set_present k v m :
  In k (JsMap.keys m) -> JsMap.keys (JsMap.set k v m) = JsMap.keys m.
Proof.
  induction m as [|[k' v'] r IH]; simpl; [intros []|].
  destruct (Z.eqb_spec k k') as [->|Hne]; simpl; [reflexivity|].
  intros [E|Hin]; [congruence|]. f_equal. now apply IH.
Qed.

(** Storing the updated object under the key it already has. *)
Lemma set_present_keyed next k v m :
  keyed id next m = true -> JsMap.get k m <> None -> id v = k ->
  keyed id next (JsMap.set k v m) = true.
Proof.
  intros Hk Hget Hid.
  assert (Hin : In k (JsMap.keys m)).
  { destruct (in_dec Z.eq_dec k (JsMap.keys m)) as [H|H]; [assumption|].
    apply get_None in H. contradiction. }
  apply keyed_spec in Hk as [Hnd H]. apply keyed_spec. split.
  - now rewrite keys_set_present.
  - intros k' v' Hin'. apply set_In in Hin' as [E|Hin'].
    + injection E as -> ->. split; [assumption|].
      apply in_map_iff in Hin as [[k0 v0] [E Hin]]. simpl in E. subst.
      now destruct (H _ _ Hin).
    + now apply H.
Qed.
End JsMapFacts.

(** ** Loops that delete

    A [for ... of] loop whose body keeps an invariant, only moves the state
    down an order, and establishes for its element a property that survives
    moving down: after the loop the property holds for every element. *)

Section Loop.
Variables (S X : Type) (step : S -> X -> S).
Variables (D : X -> Prop) (I : S -> Prop) (le : S -> S -> Prop).
Variable P : X -> S -> Prop.
Hypothesis le_refl : forall s, le s s.
Hypothesis le_trans : forall a b c, le a b -> le b c -> le a c.
Hypothesis step_I : forall s x, D x -> I s -> I (step s x).
Hypothesis step_le : forall s x, D x -> I s -> le (step s x) s.
Hypothesis P_down : forall x s s', le s' s -> P x s -> P x s'.
Hypothesis step_P : forall s x, D x -> I s -> P x (step s x).

Lemma loop_inv l s :
  Forall D l -> I s -> I (fold_left step l s) /\ le (fold_left step l s) s.
Proof.
  revert s. induction l as [|a r IH]; simpl; intros s Hl Hs.
  - split; [assumption | apply le_refl].
  - inversion Hl as [|? ? Ha Hr]; subst.
    destruct (IH (step s a) Hr (step_I _ _ Ha Hs)) as [H1 H2].
    split; [assumption|].
    eapply le_trans; [exact H2 | now apply step_le].
Qed.

Lemma loop_establish l s :
  Forall D l -> I s -> forall x, In x l -> P x (fold_left step l s).
Proof.
  revert s. induction l as [|a r IH]; simpl; intros s Hl Hs x Hx;
    [contradiction|].
  inversion Hl as [|? ? Ha Hr]; subst. destruct Hx as [->|Hx].
  - apply P_down with (s := step s x); [|now apply step_P].
    apply loop_inv; [assumption | now apply step_I].
  - apply IH; [assumption | now apply step_I | assumption].
Qed.
End Loop.

(** ** Deletion in the in-memory backend *)

Lemma below_mem_refl s : Below.mem s s.
Proof. unfold Below.mem. repeat split; try reflexivity; apply incl_refl. Qed.

Lemma below_mem_trans a b c : Below.mem a b -> Below.mem b c -> Below.mem a c.
Proof.
  unfold Below.mem. intros H1 H2.
  destruct H1 as (A1 & A2 & A3 & A4 & A5 & A6 & A7 & A8 & A9 & A10 & A11 & A12).
  destruct H2 as (B1 & B2 & B3 & B4 & B5 & B6 & B7 & B8 & B9 & B10 & B11 & B12).
  repeat split; try congruence; eapply incl_tran; eassumption.
Qed.

Lemma mem_deleteAttachment_spec id s :
  Wf.mem s ->
  let s' := snd (MemStorage.deleteAttachment id s) in
  Wf.mem s' /\ Below.mem s' s /\
  ~ In id (JsMap.keys (MemStorage.attachments s')).
Proof.
  intros (W1 & W2 & W3 & W4 & W5 & W6). simpl. repeat split; simpl; trivial;
    try apply incl_refl.
  - now apply remove_keyed.
  - intros e. apply remove_In.
  - apply remove_gone. apply keyed_spec in W5. tauto.
Qed.

Lemma incl_keys {V : Type} (m' m : JsMap.t V) k :
  incl m' m -> In k (JsMap.keys m') -> In k (JsMap.keys m).
Proof.
  intros Hi Hk. apply in_map_iff in Hk as [e [E He]]. apply in_map_iff.
  exists e. split; [assumption | now apply Hi].
Qed.

Lemma mem_deleteNote_eq id s :
  MemStorage.deleteNote id s =
  let s1 := fold_left
              (fun st a => snd (MemStorage.deleteAttachment (a_id a) st))
              (MemStorage.listAttachmentsByNote id s) s in
  (JsMap.has id (MemStorage.notes s1),
   MemStorage.with_notes (JsMap.remove id (MemStorage.notes s1))
                         (MemStorage.noteId s1) s1).
Proof. reflexivity. Qed.

Lemma mem_deleteNote_spec id s :
  Wf.mem s ->
  let s' := snd (MemStorage.deleteNote id s) in
  Wf.mem s' /\ Below.mem s' s /\
  (forall e, In e (MemStorage.attachments s') -> a_noteId (snd e) <> id) /\
  ~ In id (JsMap.keys (MemStorage.notes s')) /\
  MemStorage.experiments s' = MemStorage.experiments s /\
  MemStorage.projectCollaborators s' = MemStorage.projectCollaborators s /\
  (forall e, In e (MemStorage.notes s) -> fst e <> id ->
             In e (MemStorage.notes s')).
Proof.
  intros W. rewrite mem_deleteNote_eq. cbv zeta.
  set (step := fun st a => snd (MemStorage.deleteAttachment (a_id a) st)).
  set (L := MemStorage.listAttachmentsByNote id s).
  set (P := fun (a : Attachment) st =>
              ~ In (a_id a) (JsMap.keys (MemStorage.attachments st))).
  set (I := fun st => Wf.mem st /\
              MemStorage.experiments st = MemStorage.experiments s /\
              MemStorage.projectCollaborators st
              = MemStorage.projectCollaborators s /\
              MemStorage.notes st = MemStorage.notes s).
  assert (HI : forall st (x : Attachment), True -> I st -> I (step st x)).
  { intros st x _ (Hw & H1 & H2 & H3). split; [|now split].
    apply (mem_deleteAttachment_spec (a_id x) st Hw). }
  assert (Hle : forall st (x : Attachment), True -> I st ->
                                            Below.mem (step st x) st).
  { intros st x _ (Hw & _). apply (mem_deleteAttachment_spec (a_id x) st Hw). }
  assert (HD : Forall (fun _ : Attachment => True) L).
  { apply Forall_forall. trivial. }
  assert (HI0 : I s) by (unfold I; tauto).
  destruct (loop_inv _ _ step _ I Below.mem below_mem_refl below_mem_trans
              HI Hle L s HD HI0) as [(W1 & F1 & F2 & F3) B1].
  assert (HP : forall x, In x L -> P x (fold_left step L s)).
  { apply (loop_establish _ _ step _ I Below.mem P below_mem_refl
             below_mem_trans HI Hle); trivial.
    - intros x st st' Hb Hp Hin. apply Hp.
      eapply incl_keys; [|exact Hin]. apply Hb.
    - intros st x _ (Hw & _).
      apply (mem_deleteAttachment_spec (a_id x) st Hw). }
  set (s1 := fold_left step L s) in *.
  destruct W1 as (W1 & W2 & W3 & W4 & W5 & W6).
  destruct B1 as (B1 & B2 & B3 & B4 & B5 & B6 & B7 & B8 & B9 & B10 & B11 & B12).
  simpl. repeat split; simpl; trivial.
  - now apply remove_keyed.
  - intros e He. apply B4. now apply remove_In in He.
  - intros [k v] He E. simpl in E.
    assert (Hv : In v L).
    { unfold L, MemStorage.listAttachmentsByNote. apply filter_In. split.
      - eapply In_values. apply B5. exact He.
      - now apply Z.eqb_eq. }
    apply (HP v Hv). destruct W as (_ & _ & _ & _ & Wa & _).
    apply keyed_spec in Wa as [_ Wa].
    destruct (Wa k v (B5 _ He)) as [-> _]. eapply In_keys. exact He.
  - apply remove_gone. apply keyed_spec in W4. tauto.
  - intros e He Hne. apply remove_keeps; [|assumption]. now rewrite F3.
Qed.

Lemma keyed_inj {V : Type} (id : V -> Z) next (m : JsMap.t V) k v v' :
  keyed id next m = true -> In (k, v) m -> In (k, v') m -> v = v'.
Proof.
  intros Hk H1 H2. apply keyed_spec in Hk as [Hnd _].
  apply (In_get _ _ _ _ Hnd) in H1. apply (In_get _ _ _ _ Hnd) in H2.
  congruence.
Qed.

Lemma keyed_id {V : Type} (id : V -> Z) next (m : JsMap.t V) k v :
  keyed id next m = true -> In (k, v) m -> id v = k.
Proof. intros Hk H. apply keyed_spec in Hk as [_ Hk]. now apply Hk. Qed.

Lemma mem_deleteExperiment_eq id s :
  MemStorage.deleteExperiment id s =
  let s1 := fold_left
              (fun st n => snd (MemStorage.deleteNote (n_id n) st))
              (MemStorage.listNotesByExperiment id s) s in
  (JsMap.has id (MemStorage.experiments s1),
   MemStorage.with_experiments
     (JsMap.remove id (MemStorage.experiments s1))
     (MemStorage.experimentId s1) s1).
Proof. reflexivity. Qed.

Lemma mem_deleteExperiment_spec id s :
  Wf.mem s ->
  let s' := snd (MemStorage.deleteExperiment id s) in
  Wf.mem s' /\ Below.mem s' s /\
  (forall n a, In n (MemStorage.notes s) -> n_experimentId (snd n) = id ->
               In a (MemStorage.attachments s') -> a_noteId (snd a) <> fst n) /\
  (forall e, In e (MemStorage.notes s') -> n_experimentId (snd e) <> id) /\
  ~ In id (JsMap.keys (MemStorage.experiments s')) /\
  MemStorage.projectCollaborators s' = MemStorage.projectCollaborators s /\
  (forall e, In e (MemStorage.notes s) -> n_experimentId (snd e) <> id ->
             In e (MemStorage.notes s')) /\
  (forall e, In e (MemStorage.experiments s) -> fst e <> id ->
             In e (MemStorage.experiments s')).
Proof.
  intros W. rewrite mem_deleteExperiment_eq. cbv zeta.
  set (step := fun st n => snd (MemStorage.deleteNote (n_id n) st)).
  set (L := MemStorage.listNotesByExperiment id s).
  set (D := fun n : Note => In n L).
  set (P := fun (n : Note) st =>
              (forall a, In a (MemStorage.attachments st) ->
                         a_noteId (snd a) <> n_id n) /\
              ~ In (n_id n) (JsMap.keys (MemStorage.notes st))).
  set (I := fun st => Wf.mem st /\
              MemStorage.experiments st = MemStorage.experiments s /\
              MemStorage.projectCollaborators st
              = MemStorage.projectCollaborators s /\
              (forall e, In e (MemStorage.notes s) ->
                         n_experimentId (snd e) <> id ->
                         In e (MemStorage.notes st))).
  assert (Wn : keyed n_id (MemStorage.noteId s) (MemStorage.notes s) = true)
    by apply W.
  assert (HL : forall v, In v L <->
                 exists k, In (k, v) (MemStorage.notes s)
                           /\ n_experimentId v = id).
  { intros v. unfold L, MemStorage.listNotesByExperiment.
    rewrite filter_In, Z.eqb_eq. split.
    - intros [Hv E]. apply values_In in Hv as [k Hk]. now exists k.
    - intros [k [Hk E]]. split; [eapply In_values; exact Hk | assumption]. }
  assert (HI : forall st x, D x -> I st -> I (step st x)).
  { intros st x Hx (Hw & H1 & H2 & H3).
    pose proof (mem_deleteNote_spec (n_id x) st Hw) as
      (S1 & S2 & S3 & S4 & S5 & S6 & S7).
    split; [assumption|]. split; [unfold step; congruence|].
    split; [unfold step; congruence|].
    intros e He Hne. apply S7; [now apply H3|].
    intros E. apply Hne. apply HL in Hx as [k [Hk Hx]].
    destruct e as [k' v']. simpl in *. subst k'.
    rewrite (keyed_id _ _ _ _ _ Wn Hk) in He.
    now rewrite (keyed_inj _ _ _ _ _ _ Wn He Hk). }
  assert (Hle : forall st x, D x -> I st -> Below.mem (step st x) st).
  { intros st x _ (Hw & _). apply (mem_deleteNote_spec (n_id x) st Hw). }
  assert (HD : Forall D L) by (apply Forall_forall; trivial).
  assert (HI0 : I s) by (unfold I; tauto).
  destruct (loop_inv _ _ step D I Below.mem below_mem_refl below_mem_trans
              HI Hle L s HD HI0) as [(W1 & F1 & F2 & F3) B1].
  assert (HP : forall x, In x L -> P x (fold_left step L s)).
  { apply (loop_establish _ _ step D I Below.mem P below_mem_refl
             below_mem_trans HI Hle); trivial.
    - intros x st st' Hb [Hp1 Hp2]. split.
      + intros a Ha. apply Hp1. now apply Hb.
      + intros Hin. apply Hp2. eapply incl_keys; [|exact Hin]. apply Hb.
    - intros st x _ (Hw & _).
      pose proof (mem_deleteNote_spec (n_id x) st Hw) as
        (S1 & S2 & S3 & S4 & _). now split. }
  set (s1 := fold_left step L s) in *.
  destruct W1 as (W1 & W2 & W3 & W4 & W5 & W6).
  destruct B1 as (B1 & B2 & B3 & B4 & B5 & B6 & B7 & B8 & B9 & B10 & B11 & B12).
  simpl. repeat split; simpl; trivial.
  - now apply remove_keyed.
  - intros e He. apply B3. now apply remove_In in He.
  - intros [k v] a Hn E Ha. simpl in *.
    assert (Hv : In v L) by (apply HL; now exists k).
    rewrite <- (keyed_id _ _ _ _ _ Wn Hn). now apply (HP v Hv).
  - intros [k v] He E. simpl in E.
    assert (Hv : In v L) by (apply HL; exists k; split; [now apply B4 | exact E]).
    apply (HP v Hv). rewrite (keyed_id _ _ _ _ _ Wn (B4 _ He)).
    eapply In_keys. exact He.
  - apply remove_gone. apply keyed_spec in W3. tauto.
  - intros e He Hne. apply remove_keeps; [|assumption]. now rewrite F1.
Qed.

Lemma find_values_split {V : Type} (f : V -> bool) (m : JsMap.t V) c :
  find f (JsMap.values m) = Some c ->
  exists m1 k m2, m = m1 ++ (k, c) :: m2 /\ f c = true /\
                  (forall e, In e m1 -> f (snd e) = false).
Proof.
  induction m as [|[k v] r IH]; simpl; [discriminate|].
  destruct (f v) eqn:E.
  - intros [= <-]. exists [], k, r. repeat split; trivial. intros e [].
  - intros H. destruct (IH H) as (m1 & k' & m2 & -> & Hc & Hm1).
    exists ((k, v) :: m1), k', m2. repeat split; trivial.
    intros e [<-|He]; [exact E | now apply Hm1].
Qed.

Lemma find_values_none {V : Type} (f : V -> bool) (m : JsMap.t V) :
  find f (JsMap.values m) = None -> forall e, In e m -> f (snd e) = false.
Proof.
  intros H e He. apply (find_none _ _ H). destruct e as [k v].
  eapply In_values. exact He.
Qed.

Lemma mem_removeCollaborator_spec p u s :
  Wf.mem s ->
  let r := MemStorage.removeCollaborator p u s in
  (fst r = false /\ snd r = s /\
   forall e, In e (MemStorage.projectCollaborators s) ->
             is_pair p u (snd e) = false)
  \/
  (exists m1 c m2,
      MemStorage.projectCollaborators s = m1 ++ (c_id c, c) :: m2 /\
      is_pair p u c = true /\
      (forall e, In e m1 -> is_pair p u (snd e) = false) /\
      fst r = true /\
      snd r = MemStorage.with_projectCollaborators
                (m1 ++ m2) (MemStorage.collaboratorId s) s /\
      m1 ++ m2 = JsMap.remove (c_id c) (MemStorage.projectCollaborators s)).
Proof.
  intros W. assert (Wc := W). destruct Wc as (_ & _ & _ & _ & _ & Wc).
  unfold MemStorage.removeCollaborator. fold (is_pair p u).
  destruct (find (is_pair p u)
              (JsMap.values (MemStorage.projectCollaborators s))) as [c|] eqn:F.
  - right. destruct (find_values_split _ _ _ F) as (m1 & k & m2 & E & Hc & Hm1).
    assert (Hin : In (k, c) (MemStorage.projectCollaborators s)).
    { rewrite E. apply in_elt. }
    pose proof (keyed_id _ _ _ _ _ Wc Hin) as Hk. subst k.
    assert (Hrm : m1 ++ m2
                  = JsMap.remove (c_id c) (MemStorage.projectCollaborators s)).
    { rewrite E. symmetry. apply remove_split.
      apply keyed_spec in Wc as [Hnd _]. rewrite E in Hnd.
      unfold JsMap.keys in Hnd. rewrite map_app in Hnd. simpl in Hnd.
      apply NoDup_remove_2 in Hnd. intros Hin'. apply Hnd.
      apply in_or_app. now left. }
    exists m1, c, m2. simpl. repeat split; trivial.
    + unfold JsMap.has. apply keyed_spec in Wc as [Hnd _].
      now rewrite (In_get _ _ _ _ Hnd Hin).
    + now rewrite Hrm.
  - left. repeat split. now apply find_values_none.
Qed.

Lemma mem_removeCollaborator_wf p u s :
  Wf.mem s ->
  let s' := snd (MemStorage.removeCollaborator p u s) in
  Wf.mem s' /\ Below.mem s' s /\
  MemStorage.experiments s' = MemStorage.experiments s /\
  MemStorage.notes s' = MemStorage.notes s /\
  MemStorage.attachments s' = MemStorage.attachments s.
Proof.
  intros W.
  destruct (mem_removeCollaborator_spec p u s W)
    as [(_ & -> & _)|(m1 & c & m2 & E & _ & _ & _ & -> & Hrm)].
  - repeat split; trivial; try apply W; try apply incl_refl.
  - destruct W as (W1 & W2 & W3 & W4 & W5 & W6).
    repeat split; simpl; trivial; try apply incl_refl.
    + rewrite Hrm. now apply remove_keyed.
    + rewrite Hrm. intros e. apply remove_In.
Qed.

Lemma mem_collaborators_loop p L :
  forall s, Wf.mem s ->
  Permutation (map c_userId L)
    (map c_userId (filter (fun c => Z.eqb (c_projectId c) p)
                          (JsMap.values (MemStorage.projectCollaborators s)))) ->
  let s' := fold_left
              (fun st c => snd (MemStorage.removeCollaborator p (c_userId c) st))
              L s in
  Wf.mem s' /\ Below.mem s' s /\
  MemStorage.experiments s' = MemStorage.experiments s /\
  MemStorage.notes s' = MemStorage.notes s /\
  MemStorage.attachments s' = MemStorage.attachments s /\
  (forall e, In e (MemStorage.projectCollaborators s') ->
             c_projectId (snd e) <> p).
Proof.
  induction L as [|c L IH]; intros s W HP; simpl.
  - split; [exact W|]. split; [apply below_mem_refl|].
    repeat (split; [reflexivity|]).
    intros [k v] He E. simpl in E. apply Permutation_nil in HP.
    apply map_eq_nil in HP.
    assert (Hv : In v (filter (fun c => Z.eqb (c_projectId c) p)
                   (JsMap.values (MemStorage.projectCollaborators s)))).
    { apply filter_In. split; [eapply In_values; exact He | now apply Z.eqb_eq]. }
    rewrite HP in Hv. destruct Hv.
  - simpl in HP.
    destruct (mem_removeCollaborator_wf p (c_userId c) s W)
      as (W' & B' & E1 & E2 & E3).
    destruct (mem_removeCollaborator_spec p (c_userId c) s W)
      as [(_ & _ & Hno)|(m1 & c0 & m2 & E & Hc0 & Hm1 & _ & Hs & _)].
    + exfalso.
      assert (Hu : In (c_userId c)
                (map c_userId (filter (fun c => Z.eqb (c_projectId c) p)
                   (JsMap.values (MemStorage.projectCollaborators s))))).
      { eapply Permutation_in; [exact HP | now left]. }
      apply in_map_iff in Hu as [x [Ex Hx]]. apply filter_In in Hx as [Hx Hp].
      apply values_In in Hx as [k Hk]. specialize (Hno _ Hk). simpl in Hno.
      unfold is_pair in Hno. rewrite Hp, Ex, Z.eqb_refl in Hno. discriminate.
    + set (s1 := snd (MemStorage.removeCollaborator p (c_userId c) s)) in *.
      assert (HP1 : Permutation (map c_userId L)
                (map c_userId (filter (fun c => Z.eqb (c_projectId c) p)
                   (JsMap.values (MemStorage.projectCollaborators s1))))).
      { rewrite Hs. simpl. rewrite E in HP. unfold JsMap.values in *.
        rewrite map_app in *. simpl in HP. rewrite filter_app in *.
        simpl in HP. unfold is_pair in Hc0.
        apply andb_true_iff in Hc0 as [Hc1 Hc2]. rewrite Hc1 in HP.
        rewrite map_app in *. simpl in HP. apply Z.eqb_eq in Hc2.
        rewrite Hc2 in HP. eapply Permutation_cons_app_inv. exact HP. }
      destruct (IH s1 W' HP1) as (Wf' & Bf & F1 & F2 & F3 & F4).
      split; [exact Wf'|]. split; [eapply below_mem_trans; eassumption|].
      repeat (split; [congruence|]). exact F4.
Qed.

Lemma mem_deleteProject_eq id s :
  MemStorage.deleteProject id s =
  let s1 := fold_left
              (fun st x => snd (MemStorage.deleteExperiment (e_id x) st))
              (MemStorage.listExperimentsByProject id s) s in
  let s2 := fold_left
              (fun st c =>
                 snd (MemStorage.removeCollaborator id (c_userId c) st))
              (MemStorage.listCollaboratorsByProject id s1) s1 in
  (JsMap.has id (MemStorage.projects s2),
   MemStorage.with_projects (JsMap.remove id (MemStorage.projects s2))
                            (MemStorage.projectId s2) s2).
Proof. reflexivity. Qed.

Lemma mem_deleteProject_spec id s :
  Wf.mem s ->
  let r := MemStorage.deleteProject id s in
  let s' := snd r in
  Wf.mem s' /\
  (forall e, In e (MemStorage.experiments s') -> e_projectId (snd e) <> id) /\
  (forall x n, In x (MemStorage.experiments s) -> e_projectId (snd x) = id ->
               In n (MemStorage.notes s') -> n_experimentId (snd n) <> fst x) /\
  (forall x n a,
      In x (MemStorage.experiments s) -> e_projectId (snd x) = id ->
      In n (MemStorage.notes s) -> n_experimentId (snd n) = fst x ->
      In a (MemStorage.attachments s') -> a_noteId (snd a) <> fst n) /\
  (forall c, In c (MemStorage.projectCollaborators s') ->
             c_projectId (snd c) <> id) /\
  MemStorage.getProject id s' = None /\
  fst r = JsMap.has id (MemStorage.projects s) /\
  MemStorage.projects s' = JsMap.remove id (MemStorage.projects s) /\
  MemStorage.users s' = MemStorage.users s /\
  incl (MemStorage.experiments s') (MemStorage.experiments s) /\
  incl (MemStorage.notes s') (MemStorage.notes s) /\
  incl (MemStorage.attachments s') (MemStorage.attachments s) /\
  incl (MemStorage.projectCollaborators s')
       (MemStorage.projectCollaborators s).
Proof.
  intros W. rewrite mem_deleteProject_eq. cbv zeta.
  set (step := fun st x => snd (MemStorage.deleteExperiment (e_id x) st)).
  set (L := MemStorage.listExperimentsByProject id s).
  set (D := fun x : Experiment => In x L).
  set (P := fun (x : Experiment) st =>
              (forall n a, In n (MemStorage.notes s) ->
                           n_experimentId (snd n) = e_id x ->
                           In a (MemStorage.attachments st) ->
                           a_noteId (snd a) <> fst n) /\
              (forall n, In n (MemStorage.notes st) ->
                         n_experimentId (snd n) <> e_id x) /\
              ~ In (e_id x) (JsMap.keys (MemStorage.experiments st))).
  set (I := fun st => Wf.mem st /\ Below.mem st s /\
              MemStorage.projectCollaborators st
              = MemStorage.projectCollaborators s /\
              (forall n a, In n (MemStorage.notes s) ->
                           In a (MemStorage.attachments st) ->
                           a_noteId (snd a) = fst n ->
                           In n (MemStorage.notes st))).
  assert (We : keyed e_id (MemStorage.experimentId s)
                     (MemStorage.experiments s) = true) by apply W.
  assert (HL : forall v, In v L <->
                 exists k, In (k, v) (MemStorage.experiments s)
                           /\ e_projectId v = id).
  { intros v. unfold L, MemStorage.listExperimentsByProject.
    rewrite filter_In, Z.eqb_eq. split.
    - intros [Hv E]. apply values_In in Hv as [k Hk]. now exists k.
    - intros [k [Hk E]]. split; [eapply In_values; exact Hk | assumption]. }
  assert (HI : forall st x, D x -> I st -> I (step st x)).
  { intros st x _ (Hw & Hb & H1 & H2).
    pose proof (mem_deleteExperiment_spec (e_id x) st Hw) as
      (S1 & S2 & S3 & S4 & S5 & S6 & S7 & S8).
    split; [assumption|]. split; [eapply below_mem_trans; eassumption|].
    split; [unfold step; congruence|].
    intros n a Hn Ha E.
    assert (Ha' : In a (MemStorage.attachments st)) by (now apply S2).
    pose proof (H2 n a Hn Ha' E) as Hn'.
    destruct (Z.eq_dec (n_experimentId (snd n)) (e_id x)) as [Ex|Nx].
    - exfalso. exact (S3 n a Hn' Ex Ha E).
    - now apply S7. }
  assert (Hle : forall st x, D x -> I st -> Below.mem (step st x) st).
  { intros st x _ (Hw & _).
    apply (mem_deleteExperiment_spec (e_id x) st Hw). }
  assert (HD : Forall D L) by (apply Forall_forall; trivial).
  assert (HI0 : I s).
  { split; [assumption|]. split; [apply below_mem_refl|].
    split; [reflexivity|]. trivial. }
  destruct (loop_inv _ _ step D I Below.mem below_mem_refl below_mem_trans
              HI Hle L s HD HI0) as [(W1 & B1 & F1 & F2) _].
  assert (HP : forall x, In x L -> P x (fold_left step L s)).
  { apply (loop_establish _ _ step D I Below.mem P below_mem_refl
             below_mem_trans HI Hle); trivial.
    - intros x st st' Hb (Hp1 & Hp2 & Hp3). split; [|split].
      + intros n a Hn E Ha. apply Hp1; trivial. now apply Hb.
      + intros n Hn. apply Hp2. now apply Hb.
      + intros Hin. apply Hp3. eapply incl_keys; [|exact Hin]. apply Hb.
    - intros st x _ (Hw & Hb & H1 & H2).
      pose proof (mem_deleteExperiment_spec (e_id x) st Hw) as
        (S1 & S2 & S3 & S4 & S5 & _). split; [|now split].
      intros n a Hn E Ha Ea.
      assert (Ha' : In a (MemStorage.attachments st)) by (now apply S2).
      exact (S3 n a (H2 n a Hn Ha' Ea) E Ha Ea). }
  set (s1 := fold_left step L s) in *.
  destruct (mem_collaborators_loop id
              (MemStorage.listCollaboratorsByProject id s1) s1 W1
              (Permutation_refl _)) as (W2 & B2 & G1 & G2 & G3 & G4).
  set (s2 := fold_left _ (MemStorage.listCollaboratorsByProject id s1) s1) in *.
  assert (B : Below.mem s2 s) by (eapply below_mem_trans; eassumption).
  destruct B as (C1 & C2 & C3 & C4 & C5 & C6 & _).
  assert (W2' := W2). destruct W2' as (V1 & V2 & V3 & V4 & V5 & V6).
  simpl. split; [|repeat split]; simpl; trivial.
  - repeat split; simpl; trivial. now apply remove_keyed.
  - intros [k v] He E. simpl in E.
    assert (Hv : In v L) by (apply HL; exists k; split; [now apply C3 | exact E]).
    destruct (HP v Hv) as (_ & _ & Hp3). apply Hp3.
    rewrite (keyed_id _ _ _ _ _ We (C3 _ He)). rewrite <- G1.
    eapply In_keys. exact He.
  - intros [k v] n Hx E Hn. simpl in *.
    assert (Hv : In v L) by (apply HL; now exists k).
    destruct (HP v Hv) as (_ & Hp2 & _).
    rewrite <- (keyed_id _ _ _ _ _ We Hx). apply Hp2. now rewrite <- G2.
  - intros [k v] n a Hx E Hn En Ha. simpl in *.
    assert (Hv : In v L) by (apply HL; now exists k).
    destruct (HP v Hv) as (Hp1 & _ & _).
    apply Hp1; trivial.
    + rewrite (keyed_id _ _ _ _ _ We Hx). exact En.
    + now rewrite <- G3.
  - unfold MemStorage.getProject. simpl. apply get_None, remove_gone.
    apply keyed_spec in V2. tauto.
  - now rewrite C2.
  - now rewrite C2.
Qed.

(** ** Integer parameters *)

Lemma bound_ok {A : Type} params (m : DatabaseStorage.db A) :
  DatabaseStorage.in_range params = true ->
  DatabaseStorage.bound params m = m.
Proof. unfold DatabaseStorage.bound. now intros ->. Qed.

Lemma bound_out {A : Type} params (m : DatabaseStorage.db A) s plan :
  DatabaseStorage.in_range params = false ->
  DatabaseStorage.bound params m s plan
  = DatabaseStorage.Rejected
      (match plan with
       | Some O => DatabaseStorage.StorageUnavailable
       | _ => DatabaseStorage.IntegerOutOfRange
       end) s.
Proof.
  unfold DatabaseStorage.bound. intros ->. now destruct plan as [[|n]|].
Qed.

Lemma in_range_one z :
  DatabaseStorage.in_range [z] = DatabaseStorage.in_int4 z.
Proof. unfold DatabaseStorage.in_range. simpl. apply andb_true_r. Qed.

Lemma in_range_cons z l :
  DatabaseStorage.in_range (z :: l)
  = DatabaseStorage.in_int4 z && DatabaseStorage.in_range l.
Proof. reflexivity. Qed.

Lemma in_range_app l l' :
  DatabaseStorage.in_range (l ++ l')
  = DatabaseStorage.in_range l && DatabaseStorage.in_range l'.
Proof. apply forallb_app. Qed.

Lemma in_int4_spec z :
  DatabaseStorage.in_int4 z = true <-> -2147483648 <= z <= 2147483647.
Proof.
  unfold DatabaseStorage.in_int4.
  rewrite andb_true_iff, !Z.leb_le. reflexivity.
Qed.

(** The parameters of a call fit, as the hypotheses at hand say. *)
Ltac in_bounds :=
  repeat first
    [ assumption | reflexivity
    | rewrite in_range_one
    | rewrite in_range_cons, andb_true_iff; split
    | rewrite in_range_app, andb_true_iff; split
    | apply in_int4_spec; lia
    | match goal with H : _ |- _ => solve [apply H] end ].

(** ** Rules for database computations *)

Section TripleRules.
Import DatabaseStorage.

Lemma triple_bound {A : Type} params (m : db A) s plan
  (Q : A -> t -> Prop) E :
  in_range params = true ->
  triple m s plan Q E -> triple (bound params m) s plan Q E.
Proof. intros H. now rewrite (bound_ok _ _ H). Qed.

Lemma triple_ret {A : Type} (a : A) s plan (Q : A -> t -> Prop) E :
  Q a s -> triple (ret a) s plan Q E.
Proof. intros H. unfold triple, ret. now split. Qed.

Lemma triple_bind {A B : Type} (m : db A) (k : A -> db B) s plan
  (Q1 : A -> t -> Prop) (Q : B -> t -> Prop) E :
  triple m s plan Q1 E ->
  (forall a s' plan', Q1 a s' -> triple (k a) s' plan' Q E) ->
  triple (bind m k) s plan Q E.
Proof.
  unfold triple, bind. intros H1 H2.
  destruct (m s plan) as [a s' plan'|e s']; [|exact H1].
  destruct H1 as [Hq Hp]. specialize (H2 a s' plan' Hq).
  destruct (k a s' plan') as [b s'' plan''|e s''].
  - destruct H2 as [Hq' Hp']. split; [assumption|]. auto.
  - destruct H2 as (He & Hn & HE). repeat split; trivial.
    intros ->. apply Hn. now apply Hp.
Qed.

Lemma triple_conseq {A : Type} (m : db A) s plan
  (Q Q' : A -> t -> Prop) (E E' : t -> Prop) :
  triple m s plan Q E ->
  (forall a s', Q a s' -> Q' a s') -> (forall s', E s' -> E' s') ->
  triple m s plan Q' E'.
Proof.
  unfold triple. intros H HQ HE. destruct (m s plan).
  - destruct H. split; auto.
  - destruct H as (? & ? & ?). repeat split; auto.
Qed.

Lemma triple_select {R C : Type} (tbl : table R) (columns : R -> C) cond
  s plan (Q : list C -> t -> Prop) (E : t -> Prop) :
  Q (map columns (filter cond (rows tbl s))) s -> E s ->
  triple (select tbl columns cond) s plan Q E.
Proof.
  intros HQ HE. unfold triple, select, statement.
  destruct plan as [[|n]|]; simpl.
  - repeat split; trivial. discriminate.
  - split; [assumption | discriminate].
  - now split.
Qed.

Lemma triple_delete {R : Type} (tbl : table R) cond s plan
  (Q : Z -> t -> Prop) (E : t -> Prop) :
  Q (Z.of_nat (List.length (filter cond (rows tbl s))))
    (put_rows tbl (filter (fun r => negb (cond r)) (rows tbl s)) s) ->
  E s ->
  triple (delete tbl cond) s plan Q E.
Proof.
  intros HQ HE. unfold triple, delete, statement.
  destruct plan as [[|n]|]; simpl.
  - repeat split; trivial. discriminate.
  - split; [assumption | discriminate].
  - now split.
Qed.

(** The rule of [for ... of]: the invariant holds wherever the loop stops,
    whether it ran to its end or was cut short. *)
Section ForOf.
Variables (X : Type) (body : X -> db unit).
Variables (D : X -> Prop) (I : t -> Prop) (le : t -> t -> Prop).
Variable P : X -> t -> Prop.
Hypothesis le_refl : forall s, le s s.
Hypothesis le_trans : forall a b c, le a b -> le b c -> le a c.
Hypothesis P_down : forall x s s', le s' s -> P x s -> P x s'.
Hypothesis body_spec : forall x s plan, D x -> I s ->
  triple (body x) s plan (fun _ s' => I s' /\ le s' s /\ P x s') I.

Lemma triple_for_of l : forall s plan,
  Forall D l -> I s ->
  triple (for_of l body) s plan
    (fun _ s' => I s' /\ le s' s /\ forall x, In x l -> P x s') I.
Proof.
  induction l as [|a r IH]; intros s plan Hl Hs; simpl.
  - apply triple_ret. repeat split; trivial. intros x [].
  - inversion Hl as [|? ? Ha Hr]; subst.
    eapply triple_bind; [apply body_spec; assumption|].
    intros _ s1 plan1 (I1 & L1 & P1). cbv beta.
    eapply triple_conseq; [apply IH; assumption | | trivial].
    intros _ s2 (I2 & L2 & P2). split; [assumption|].
    split; [eapply le_trans; eassumption|].
    intros x [<-|Hx]; [eapply P_down; eassumption | now apply P2].
Qed.
End ForOf.
End TripleRules.

(** ** Deletion in the relational backend *)

Lemma below_db_refl s : Below.db s s.
Proof. unfold Below.db. repeat split; try reflexivity; apply incl_refl. Qed.

Lemma below_db_trans a b c : Below.db a b -> Below.db b c -> Below.db a c.
Proof.
  unfold Below.db. intros H1 H2.
  destruct H1 as (A1 & A2 & A3 & A4 & A5 & A6 & A7 & A8 & A9 & A10 & A11 & A12).
  destruct H2 as (B1 & B2 & B3 & B4 & B5 & B6 & B7 & B8 & B9 & B10 & B11 & B12).
  repeat split; try congruence; eapply incl_tran; eassumption.
Qed.

Lemma below_db_attachments f s :
  Below.db (DatabaseStorage.put_rows DatabaseStorage.attachments_table
              (filter f (DatabaseStorage.attachments s)) s) s.
Proof.
  unfold Below.db. simpl.
  repeat split; try reflexivity; try apply incl_refl. apply incl_filter.
Qed.

Lemma below_db_notes f s :
  Below.db (DatabaseStorage.put_rows DatabaseStorage.notes_table
              (filter f (DatabaseStorage.notes s)) s) s.
Proof.
  unfold Below.db. simpl.
  repeat split; try reflexivity; try apply incl_refl. apply incl_filter.
Qed.

Lemma below_db_experiments f s :
  Below.db (DatabaseStorage.put_rows DatabaseStorage.experiments_table
              (filter f (DatabaseStorage.experiments s)) s) s.
Proof.
  unfold Below.db. simpl.
  repeat split; try reflexivity; try apply incl_refl. apply incl_filter.
Qed.

Lemma below_db_collaborators f s :
  Below.db (DatabaseStorage.put_rows DatabaseStorage.projectCollaborators_table
              (filter f (DatabaseStorage.projectCollaborators s)) s) s.
Proof.
  unfold Below.db. simpl.
  repeat split; try reflexivity; try apply incl_refl. apply incl_filter.
Qed.

Section DbCascade.
Import DatabaseStorage.
Variable s0 : t.

(** No attachment is left hanging on a note the cascade has removed. *)
Let tidy (st : t) : Prop :=
  forall n a, In n (notes s0) -> In a (attachments st) ->
              a_noteId a = n_id n -> In n (notes st).

Let inv (st : t) : Prop :=
  Below.db st s0 /\ experiments st = experiments s0 /\
  projectCollaborators st = projectCollaborators s0 /\ tidy st.

(** The loop over the notes of one experiment, as [deleteProject] and
    [deleteExperiment] both run it. *)
Lemma db_attachments_loop_triple (expNotes : list Z) st plan :
  inv st ->
  triple
    (for_of expNotes (fun note =>
       bind (delete attachments_table (fun r => Z.eqb (a_noteId r) note))
            (fun _ => ret tt)))
    st plan
    (fun _ st' => (inv st' /\ notes st' = notes st) /\ Below.db st' st /\
                  forall note, In note expNotes ->
                    forall a, In a (attachments st') -> a_noteId a <> note)
    inv.
Proof.
  intros Hi.
  eapply triple_conseq.
  - apply (triple_for_of Z _ (fun _ => True)
             (fun st' => inv st' /\ notes st' = notes st) Below.db
             (fun note st' => forall a, In a (attachments st') ->
                                        a_noteId a <> note)
             below_db_refl below_db_trans).
    + intros x s s' Hb Hp a Ha. apply Hp. now apply Hb.
    + intros note s1 plan1 _ [(B1 & E1 & C1 & T1) N1].
      apply triple_bind with
        (Q1 := fun (_ : Z) s2 =>
                 s2 = put_rows attachments_table
                        (filter (fun r => negb (Z.eqb (a_noteId r) note))
                                (attachments s1)) s1).
      * apply triple_delete; [reflexivity|]. split; [|assumption].
        exact (conj B1 (conj E1 (conj C1 T1))).
      * intros _ s2 plan2 ->. apply triple_ret.
        pose proof (below_db_attachments
                      (fun r => negb (Z.eqb (a_noteId r) note)) s1) as B2.
        split; [split|split]; trivial.
        -- split; [eapply below_db_trans; eassumption|].
           split; [exact E1|]. split; [exact C1|].
           intros n a Hn Ha. simpl in *. apply filter_In in Ha as [Ha _].
           now apply T1.
        -- intros a Ha. simpl in Ha. apply filter_In in Ha as [_ Ha].
           apply negb_true_iff, Z.eqb_neq in Ha. exact Ha.
    + apply Forall_forall. trivial.
    + split; [assumption | reflexivity].
  - intros u st' H. exact H.
  - intros st' [H _]. exact H.
Qed.

(** The body of the loop over the experiments of the project. *)
Lemma db_experiment_body_triple (exp : Z) st plan :
  inv st ->
  triple
    (bind (select notes_table n_id (fun r => Z.eqb (n_experimentId r) exp))
       (fun expNotes =>
          bind (for_of expNotes (fun note =>
                  bind (delete attachments_table
                          (fun r => Z.eqb (a_noteId r) note))
                       (fun _ => ret tt)))
            (fun _ =>
               bind (delete notes_table
                       (fun r => Z.eqb (n_experimentId r) exp))
                    (fun _ => ret tt))))
    st plan
    (fun _ st' =>
       inv st' /\ Below.db st' st /\
       ((forall n a, In n (notes s0) -> n_experimentId n = exp ->
                     In a (attachments st') -> a_noteId a <> n_id n) /\
        (forall n, In n (notes st') -> n_experimentId n <> exp)))
    inv.
Proof.
  intros Hi.
  apply triple_bind with
    (Q1 := fun l s1 => s1 = st /\
             l = map n_id (filter (fun r => Z.eqb (n_experimentId r) exp)
                                  (notes st))).
  { apply triple_select; [now split | assumption]. }
  intros expNotes s1 plan1 [-> ->].
  eapply triple_bind; [apply db_attachments_loop_triple; assumption|].
  intros _ s2 plan2 ([(B2 & E2 & C2 & T2) N2] & L2 & P2). cbv beta.
  apply triple_bind with
    (Q1 := fun (_ : Z) s3 =>
             s3 = put_rows notes_table
                    (filter (fun r => negb (Z.eqb (n_experimentId r) exp))
                            (notes s2)) s2).
  { apply triple_delete; [reflexivity|].
    exact (conj B2 (conj E2 (conj C2 T2))). }
  intros _ s3 plan3 ->. apply triple_ret.
  pose proof (below_db_notes
                (fun r => negb (Z.eqb (n_experimentId r) exp)) s2) as B3.
  assert (Hgone : forall n a, In n (notes s2) -> n_experimentId n = exp ->
                              In a (attachments s2) -> a_noteId a <> n_id n).
  { intros n a Hn E Ha. apply (P2 (n_id n)); [|assumption].
    apply in_map. apply filter_In. rewrite <- N2.
    split; [assumption | now apply Z.eqb_eq]. }
  split; [|split; [|split]].
  - split; [eapply below_db_trans; eassumption|].
    split; [exact E2|]. split; [exact C2|].
    intros n a Hn Ha Ea. simpl in *. apply filter_In.
    pose proof (T2 n a Hn Ha Ea) as Hn2. split; [assumption|].
    apply negb_true_iff, Z.eqb_neq. intros E.
    exact (Hgone n a Hn2 E Ha Ea).
  - eapply below_db_trans; eassumption.
  - intros n a Hn E Ha Ea. simpl in Ha.
    exact (Hgone n a (T2 n a Hn Ha Ea) E Ha Ea).
  - intros n Hn. simpl in Hn. apply filter_In in Hn as [_ Hn].
    apply negb_true_iff, Z.eqb_neq in Hn. exact Hn.
Qed.
End DbCascade.

Lemma db_deleteProject_triple id s plan :
  DatabaseStorage.in_int4 id = true ->
  triple (DatabaseStorage.deleteProject id) s plan
    (fun r s' =>
       (forall e, In e (DatabaseStorage.experiments s') ->
                  e_projectId e <> id) /\
       (forall x n, In x (DatabaseStorage.experiments s) ->
                    e_projectId x = id ->
                    In n (DatabaseStorage.notes s') ->
                    n_experimentId n <> e_id x) /\
       (forall x n a,
           In x (DatabaseStorage.experiments s) -> e_projectId x = id ->
           In n (DatabaseStorage.notes s) -> n_experimentId n = e_id x ->
           In a (DatabaseStorage.attachments s') -> a_noteId a <> n_id n) /\
       (forall c, In c (DatabaseStorage.projectCollaborators s') ->
                  c_projectId c <> id) /\
       DatabaseStorage.projects s'
       = filter (fun p => negb (Z.eqb (p_id p) id))
                (DatabaseStorage.projects s) /\
       r = (0 <? Z.of_nat (List.length
                   (filter (fun p => Z.eqb (p_id p) id)
                           (DatabaseStorage.projects s))))%Z /\
       DatabaseStorage.users s' = DatabaseStorage.users s /\
       incl (DatabaseStorage.experiments s') (DatabaseStorage.experiments s) /\
       incl (DatabaseStorage.notes s') (DatabaseStorage.notes s) /\
       incl (DatabaseStorage.attachments s') (DatabaseStorage.attachments s) /\
       incl (DatabaseStorage.projectCollaborators s')
            (DatabaseStorage.projectCollaborators s))
    (fun s' => Below.db s' s).
Proof.
  intros Hid. unfold DatabaseStorage.deleteProject.
  apply triple_bound; [in_bounds|].
  set (inv := fun st =>
    Below.db st s /\
    DatabaseStorage.experiments st = DatabaseStorage.experiments s /\
    DatabaseStorage.projectCollaborators st
    = DatabaseStorage.projectCollaborators s /\
    (forall n a, In n (DatabaseStorage.notes s) ->
                 In a (DatabaseStorage.attachments st) ->
                 a_noteId a = n_id n -> In n (DatabaseStorage.notes st))).
  assert (Hi0 : inv s).
  { split; [apply below_db_refl|]. split; [reflexivity|].
    split; [reflexivity|]. trivial. }
  apply triple_bind with
    (Q1 := fun l s1 => s1 = s /\
             l = map e_id (filter (fun r => Z.eqb (e_projectId r) id)
                                  (DatabaseStorage.experiments s))).
  { apply triple_select; [now split | apply below_db_refl]. }
  intros projectExperiments s1 plan1 [-> ->].
  eapply triple_bind.
  { eapply triple_conseq.
    - apply (triple_for_of Z _ (fun _ => True) inv Below.db
               (fun exp st =>
                  (forall n a, In n (DatabaseStorage.notes s) ->
                               n_experimentId n = exp ->
                               In a (DatabaseStorage.attachments st) ->
                               a_noteId a <> n_id n) /\
                  (forall n, In n (DatabaseStorage.notes st) ->
                             n_experimentId n <> exp))
               below_db_refl below_db_trans).
      + intros x st st' Hb [Hp1 Hp2]. split.
        * intros n a Hn E Ha. apply Hp1; trivial. now apply Hb.
        * intros n Hn. apply Hp2. now apply Hb.
      + intros exp st plan' _ Hi.
        apply (db_experiment_body_triple s exp st plan' Hi).
      + apply Forall_forall. trivial.
      + exact Hi0.
    - intros u st' H. exact H.
    - intros st' H. apply H. }
  intros _ s2 plan2 ((B2 & E2 & C2 & T2) & _ & P2). cbv beta.
  assert (HP : forall x, In x (DatabaseStorage.experiments s) ->
                         e_projectId x = id ->
             (forall n a, In n (DatabaseStorage.notes s) ->
                          n_experimentId n = e_id x ->
                          In a (DatabaseStorage.attachments s2) ->
                          a_noteId a <> n_id n) /\
             (forall n, In n (DatabaseStorage.notes s2) ->
                        n_experimentId n <> e_id x)).
  { intros x Hx E. apply P2. apply in_map. apply filter_In.
    split; [assumption | now apply Z.eqb_eq]. }
  clear P2.
  apply triple_bind with
    (Q1 := fun (_ : Z) s3 =>
             s3 = DatabaseStorage.put_rows DatabaseStorage.experiments_table
                    (filter (fun r => negb (Z.eqb (e_projectId r) id))
                            (DatabaseStorage.experiments s2)) s2).
  { apply triple_delete; [reflexivity | assumption]. }
  intros _ s3 plan3 ->.
  pose proof (below_db_experiments
                (fun r => negb (Z.eqb (e_projectId r) id)) s2) as B3.
  set (s3 := DatabaseStorage.put_rows DatabaseStorage.experiments_table _ s2)
    in *.
  apply triple_bind with
    (Q1 := fun (_ : Z) s4 =>
             s4 = DatabaseStorage.put_rows
                    DatabaseStorage.projectCollaborators_table
                    (filter (fun r => negb (Z.eqb (c_projectId r) id))
                            (DatabaseStorage.projectCollaborators s3)) s3).
  { apply triple_delete; [reflexivity|]. eapply below_db_trans; eassumption. }
  intros _ s4 plan4 ->.
  pose proof (below_db_collaborators
                (fun r => negb (Z.eqb (c_projectId r) id)) s3) as B4.
  set (s4 := DatabaseStorage.put_rows
               DatabaseStorage.projectCollaborators_table _ s3) in *.
  assert (B : Below.db s4 s).
  { eapply below_db_trans; [exact B4|].
    eapply below_db_trans; eassumption. }
  apply triple_bind with
    (Q1 := fun rowCount s5 =>
             s5 = DatabaseStorage.put_rows DatabaseStorage.projects_table
                    (filter (fun r => negb (Z.eqb (p_id r) id))
                            (DatabaseStorage.projects s4)) s4 /\
             rowCount = Z.of_nat (List.length
                          (filter (fun r => Z.eqb (p_id r) id)
                                  (DatabaseStorage.projects s4)))).
  { apply triple_delete; [now split | assumption]. }
  intros rowCount s5 plan5 [-> ->]. apply triple_ret.
  destruct B as (A1 & A2 & A3 & A4 & A5 & A6 & _).
  simpl. repeat split.
  - intros e He. apply filter_In in He as [_ He].
    apply negb_true_iff, Z.eqb_neq in He. exact He.
  - intros x n Hx E Hn. now apply (HP x Hx E).
  - intros x n a Hx E Hn En Ha. destruct (HP x Hx E) as [Hp1 _].
    now apply (Hp1 n a).
  - intros c Hc. apply filter_In in Hc as [_ Hc].
    apply negb_true_iff, Z.eqb_neq in Hc. exact Hc.
  - simpl in A2. now rewrite A2.
  - simpl in A2. now rewrite A2.
  - exact A1.
  - exact A3.
  - exact A4.
  - exact A5.
  - exact A6.
Qed.

Lemma triple_settled {A : Type} (m : DatabaseStorage.db A) s
  (Q : A -> DatabaseStorage.t -> Prop) E :
  triple m s None Q E -> exists a s', settled m s = Some (a, s') /\ Q a s'.
Proof.
  unfold triple, settled. destruct (m s None) as [a s' plan'|e s'].
  - intros [HQ _]. now exists a, s'.
  - intros (_ & H & _). now contradiction H.
Qed.

Lemma db_getProject_settled id s :
  DatabaseStorage.in_int4 id = true ->
  settled (DatabaseStorage.getProject id) s
  = Some (DatabaseStorage.first
            (filter (fun r => Z.eqb (p_id r) id) (DatabaseStorage.projects s)),
          s).
Proof.
  intros Hid. unfold DatabaseStorage.getProject.
  rewrite bound_ok by in_bounds.
  unfold settled, DatabaseStorage.bind,
    DatabaseStorage.select, DatabaseStorage.statement, DatabaseStorage.ret.
  simpl. now rewrite map_id.
Qed.

Lemma filter_filter_negb_nil {A : Type} (f : A -> bool) (l : list A) :
  filter f (filter (fun r => negb (f r)) l) = [].
Proof.
  apply filter_none. intros x Hx. apply filter_In in Hx as [_ Hx].
  now apply negb_true_iff in Hx.
Qed.

(** C1. Cascade completeness: after [deleteProject id], in either backend,
    no experiment of project [id] is left, no note of any experiment the
    project had, no attachment of any note those experiments had, and no
    collaborator row of the project; [getProject id] answers absent, and
    the deletion answered [true] when the project was there. In the
    relational backend the statement is about the run in which the backend
    stays reachable, which resolves, and about the identifiers a project
    can have there, those of the column type [integer]; any other
    identifier is refused, and nothing is deleted. The in-memory state is
    taken well formed ([Wf.mem]), as every state the backend can reach is
    ([reachable_mem_wf] below). *)
Theorem deleteProject_cascade_complete
  (s : MemStorage.t) (d : DatabaseStorage.t) (id : Z) :
  Wf.mem s ->
  (let r := MemStorage.deleteProject id s in
   let s' := snd r in
   (forall e, In e (MemStorage.listExperiments s') -> e_projectId e <> id) /\
   (forall x n, In x (MemStorage.listExperiments s) -> e_projectId x = id ->
                In n (MemStorage.listNotes s') ->
                n_experimentId n <> e_id x) /\
   (forall x n a,
       In x (MemStorage.listExperiments s) -> e_projectId x = id ->
       In n (MemStorage.listNotes s) -> n_experimentId n = e_id x ->
       In a (JsMap.values (MemStorage.attachments s')) ->
       a_noteId a <> n_id n) /\
   (forall c, In c (JsMap.values (MemStorage.projectCollaborators s')) ->
              c_projectId c <> id) /\
   MemStorage.getProject id s' = None /\
   (MemStorage.getProject id s <> None -> fst r = true))
  /\
  (DatabaseStorage.in_int4 id = true ->
   exists r d',
      settled (DatabaseStorage.deleteProject id) d = Some (r, d') /\
      (forall e, In e (DatabaseStorage.experiments d') ->
                 e_projectId e <> id) /\
      (forall x n, In x (DatabaseStorage.experiments d) ->
                   e_projectId x = id ->
                   In n (DatabaseStorage.notes d') ->
                   n_experimentId n <> e_id x) /\
      (forall x n a,
          In x (DatabaseStorage.experiments d) -> e_projectId x = id ->
          In n (DatabaseStorage.notes d) -> n_experimentId n = e_id x ->
          In a (DatabaseStorage.attachments d') -> a_noteId a <> n_id n) /\
      (forall c, In c (DatabaseStorage.projectCollaborators d') ->
                 c_projectId c <> id) /\
      settled (DatabaseStorage.getProject id) d' = Some (None, d') /\
      (settled (DatabaseStorage.getProject id) d <> Some (None, d) ->
       r = true))
  /\
  (DatabaseStorage.in_int4 id = false ->
   DatabaseStorage.deleteProject id d None
   = DatabaseStorage.Rejected DatabaseStorage.IntegerOutOfRange d).
Proof.
  intros W. split; [|split].
  - pose proof (mem_deleteProject_spec id s W) as
      (W' & H1 & H2 & H3 & H4 & H5 & H6 & _).
    destruct W as (_ & _ & We & Wn & _).
    cbv zeta. unfold MemStorage.listExperiments, MemStorage.listNotes.
    repeat split.
    + intros e He. apply values_In in He as [k Hk]. exact (H1 (k, e) Hk).
    + intros x n Hx E Hn. apply values_In in Hx as [k Hk].
      apply values_In in Hn as [k' Hk'].
      rewrite (keyed_id _ _ _ _ _ We Hk). exact (H2 (k, x) (k', n) Hk E Hk').
    + intros x n a Hx E Hn En Ha. apply values_In in Hx as [k Hk].
      apply values_In in Hn as [k' Hk']. apply values_In in Ha as [k'' Hk''].
      rewrite (keyed_id _ _ _ _ _ Wn Hk').
      apply (H3 (k, x) (k', n) (k'', a) Hk E Hk'); [|exact Hk'']. simpl.
      now rewrite <- (keyed_id _ _ _ _ _ We Hk).
    + intros c Hc. apply values_In in Hc as [k Hk]. exact (H4 (k, c) Hk).
    + exact H5.
    + intros Hp. rewrite H6. now apply has_true.
  - intros Hid.
    destruct (triple_settled _ _ _ _ (db_deleteProject_triple id d None Hid))
      as (r & d' & Hs & Q1 & Q2 & Q3 & Q4 & Q5 & Q6 & _).
    exists r, d'. repeat split; trivial.
    + rewrite (db_getProject_settled _ _ Hid), Q5.
      now rewrite filter_filter_negb_nil.
    + rewrite (db_getProject_settled _ _ Hid). intros Hp. rewrite Q6.
      destruct (filter (fun p => Z.eqb (p_id p) id)
                       (DatabaseStorage.projects d)); [now contradiction Hp|].
      reflexivity.
  - intros Hid. unfold DatabaseStorage.deleteProject. apply bound_out.
    now rewrite in_range_one.
Qed.

(** The cascade law on the worked state, project 1. *)
Lemma deleteProject_cascade_complete_witness :
  Wf.mem Demo.mem /\
  MemStorage.getProject 1 (snd (MemStorage.deleteProject 1 Demo.mem)) = None.
Proof.
  assert (W : Wf.mem Demo.mem) by (vm_compute; repeat split).
  split; [exact W|].
  apply (deleteProject_cascade_complete Demo.mem Demo.db 1 W).
Defined.

(** ** Partial updates *)









Lemma db_getExperiment_settled id s :
  DatabaseStorage.in_int4 id = true ->
  settled (DatabaseStorage.getExperiment id) s
  = Some (DatabaseStorage.first
            (filter (fun r => Z.eqb (e_id r) id)
                    (DatabaseStorage.experiments s)), s).
Proof.
  intros Hid. unfold DatabaseStorage.getExperiment.
  rewrite bound_ok by in_bounds.
  unfold settled, DatabaseStorage.bind,
    DatabaseStorage.select, DatabaseStorage.statement, DatabaseStorage.ret.
  simpl. now rewrite map_id.
Qed.

Lemma db_getNote_settled id s :
  DatabaseStorage.in_int4 id = true ->
  settled (DatabaseStorage.getNote id) s
  = Some (DatabaseStorage.first
            (filter (fun r => Z.eqb (n_id r) id) (DatabaseStorage.notes s)),
          s).
Proof.
  intros Hid. unfold DatabaseStorage.getNote.
  rewrite bound_ok by in_bounds.
  unfold settled, DatabaseStorage.bind,
    DatabaseStorage.select, DatabaseStorage.statement, DatabaseStorage.ret.
  simpl. now rewrite map_id.
Qed.

Lemma db_getAttachment_settled id s :
  DatabaseStorage.in_int4 id = true ->
  settled (DatabaseStorage.getAttachment id) s
  = Some (DatabaseStorage.first
            (filter (fun r => Z.eqb (a_id r) id)
                    (DatabaseStorage.attachments s)), s).
Proof.
  intros Hid. unfold DatabaseStorage.getAttachment.
  rewrite bound_ok by in_bounds.
  unfold settled, DatabaseStorage.bind,
    DatabaseStorage.select, DatabaseStorage.statement, DatabaseStorage.ret.
  simpl. now rewrite map_id.
Qed.




(** ** Deleting what is not there *)

Lemma fold_left_keeps {S X T : Type} (step : S -> X -> S) (proj : S -> T) :
  (forall s x, proj (step s x) = proj s) ->
  forall l s, proj (fold_left step l s) = proj s.
Proof.
  intros H l. induction l as [|a r IH]; intros s; simpl; [reflexivity|].
  now rewrite IH.
Qed.

Lemma mem_deleteNote_frame id s :
  let r := MemStorage.deleteNote id s in
  fst r = JsMap.has id (MemStorage.notes s) /\
  MemStorage.notes (snd r) = JsMap.remove id (MemStorage.notes s) /\
  MemStorage.experiments (snd r) = MemStorage.experiments s /\
  MemStorage.projects (snd r) = MemStorage.projects s.
Proof.
  rewrite mem_deleteNote_eq. cbv zeta. simpl.
  rewrite (fold_left_keeps _ MemStorage.notes) by reflexivity.
  rewrite (fold_left_keeps _ MemStorage.experiments) by reflexivity.
  rewrite (fold_left_keeps _ MemStorage.projects) by reflexivity.
  repeat split.
Qed.

Lemma mem_deleteExperiment_frame id s :
  let r := MemStorage.deleteExperiment id s in
  fst r = JsMap.has id (MemStorage.experiments s) /\
  MemStorage.experiments (snd r) = JsMap.remove id (MemStorage.experiments s) /\
  MemStorage.projects (snd r) = MemStorage.projects s.
Proof.
  rewrite mem_deleteExperiment_eq. cbv zeta. simpl.
  rewrite (fold_left_keeps _ MemStorage.experiments)
    by (intros; apply mem_deleteNote_frame).
  rewrite (fold_left_keeps _ MemStorage.projects)
    by (intros; apply mem_deleteNote_frame).
  repeat split.
Qed.

Lemma with_attachments_same s :
  MemStorage.with_attachments (MemStorage.attachments s)
    (MemStorage.attachmentId s) s = s.
Proof. now destruct s. Qed.

Lemma with_notes_same s :
  MemStorage.with_notes (MemStorage.notes s) (MemStorage.noteId s) s = s.
Proof. now destruct s. Qed.

Lemma with_experiments_same s :
  MemStorage.with_experiments (MemStorage.experiments s)
    (MemStorage.experimentId s) s = s.
Proof. now destruct s. Qed.

Lemma with_projects_same s :
  MemStorage.with_projects (MemStorage.projects s)
    (MemStorage.projectId s) s = s.
Proof. now destruct s. Qed.

Lemma keyed_NoDup {V : Type} (id : V -> Z) next (m : JsMap.t V) :
  keyed id next m = true -> NoDup (JsMap.keys m).
Proof. intros H. apply keyed_spec in H. tauto. Qed.

Lemma get_remove {V : Type} k (m : JsMap.t V) :
  NoDup (JsMap.keys m) -> JsMap.get k (JsMap.remove k m) = None.
Proof. intros H. now apply get_None, remove_gone. Qed.

Lemma remove_get_None {V : Type} k (m : JsMap.t V) :
  JsMap.get k m = None -> JsMap.remove k m = m.
Proof. intros H. now apply remove_absent, get_None. Qed.


Lemma filter_negb_all {A : Type} (f : A -> bool) (l : list A) :
  filter f l = [] -> filter (fun r => negb (f r)) l = l.
Proof.
  intros H. apply filter_all. intros x Hx.
  rewrite (proj1 (filter_none f l) H x Hx). reflexivity.
Qed.

Lemma first_filter_None {A : Type} (f : A -> bool) (l : list A) :
  DatabaseStorage.first (filter f l) = None <-> filter f l = [].
Proof. destruct (filter f l); simpl; split; congruence. Qed.

Lemma rowCount_positive {A : Type} (l : list A) :
  (0 <? Z.of_nat (List.length l))%Z = true <-> DatabaseStorage.first l <> None.
Proof.
  destruct l; simpl; split; try congruence.
  - discriminate.
  - intros _. reflexivity.
Qed.

Lemma db_deleteExperiment_triple id s plan :
  DatabaseStorage.in_int4 id = true ->
  triple (DatabaseStorage.deleteExperiment id) s plan
    (fun r s' =>
       r = (0 <? Z.of_nat (List.length
                   (filter (fun x => Z.eqb (e_id x) id)
                           (DatabaseStorage.experiments s))))%Z /\
       DatabaseStorage.experiments s'
       = filter (fun x => negb (Z.eqb (e_id x) id))
                (DatabaseStorage.experiments s))
    (fun _ => True).
Proof.
  intros Hid. unfold DatabaseStorage.deleteExperiment.
  apply triple_bound; [in_bounds|].
  set (inv := fun st =>
         DatabaseStorage.experiments st = DatabaseStorage.experiments s).
  apply triple_bind with (Q1 := fun (_ : list Z) s1 => inv s1).
  { apply triple_select; [reflexivity | trivial]. }
  intros experimentNotes s1 plan1 H1.
  apply triple_bind with (Q1 := fun (_ : unit) s2 => inv s2).
  { eapply triple_conseq.
    - apply (triple_for_of Z _ (fun _ => True) inv (fun _ _ => True)
               (fun _ _ => True)); trivial.
      + intros note st plan' _ Hst.
        apply triple_bind with (Q1 := fun (_ : Z) s2 => inv s2).
        * apply triple_delete; [exact Hst | exact Hst].
        * intros _ s2 plan2 H2. apply triple_ret. now split.
      + apply Forall_forall. trivial.
    - intros u s2 H. apply H.
    - trivial. }
  intros _ s2 plan2 H2.
  apply triple_bind with (Q1 := fun (_ : Z) s3 => inv s3).
  { apply triple_delete; [exact H2 | trivial]. }
  intros _ s3 plan3 H3.
  apply triple_bind with
    (Q1 := fun rowCount s4 =>
             DatabaseStorage.experiments s4
             = filter (fun x => negb (Z.eqb (e_id x) id))
                      (DatabaseStorage.experiments s3) /\
             rowCount = Z.of_nat (List.length
                          (filter (fun x => Z.eqb (e_id x) id)
                                  (DatabaseStorage.experiments s3)))).
  { apply triple_delete; [now split | trivial]. }
  intros rowCount s4 plan4 [H4 ->]. apply triple_ret.
  unfold inv in H3. rewrite H3 in *. now split.
Qed.

(** A test no row passes, as a selection that comes back empty. *)
Lemma none_pass {A : Type} (f : A -> bool) (l : list A) :
  (forall x, In x l -> f x = false) -> filter f l = [].
Proof. apply filter_none. Qed.

(** C6, as amended. Deleting an id, for the four kinds of record and in
    either backend (in the relational one, when the backend stays
    reachable and the id is a value of the column type [integer]): the
    deletion answers, and answers [true] exactly when a record with that id
    existed; afterwards no record has that id; when none had it the table
    of that kind is unchanged, and the whole store is unchanged provided no
    record names the id as its parent (an attachment has no children, so
    there the store is always unchanged). An id outside the column type,
    which no record can have, is an error in the relational backend: the
    deletion is rejected and the store is unchanged. The in-memory state is
    taken well formed, as every reachable state is. *)
Theorem delete_absent_amended
  (s : MemStorage.t) (d : DatabaseStorage.t) (id : Z) :
  Wf.mem s ->
  ((let r := MemStorage.deleteProject id s in
    (fst r = true <-> MemStorage.getProject id s <> None) /\
    MemStorage.getProject id (snd r) = None /\
    (MemStorage.getProject id s = None ->
     MemStorage.projects (snd r) = MemStorage.projects s) /\
    (MemStorage.getProject id s = None ->
     MemStorage.listExperimentsByProject id s = [] ->
     MemStorage.listCollaboratorsByProject id s = [] -> snd r = s)) /\
   (let r := MemStorage.deleteExperiment id s in
    (fst r = true <-> MemStorage.getExperiment id s <> None) /\
    MemStorage.getExperiment id (snd r) = None /\
    (MemStorage.getExperiment id s = None ->
     MemStorage.experiments (snd r) = MemStorage.experiments s) /\
    (MemStorage.getExperiment id s = None ->
     MemStorage.listNotesByExperiment id s = [] -> snd r = s)) /\
   (let r := MemStorage.deleteNote id s in
    (fst r = true <-> MemStorage.getNote id s <> None) /\
    MemStorage.getNote id (snd r) = None /\
    (MemStorage.getNote id s = None ->
     MemStorage.notes (snd r) = MemStorage.notes s) /\
    (MemStorage.getNote id s = None ->
     MemStorage.listAttachmentsByNote id s = [] -> snd r = s)) /\
   (let r := MemStorage.deleteAttachment id s in
    (fst r = true <-> MemStorage.getAttachment id s <> None) /\
    MemStorage.getAttachment id (snd r) = None /\
    (MemStorage.getAttachment id s = None -> snd r = s)))
  /\
  (DatabaseStorage.in_int4 id = true ->
   (exists r d',
       settled (DatabaseStorage.deleteProject id) d = Some (r, d') /\
       (r = true <->
        settled (DatabaseStorage.getProject id) d <> Some (None, d)) /\
       settled (DatabaseStorage.getProject id) d' = Some (None, d') /\
       (settled (DatabaseStorage.getProject id) d = Some (None, d) ->
        DatabaseStorage.projects d' = DatabaseStorage.projects d) /\
       (settled (DatabaseStorage.getProject id) d = Some (None, d) ->
        (forall x, In x (DatabaseStorage.experiments d) ->
                   e_projectId x <> id) ->
        (forall c, In c (DatabaseStorage.projectCollaborators d) ->
                   c_projectId c <> id) ->
        d' = d)) /\
   (exists r d',
       settled (DatabaseStorage.deleteExperiment id) d = Some (r, d') /\
       (r = true <->
        settled (DatabaseStorage.getExperiment id) d <> Some (None, d)) /\
       settled (DatabaseStorage.getExperiment id) d' = Some (None, d') /\
       (settled (DatabaseStorage.getExperiment id) d = Some (None, d) ->
        DatabaseStorage.experiments d' = DatabaseStorage.experiments d) /\
       (settled (DatabaseStorage.getExperiment id) d = Some (None, d) ->
        (forall n, In n (DatabaseStorage.notes d) ->
                   n_experimentId n <> id) ->
        d' = d)) /\
   (exists r d',
       settled (DatabaseStorage.deleteNote id) d = Some (r, d') /\
       (r = true <->
        settled (DatabaseStorage.getNote id) d <> Some (None, d)) /\
       settled (DatabaseStorage.getNote id) d' = Some (None, d') /\
       (settled (DatabaseStorage.getNote id) d = Some (None, d) ->
        DatabaseStorage.notes d' = DatabaseStorage.notes d) /\
       (settled (DatabaseStorage.getNote id) d = Some (None, d) ->
        (forall a, In a (DatabaseStorage.attachments d) ->
                   a_noteId a <> id) ->
        d' = d)) /\
   (exists r d',
       settled (DatabaseStorage.deleteAttachment id) d = Some (r, d') /\
       (r = true <->
        settled (DatabaseStorage.getAttachment id) d <> Some (None, d)) /\
       settled (DatabaseStorage.getAttachment id) d' = Some (None, d') /\
       (settled (DatabaseStorage.getAttachment id) d = Some (None, d) ->
        d' = d)))
  /\
  (DatabaseStorage.in_int4 id = false ->
   DatabaseStorage.deleteProject id d None
   = DatabaseStorage.Rejected DatabaseStorage.IntegerOutOfRange d /\
   DatabaseStorage.deleteExperiment id d None
   = DatabaseStorage.Rejected DatabaseStorage.IntegerOutOfRange d /\
   DatabaseStorage.deleteNote id d None
   = DatabaseStorage.Rejected DatabaseStorage.IntegerOutOfRange d /\
   DatabaseStorage.deleteAttachment id d None
   = DatabaseStorage.Rejected DatabaseStorage.IntegerOutOfRange d).
Proof.
  intros W. destruct W as (Wu & Wp & We & Wn & Wa & Wc). split; [|split].
  {
    split; [|split; [|split]]; cbv zeta.
    - pose proof (mem_deleteProject_spec id s
                    (conj Wu (conj Wp (conj We (conj Wn (conj Wa Wc))))))
        as (_ & _ & _ & _ & _ & H5 & H6 & H7 & _).
      unfold MemStorage.getProject in *. split; [|split; [|split]].
      + rewrite H6. apply has_true.
      + exact H5.
      + intros H. rewrite H7. now apply remove_get_None.
      + intros H E1 E2. rewrite mem_deleteProject_eq. cbv zeta.
        rewrite E1. simpl. rewrite E2. simpl.
        rewrite (remove_get_None _ _ H). apply with_projects_same.
    - pose proof (mem_deleteExperiment_frame id s) as (F1 & F2 & _).
      unfold MemStorage.getExperiment. split; [|split; [|split]].
      + rewrite F1. apply has_true.
      + rewrite F2. apply get_remove. eapply keyed_NoDup. exact We.
      + intros H. rewrite F2. now apply remove_get_None.
      + intros H E1. rewrite mem_deleteExperiment_eq. cbv zeta.
        rewrite E1. simpl. rewrite (remove_get_None _ _ H).
        apply with_experiments_same.
    - pose proof (mem_deleteNote_frame id s) as (F1 & F2 & _).
      unfold MemStorage.getNote. split; [|split; [|split]].
      + rewrite F1. apply has_true.
      + rewrite F2. apply get_remove. eapply keyed_NoDup. exact Wn.
      + intros H. rewrite F2. now apply remove_get_None.
      + intros H E1. rewrite mem_deleteNote_eq. cbv zeta.
        rewrite E1. simpl. rewrite (remove_get_None _ _ H).
        apply with_notes_same.
    - unfold MemStorage.getAttachment, MemStorage.deleteAttachment. simpl.
      split; [|split].
      + apply has_true.
      + apply get_remove. eapply keyed_NoDup. exact Wa.
      + intros H. rewrite (remove_get_None _ _ H). apply with_attachments_same.
  }
  {
    intros Hid.
    assert (Hget : forall {A : Type} (l : list A),
               Some (DatabaseStorage.first l, d) <> Some (None, d)
               <-> DatabaseStorage.first l <> None).
    { intros A l. split; intros H E; apply H; congruence. }
    assert (Hnone : forall {A : Type} (f : A -> bool) (l : list A),
               Some (DatabaseStorage.first (filter f l), d) = Some (None, d)
               -> filter f l = []).
    { intros A f l E. apply first_filter_None. congruence. }
    split; [|split; [|split]].
    - destruct (triple_settled _ _ _ _ (db_deleteProject_triple id d None Hid))
        as (r & d' & Hs & _ & _ & _ & _ & Q5 & Q6 & _).
      exists r, d'. split; [exact Hs|].
      rewrite !(db_getProject_settled _ _ Hid).
      split; [|split; [|split]].
      + rewrite Q6, Hget. apply rowCount_positive.
      + now rewrite Q5, filter_filter_negb_nil.
      + intros H. rewrite Q5. now apply filter_negb_all, Hnone.
      + intros H E1 E2. apply Hnone in H.
        assert (F1 : filter (fun r => Z.eqb (e_projectId r) id)
                            (DatabaseStorage.experiments d) = []).
        { apply none_pass. intros x Hx. now apply Z.eqb_neq, E1. }
        assert (F2 : filter (fun r => Z.eqb (c_projectId r) id)
                            (DatabaseStorage.projectCollaborators d) = []).
        { apply none_pass. intros x Hx. now apply Z.eqb_neq, E2. }
        revert Hs. unfold DatabaseStorage.deleteProject.
        rewrite bound_ok by in_bounds. unfold settled,
          DatabaseStorage.bind, DatabaseStorage.select, DatabaseStorage.delete,
          DatabaseStorage.statement, DatabaseStorage.ret. simpl.
        rewrite F1. simpl. rewrite (filter_negb_all _ _ F1).
        rewrite (filter_negb_all _ _ F2), (filter_negb_all _ _ H).
        intros E. injection E as _ <-. now destruct d.
    - destruct (triple_settled _ _ _ _
                  (db_deleteExperiment_triple id d None Hid))
        as (r & d' & Hs & Q1 & Q2).
      exists r, d'. split; [exact Hs|].
      rewrite !(db_getExperiment_settled _ _ Hid).
      split; [|split; [|split]].
      + rewrite Q1, Hget. apply rowCount_positive.
      + now rewrite Q2, filter_filter_negb_nil.
      + intros H. rewrite Q2. now apply filter_negb_all, Hnone.
      + intros H E1. apply Hnone in H.
        assert (F1 : filter (fun r => Z.eqb (n_experimentId r) id)
                            (DatabaseStorage.notes d) = []).
        { apply none_pass. intros x Hx. now apply Z.eqb_neq, E1. }
        revert Hs. unfold DatabaseStorage.deleteExperiment.
        rewrite bound_ok by in_bounds. unfold settled,
          DatabaseStorage.bind, DatabaseStorage.select, DatabaseStorage.delete,
          DatabaseStorage.statement, DatabaseStorage.ret. simpl.
        rewrite F1. simpl. rewrite (filter_negb_all _ _ F1).
        rewrite (filter_negb_all _ _ H).
        intros E. injection E as _ <-. now destruct d.
    - eexists. eexists. split.
      { unfold DatabaseStorage.deleteNote. rewrite bound_ok by in_bounds.
        unfold settled, DatabaseStorage.bind,
          DatabaseStorage.delete, DatabaseStorage.statement,
          DatabaseStorage.ret. simpl. reflexivity. }
      rewrite !(db_getNote_settled _ _ Hid). simpl.
      split; [|split; [|split]].
      + rewrite Hget. apply rowCount_positive.
      + now rewrite filter_filter_negb_nil.
      + intros H. now apply filter_negb_all, Hnone.
      + intros H E1. apply Hnone in H.
        assert (F1 : filter (fun r => Z.eqb (a_noteId r) id)
                            (DatabaseStorage.attachments d) = []).
        { apply none_pass. intros x Hx. now apply Z.eqb_neq, E1. }
        rewrite (filter_negb_all _ _ F1), (filter_negb_all _ _ H).
        now destruct d.
    - eexists. eexists. split.
      { unfold DatabaseStorage.deleteAttachment.
        rewrite bound_ok by in_bounds.
        unfold settled, DatabaseStorage.bind,
          DatabaseStorage.delete, DatabaseStorage.statement,
          DatabaseStorage.ret. simpl. reflexivity. }
      rewrite !(db_getAttachment_settled _ _ Hid). simpl. split; [|split].
      + rewrite Hget. apply rowCount_positive.
      + now rewrite filter_filter_negb_nil.
      + intros H. apply Hnone in H.
        rewrite (filter_negb_all _ _ H). now destruct d.
  }
  {
    intros Hid. rewrite <- in_range_one in Hid.
    unfold DatabaseStorage.deleteProject, DatabaseStorage.deleteExperiment,
      DatabaseStorage.deleteNote, DatabaseStorage.deleteAttachment.
    rewrite !(bound_out _ _ _ _ Hid). repeat split.
  }
Qed.

(** Deleting project 7, which the worked state does not have and nothing
    refers to, leaves the state as it was. *)
Lemma delete_absent_amended_witness :
  Wf.mem Demo.mem /\
  snd (MemStorage.deleteProject 7 Demo.mem) = Demo.mem.
Proof.
  assert (W : Wf.mem Demo.mem) by (vm_compute; repeat split).
  split; [exact W|].
  destruct (delete_absent_amended Demo.mem Demo.db 7 W)
    as [[(_ & _ & _ & H) _] _].
  apply H; reflexivity.
Defined.

(** C6 as stated fails: with an experiment that names project 99 and no
    project 99 (creation does not look the parent up), [deleteProject 99]
    answers [false] and yet removes the experiment, in both backends. It
    also fails on an id that no column can hold: the relational backend
    answers [deleteProject 2147483648] with an error where the claim, and
    the in-memory backend, say [false]. *)
Lemma delete_absent_counterexample :
  let stray := mkInsertExperiment "stray" None 99 in
  let s := snd (MemStorage.createExperiment stray 0 (MemStorage.constructor 0)) in
  let d := Demo.after (DatabaseStorage.createExperiment stray 0)
                      DatabaseStorage.fresh in
  (Wf.mem s /\ MemStorage.getProject 99 s = None /\
   fst (MemStorage.deleteProject 99 s) = false /\
   snd (MemStorage.deleteProject 99 s) <> s) /\
  (settled (DatabaseStorage.getProject 99) d = Some (None, d) /\
   exists d', settled (DatabaseStorage.deleteProject 99) d = Some (false, d')
              /\ d' <> d) /\
  (DatabaseStorage.deleteProject 2147483648 d None
   = DatabaseStorage.Rejected DatabaseStorage.IntegerOutOfRange d /\
   fst (MemStorage.deleteProject 2147483648 s) = false).
Proof.
  cbv zeta. split; [|split].
  - split; [vm_compute; repeat split|]. split; [reflexivity|].
    split; [reflexivity|]. vm_compute. discriminate.
  - split; [reflexivity|]. eexists. split; [vm_compute; reflexivity|].
    vm_compute. discriminate.
  - split; reflexivity.
Qed.

(** ** A cascade cut short *)

Section Sends.
Import DatabaseStorage.

Lemma apply_all_app l l' s :
  apply_all (l ++ l') s = apply_all l' (apply_all l s).
Proof. apply fold_left_app. Qed.

Lemma sends_ret {A : Type} (a : A) s plan : ret a s plan = sends [] a s plan.
Proof.
  unfold ret, sends. destruct plan as [n|]; simpl; [|reflexivity].
  now rewrite Nat.sub_0_r.
Qed.

Lemma sends_select {R C : Type} (tbl : table R) (columns : R -> C) cond
  s plan :
  select tbl columns cond s plan
  = sends [selection] (map columns (filter cond (rows tbl s))) s plan.
Proof.
  unfold select, statement, sends. destruct plan as [[|n]|]; simpl; trivial.
  now rewrite Nat.sub_0_r.
Qed.

Lemma sends_delete {R : Type} (tbl : table R) cond s plan :
  delete tbl cond s plan
  = sends [deletion tbl cond]
      (Z.of_nat (List.length (filter cond (rows tbl s)))) s plan.
Proof.
  unfold delete, statement, sends. destruct plan as [[|n]|]; simpl; trivial.
  now rewrite Nat.sub_0_r.
Qed.

Lemma sends_bind {A B : Type} (m : db A) (k : A -> db B) s l l' a b :
  (forall plan, m s plan = sends l a s plan) ->
  (forall plan, k a (apply_all l s) plan = sends l' b (apply_all l s) plan) ->
  forall plan, bind m k s plan = sends (l ++ l') b s plan.
Proof.
  intros H1 H2 plan. unfold bind. rewrite H1. unfold sends at 1.
  destruct plan as [n|].
  - destruct (n <? List.length l)%nat eqn:E.
    + apply Nat.ltb_lt in E. unfold sends. rewrite length_app.
      replace (n <? List.length l + List.length l')%nat with true
        by (symmetry; apply Nat.ltb_lt; lia).
      rewrite firstn_app.
      replace (n - List.length l)%nat with 0%nat by lia.
      simpl. now rewrite app_nil_r.
    + apply Nat.ltb_ge in E. rewrite H2. unfold sends.
      rewrite length_app, firstn_app, (firstn_all2 l) by lia.
      rewrite !apply_all_app.
      destruct (n - List.length l <? List.length l')%nat eqn:E'.
      * apply Nat.ltb_lt in E'.
        replace (n <? List.length l + List.length l')%nat with true
          by (symmetry; apply Nat.ltb_lt; lia).
        reflexivity.
      * apply Nat.ltb_ge in E'.
        replace (n <? List.length l + List.length l')%nat with false
          by (symmetry; apply Nat.ltb_ge; lia).
        now rewrite Nat.sub_add_distr.
  - rewrite H2. unfold sends. now rewrite apply_all_app.
Qed.

(** The loop over the notes of one experiment. *)
Lemma sends_attachments_loop (expNotes : list Z) : forall s plan,
  for_of expNotes (fun note =>
    bind (delete attachments_table (fun r => Z.eqb (a_noteId r) note))
         (fun _ => ret tt)) s plan
  = sends (map (fun note =>
                  deletion attachments_table
                    (fun r => Z.eqb (a_noteId r) note)) expNotes) tt s plan.
Proof.
  induction expNotes as [|note r IH]; intros s plan; simpl.
  - apply sends_ret.
  - change (deletion attachments_table (fun r0 => Z.eqb (a_noteId r0) note)
            :: map _ r)
      with (([deletion attachments_table
                (fun r0 => Z.eqb (a_noteId r0) note)] ++ []) ++ map
              (fun note => deletion attachments_table
                 (fun r => Z.eqb (a_noteId r) note)) r).
    apply sends_bind with (a := tt).
    + apply sends_bind with
        (a := Z.of_nat (List.length
                (filter (fun r0 => Z.eqb (a_noteId r0) note)
                        (rows attachments_table s)))).
      * intros p. apply sends_delete.
      * intros p. apply sends_ret.
    + intros p. apply IH.
Qed.

(** One turn of the loop over the experiments. *)
Lemma sends_experiment_body (exp : Z) s plan :
  bind (select notes_table n_id (fun r => Z.eqb (n_experimentId r) exp))
    (fun expNotes =>
       bind (for_of expNotes (fun note =>
               bind (delete attachments_table
                       (fun r => Z.eqb (a_noteId r) note))
                    (fun _ => ret tt)))
         (fun _ =>
            bind (delete notes_table
                    (fun r => Z.eqb (n_experimentId r) exp))
                 (fun _ => ret tt))) s plan
  = sends (experiment_statements exp s) tt s plan.
Proof.
  unfold experiment_statements.
  set (expNotes := map n_id (filter _ (notes s))).
  change (selection :: ?l) with ([selection] ++ l).
  revert plan.
  apply sends_bind with (a := expNotes).
  { intros p. apply sends_select. }
  apply sends_bind with (a := tt).
  { intros p. apply sends_attachments_loop. }
  intros p.
  rewrite <- (app_nil_r [deletion notes_table _]).
  revert p. eapply sends_bind.
  - intros p. apply sends_delete.
  - intros p. apply sends_ret.
Qed.

Lemma sends_experiments_loop (exps : list Z) : forall s plan,
  for_of exps (fun exp =>
    bind (select notes_table n_id (fun r => Z.eqb (n_experimentId r) exp))
      (fun expNotes =>
         bind (for_of expNotes (fun note =>
                 bind (delete attachments_table
                         (fun r => Z.eqb (a_noteId r) note))
                      (fun _ => ret tt)))
           (fun _ =>
              bind (delete notes_table
                      (fun r => Z.eqb (n_experimentId r) exp))
                   (fun _ => ret tt)))) s plan
  = sends (experiments_statements exps s) tt s plan.
Proof.
  induction exps as [|exp r IH]; intros s plan;
    cbn [for_of experiments_statements].
  - apply sends_ret.
  - revert plan. apply sends_bind with (a := tt).
    + intros p. apply sends_experiment_body.
    + intros p. apply IH.
Qed.

Lemma only_removes_all l s :
  Forall only_removes l -> Below.db (apply_all l s) s.
Proof.
  intros H. revert s. induction H as [|f l Hf _ IH]; intros s; simpl.
  - apply below_db_refl.
  - eapply below_db_trans; [apply IH | apply Hf].
Qed.

Lemma only_removes_experiment exp s :
  Forall only_removes (experiment_statements exp s).
Proof.
  unfold experiment_statements. constructor.
  - intros st. apply below_db_refl.
  - apply Forall_app. split.
    + apply Forall_forall. intros f Hf.
      apply in_map_iff in Hf as [note [<- _]].
      intros st. apply below_db_attachments.
    + constructor; [|constructor]. intros st. apply below_db_notes.
Qed.

Lemma only_removes_experiments exps : forall s,
  Forall only_removes (experiments_statements exps s).
Proof.
  induction exps as [|exp r IH]; intros s;
    cbn [experiments_statements]; [constructor|].
  apply Forall_app. split; [apply only_removes_experiment | apply IH].
Qed.

Lemma firstn_split {A : Type} (l : list A) : forall n k,
  (k <= n)%nat -> firstn n l = firstn k l ++ firstn (n - k) (skipn k l).
Proof.
  induction l as [|a r IH]; intros n k H.
  - now rewrite !firstn_nil, skipn_nil, firstn_nil.
  - destruct k as [|k]; [now rewrite Nat.sub_0_r|].
    destruct n as [|n]; [lia|]. simpl. f_equal. apply IH. lia.
Qed.

Lemma Forall_firstn_skipn {A : Type} (P : A -> Prop) (l : list A) n k :
  Forall P l -> Forall P (firstn n (skipn k l)).
Proof.
  intros H.
  assert (Hs : Forall P (skipn k l)).
  { revert k. induction H as [|a r Ha Hr IH]; intros [|k]; simpl;
      try constructor; auto. }
  revert n. induction Hs as [|a r Ha Hr IH]; intros [|n]; simpl;
    constructor; auto.
Qed.
End Sends.

Section SendsCascade.
Import DatabaseStorage.

Lemma projects_kept l s :
  Forall only_removes l -> projects (apply_all l s) = projects s.
Proof. intros H. apply (only_removes_all l s H). Qed.

Lemma only_removes_experiments_table f :
  only_removes (deletion experiments_table f).
Proof. intros s. apply below_db_experiments. Qed.

Lemma only_removes_collaborators_table f :
  only_removes (deletion projectCollaborators_table f).
Proof. intros s. apply below_db_collaborators. Qed.

Lemma only_removes_selection : only_removes selection.
Proof. intros s. apply below_db_refl. Qed.

(** [deleteProject] sends the statements of [deleteProject_statements],
    and nothing else. *)
Lemma db_deleteProject_sends id d plan :
  in_int4 id = true ->
  deleteProject id d plan
  = sends (deleteProject_statements id d)
      (0 <? Z.of_nat (List.length
              (filter (fun p => Z.eqb (p_id p) id) (projects d))))%Z d plan.
Proof.
  intros Hid. unfold deleteProject. rewrite bound_ok by in_bounds.
  unfold deleteProject_statements.
  set (exps := map e_id (filter _ (experiments d))).
  change (selection :: ?l) with ([selection] ++ l).
  revert plan. apply sends_bind with (a := exps).
  { intros p. apply sends_select. }
  apply sends_bind with (a := tt).
  { intros p. apply sends_experiments_loop. }
  set (d1 := apply_all (experiments_statements exps _) _).
  assert (H1 : projects d1 = projects d).
  { unfold d1. rewrite projects_kept by apply only_removes_experiments.
    reflexivity. }
  clearbody d1.
  change [?a; ?b; ?c] with ([a] ++ [b] ++ [c] ++ []).
  eapply sends_bind; [intros p; apply sends_delete|].
  eapply sends_bind; [intros p; apply sends_delete|].
  eapply sends_bind; [intros p; apply sends_delete|].
  intros p. rewrite <- sends_ret.
  change (rows projects_table ?x) with (projects x).
  rewrite (projects_kept [_]), (projects_kept [_]), H1; [reflexivity| |].
  - constructor; [apply only_removes_experiments_table | constructor].
  - constructor; [apply only_removes_collaborators_table | constructor].
Qed.
End SendsCascade.

(** C7, as amended. [DatabaseStorage.deleteProject] sends the statements
    of its cascade one after the other with no transaction around them,
    and each is committed as it completes. So a run that the fault plan
    cuts after [n] statements is rejected in exactly the state those [n]
    statements have made: nothing is rolled back, and every row a
    completed statement has removed stays removed (the state left holds no
    row that was gone after [k <= n] statements; with [k = 0]: no table
    has gained a row, and projects, users and sequences are untouched,
    since only the last statement removes the project row). A run that is
    not cut resolves after all the statements, and then the cascade is
    complete: no experiment, note, attachment or collaborator row of the
    project is left, nor the project row. The id is taken among the values
    of the column type [integer]. *)
Theorem deleteProject_not_atomic_amended
  (d : DatabaseStorage.t) (id : Z) (plan : option nat) :
  DatabaseStorage.in_int4 id = true ->
  let steps := deleteProject_statements id d in
  let d' := apply_all steps d in
  DatabaseStorage.deleteProject id d plan
  = sends steps
      (0 <? Z.of_nat (List.length
              (filter (fun p => Z.eqb (p_id p) id)
                      (DatabaseStorage.projects d))))%Z d plan /\
  (forall n k, (k <= n < List.length steps)%nat ->
     Below.db (apply_all (firstn n steps) d) (apply_all (firstn k steps) d)) /\
  (forall e, In e (DatabaseStorage.experiments d') -> e_projectId e <> id) /\
  (forall x n, In x (DatabaseStorage.experiments d) ->
               e_projectId x = id ->
               In n (DatabaseStorage.notes d') ->
               n_experimentId n <> e_id x) /\
  (forall x n a,
      In x (DatabaseStorage.experiments d) -> e_projectId x = id ->
      In n (DatabaseStorage.notes d) -> n_experimentId n = e_id x ->
      In a (DatabaseStorage.attachments d') -> a_noteId a <> n_id n) /\
  (forall c, In c (DatabaseStorage.projectCollaborators d') ->
             c_projectId c <> id) /\
  (forall p, In p (DatabaseStorage.projects d') -> p_id p <> id).
Proof.
  intros Hid steps d'. split; [now apply db_deleteProject_sends|]. split.
  - intros n k [Hk Hn].
    assert (Hpre : exists pre last,
               steps = pre ++ [last] /\ Forall only_removes pre).
    { exists (selection
              :: experiments_statements
                   (map e_id (filter (fun r => Z.eqb (e_projectId r) id)
                                     (DatabaseStorage.experiments d))) d
              ++ [deletion DatabaseStorage.experiments_table
                    (fun r => Z.eqb (e_projectId r) id);
                  deletion DatabaseStorage.projectCollaborators_table
                    (fun r => Z.eqb (c_projectId r) id)]),
        (deletion DatabaseStorage.projects_table
           (fun r => Z.eqb (p_id r) id)).
      split.
      - unfold steps, deleteProject_statements. cbv zeta.
        rewrite <- app_comm_cons, <- app_assoc. reflexivity.
      - constructor; [apply only_removes_selection|].
        apply Forall_app. split; [apply only_removes_experiments|].
        constructor; [apply only_removes_experiments_table|].
        constructor; [apply only_removes_collaborators_table|constructor]. }
    destruct Hpre as (pre & last & E & Hpre). rewrite E in *.
    rewrite length_app in Hn. simpl in Hn.
    rewrite !firstn_app.
    replace (n - List.length pre)%nat with 0%nat by lia.
    replace (k - List.length pre)%nat with 0%nat by lia.
    simpl. rewrite !app_nil_r.
    rewrite (firstn_split pre n k Hk), apply_all_app.
    apply only_removes_all. now apply Forall_firstn_skipn.
  - pose proof (db_deleteProject_triple id d None Hid) as H.
    unfold triple in H.
    rewrite (db_deleteProject_sends id d None Hid) in H.
    unfold sends in H. cbv beta iota in H.
    destruct H as [(Q1 & Q2 & Q3 & Q4 & Q5 & _) _].
    repeat split; trivial.
    intros p Hp. unfold d', steps in Hp. rewrite Q5 in Hp.
    apply filter_In in Hp as [_ Hp].
    apply negb_true_iff, Z.eqb_neq in Hp. exact Hp.
Qed.

(** The amended law on the worked state: cut after three statements,
    [deleteProject 1] leaves the state in which the attachment of note 1
    is gone and everything else is still there. *)
Lemma deleteProject_not_atomic_amended_witness :
  DatabaseStorage.in_int4 1 = true /\
  DatabaseStorage.deleteProject 1 Demo.db (Some 3%nat)
  = DatabaseStorage.Rejected DatabaseStorage.StorageUnavailable
      (DatabaseStorage.put_rows DatabaseStorage.attachments_table []
         Demo.db).
Proof.
  split; [reflexivity|].
  destruct (deleteProject_not_atomic_amended Demo.db 1 (Some 3%nat) eq_refl)
    as [H _].
  rewrite H. reflexivity.
Defined.

(** C7 as stated fails: in the worked state, when the backend fails after
    three statements of [deleteProject 1] (the two selections and the
    deletion of the attachments of note 1), the attachment is gone for good
    while the note, the experiment, the collaborator and the project are
    all still there. *)
Lemma deleteProject_atomicity_counterexample :
  exists d',
    DatabaseStorage.deleteProject 1 Demo.db (Some 3%nat)
    = DatabaseStorage.Rejected DatabaseStorage.StorageUnavailable d' /\
    DatabaseStorage.attachments Demo.db <> [] /\
    DatabaseStorage.attachments d' = [] /\
    DatabaseStorage.notes d' = DatabaseStorage.notes Demo.db /\
    DatabaseStorage.experiments d' = DatabaseStorage.experiments Demo.db /\
    DatabaseStorage.projectCollaborators d'
    = DatabaseStorage.projectCollaborators Demo.db /\
    DatabaseStorage.projects d' = DatabaseStorage.projects Demo.db /\
    DatabaseStorage.projects Demo.db <> [] /\
    d' <> Demo.db.
Proof.
  eexists. split; [vm_compute; reflexivity|].
  repeat split; try (vm_compute; discriminate).
Qed.

(** ** Creation *)

Lemma issued_spec {R : Type} (id : R -> Z) next (l : list R) :
  issued id next l = true <->
  NoDup (map id l) /\ (forall r, In r l -> id r < next).
Proof.
  unfold issued. rewrite andb_true_iff, distinct_NoDup, forallb_forall.
  split; intros [H1 H2]; (split; [assumption|]); intros r Hr.
  - now apply Z.ltb_lt, H2.
  - now apply Z.ltb_lt, H2.
Qed.


Lemma existsb_filter {A : Type} (f : A -> bool) (l : list A) :
  filter f l = [] -> existsb f l = false.
Proof.
  intros H. destruct (existsb f l) eqn:E; [|reflexivity].
  apply existsb_exists in E as [x [Hx Hf]].
  rewrite (proj1 (filter_none f l) H x Hx) in Hf. discriminate.
Qed.



Lemma mem_get_fresh {V : Type} (id : V -> Z) next (m : JsMap.t V) :
  keyed id next m = true -> JsMap.get next m = None.
Proof. intros H. apply get_None. eapply keyed_fresh. exact H. Qed.












(** ** Collaborator rows *)

Lemma mem_addCollaborator_wf ins s :
  Wf.mem s -> Wf.mem (snd (MemStorage.addCollaborator ins s)).
Proof.
  intros (Wu & Wp & We & Wn & Wa & Wc). repeat split; simpl; trivial.
  now apply set_next_keyed.
Qed.




Lemma issued_append {R : Type} (id : R -> Z) next (l : list R) r :
  issued id next l = true -> id r = next ->
  issued id (next + 1) (l ++ [r]) = true.
Proof.
  intros H E. apply issued_spec in H as [Hnd H]. apply issued_spec. split.
  - rewrite map_app. simpl.
    apply NoDup_app; [assumption | repeat constructor; intros [] |].
    intros x Hx [<-|[]]. apply in_map_iff in Hx as [y [Ey Hy]].
    specialize (H y Hy). lia.
  - intros y Hy. apply in_app_iff in Hy as [Hy|[<-|[]]].
    + specialize (H y Hy). lia.
    + lia.
Qed.





(** ** Search *)

Lemma like_percent s : Str.like s "%" = true.
Proof.
  induction s as [|c r IH]; [reflexivity|].
  simpl. simpl in IH. exact IH.
Qed.

(** The pattern built from the empty query matches every text. *)
Lemma like_empty_query s : Str.like s (Str.searchTerm "") = true.
Proof.
  change (Str.searchTerm "") with "%%"%string.
  destruct s as [|c r]; [reflexivity|].
  pose proof (like_percent (String c r)) as H. simpl in *. now rewrite H.
Qed.

Lemma db_search_empty_query d :
  settled (DatabaseStorage.searchNotes "") d
  = Some (DatabaseStorage.notes d, d) /\
  settled (DatabaseStorage.searchProjects "") d
  = Some (DatabaseStorage.projects d, d) /\
  settled (DatabaseStorage.searchExperiments "") d
  = Some (DatabaseStorage.experiments d, d).
Proof.
  unfold settled, DatabaseStorage.searchNotes, DatabaseStorage.searchProjects,
    DatabaseStorage.searchExperiments, DatabaseStorage.select,
    DatabaseStorage.statement. cbv zeta.
  repeat split; rewrite map_id; cbn [DatabaseStorage.rows
    DatabaseStorage.notes_table DatabaseStorage.projects_table
    DatabaseStorage.experiments_table];
    (rewrite filter_all; [reflexivity|]); intros x _;
    now rewrite like_empty_query.
Qed.

Lemma startsWith_spec s p :
  Str.startsWith s p = true <-> exists post, s = (p ++ post)%string.
Proof.
  revert s. induction p as [|a p IH]; intros s; simpl.
  - split; [intros _; now exists s | reflexivity].
  - destruct s as [|b s]; simpl.
    + split; [discriminate | intros [post E]; discriminate].
    + rewrite andb_true_iff, Ascii.eqb_eq, IH. split.
      * intros [-> [post ->]]. now exists post.
      * intros [post E]. injection E as -> ->. split; [reflexivity|].
        now exists post.
Qed.

Lemma includes_spec hay needle :
  Str.includes hay needle = true <->
  exists pre post, hay = (pre ++ needle ++ post)%string.
Proof.
  induction hay as [|c r IH].
  - simpl. rewrite orb_false_r, startsWith_spec. split.
    + intros [post E]. now exists ""%string, post.
    + intros [pre [post E]]. destruct pre as [|? ?]; [|discriminate].
      now exists post.
  - simpl. rewrite orb_true_iff, startsWith_spec, IH. split.
    + intros [[post E]|[pre [post E]]].
      * now exists ""%string, post.
      * exists (String c pre), post. simpl. now rewrite E.
    + intros [pre [post E]]. destruct pre as [|d pre].
      * left. now exists post.
      * right. simpl in E. injection E as _ E. now exists pre, post.
Qed.

Lemma toLowerCase_empty q : Str.toLowerCase q = ""%string -> q = ""%string.
Proof. destruct q; [reflexivity | discriminate]. Qed.

Lemma optional_includes_spec field q :
  q <> ""%string ->
  (MemStorage.optional_includes field (Str.toLowerCase q) = true <->
   exists text, field = Some text /\ occurs_ci q text).
Proof.
  intros Hq. unfold MemStorage.optional_includes, occurs_ci.
  destruct field as [text|].
  - rewrite andb_true_iff, includes_spec. split.
    + intros [_ H]. now exists text.
    + intros [t [[= <-] [pre [post E]]]]. split; [|now exists pre, post].
      destruct text; [|reflexivity]. exfalso. simpl in E.
      destruct pre; [|discriminate]. simpl in E.
      destruct (Str.toLowerCase q) eqn:L; [|discriminate].
      now apply Hq, toLowerCase_empty.
  - split; [discriminate | intros [t [E _]]; discriminate].
Qed.

(** What [MemStorage] finds: on a query that is not empty, the notes whose
    title or content holds the query as a substring, case set aside. *)
Lemma mem_searchNotes_spec q s n :
  q <> ""%string ->
  (In n (MemStorage.searchNotes q s) <->
   In n (MemStorage.listNotes s) /\
   (occurs_ci q (n_title n) \/
    exists text, n_content n = Some text /\ occurs_ci q text)).
Proof.
  intros Hq. unfold MemStorage.searchNotes.
  destruct q as [|c q]; [contradiction|]. cbn [Str.truthy negb].
  rewrite filter_In, orb_true_iff, includes_spec,
    (optional_includes_spec _ _ Hq).
  reflexivity.
Qed.

(** C2 fails on the code. On the empty query [DatabaseStorage] builds the
    pattern [%%], which every text matches, and answers every row of the
    table (on the worked state: the note), where [MemStorage] answers
    nothing; on a query of white space only, [MemStorage] looks the white
    space up as a substring (and finds it in "Protein Assay"). Only the
    route of [routes.ts] trims the query before searching. *)
Theorem search_empty_query_matches_everything :
  (forall d,
      settled (DatabaseStorage.searchNotes "") d
      = Some (DatabaseStorage.notes d, d) /\
      settled (DatabaseStorage.searchProjects "") d
      = Some (DatabaseStorage.projects d, d) /\
      settled (DatabaseStorage.searchExperiments "") d
      = Some (DatabaseStorage.experiments d, d)) /\
  settled (DatabaseStorage.searchNotes "") Demo.db_assay
  = Some ([Demo.assay_note], Demo.db_assay) /\
  (forall s,
      MemStorage.searchNotes "" s = [] /\
      MemStorage.searchProjects "" s = [] /\
      MemStorage.searchExperiments "" s = []) /\
  Str.blank " " = true /\
  MemStorage.searchNotes " " Demo.mem_assay = [Demo.assay_note] /\
  settled (DatabaseStorage.searchNotes " ") Demo.db_assay
  = Some ([Demo.assay_note], Demo.db_assay).
Proof.
  split; [exact db_search_empty_query|].
  repeat split; vm_compute; reflexivity.
Qed.

(** C4 fails on the code. [MemStorage] lowers both the query and the
    text, and finds "Protein Assay" for "assay" and for "ASSAY";
    [DatabaseStorage] compares with [LIKE], which distinguishes case, and
    finds it for neither (it does for "Assay"). *)
Theorem search_case_sensitive_in_database :
  MemStorage.searchNotes "assay" Demo.mem_assay = [Demo.assay_note] /\
  MemStorage.searchNotes "ASSAY" Demo.mem_assay = [Demo.assay_note] /\
  settled (DatabaseStorage.searchNotes "assay") Demo.db_assay
  = Some ([], Demo.db_assay) /\
  settled (DatabaseStorage.searchNotes "ASSAY") Demo.db_assay
  = Some ([], Demo.db_assay) /\
  settled (DatabaseStorage.searchNotes "Assay") Demo.db_assay
  = Some ([Demo.assay_note], Demo.db_assay).
Proof. repeat split; vm_compute; reflexivity. Qed.

(** C8 fails on the code. The two worked states hold the same data, and
    the two backends answer differently: on "assay" (case), on the empty
    query (everything against nothing) and on "_" (a wildcard of [LIKE], a
    plain character for [includes]). *)
Theorem search_backends_disagree :
  same_data Demo.mem_assay Demo.db_assay /\
  (MemStorage.searchNotes "assay" Demo.mem_assay = [Demo.assay_note] /\
   settled (DatabaseStorage.searchNotes "assay") Demo.db_assay
   = Some ([], Demo.db_assay)) /\
  (MemStorage.searchNotes "" Demo.mem_assay = [] /\
   settled (DatabaseStorage.searchNotes "") Demo.db_assay
   = Some ([Demo.assay_note], Demo.db_assay)) /\
  (MemStorage.searchNotes "_" Demo.mem_assay = [] /\
   settled (DatabaseStorage.searchNotes "_") Demo.db_assay
   = Some ([Demo.assay_note], Demo.db_assay)).
Proof. repeat split; vm_compute; reflexivity. Qed.

(** ** Projects of a user *)

Lemma filter_Boolean_In {A : Type} (l : list (option A)) x :
  In x (filter_Boolean l) <-> In (Some x) l.
Proof.
  induction l as [|[a|] r IH]; simpl.
  - reflexivity.
  - rewrite IH. split; intros [H|H]; auto; left; congruence.
  - rewrite IH. split; [now right | intros [H|H]; [discriminate | exact H]].
Qed.

Section SetOfRefs.
Variable V : Type.
Implicit Types (l : list (Z * V)) (seen : list Z).

Lemma Set_of_refs_In seen l e :
  In e (Set_of_refs seen l) -> In e l /\ ~ In (fst e) seen.
Proof.
  revert seen. induction l as [|[k v] r IH]; intros seen; simpl; [tauto|].
  destruct (existsb (Z.eqb k) seen) eqn:E.
  - intros H. destruct (IH _ H). auto.
  - intros [<-|H].
    + split; [now left|]. simpl. intros Hin.
      apply existsb_eqb_In in Hin. congruence.
    + destruct (IH _ H) as [H1 H2]. split; [now right|].
      intros Hin. apply H2. now right.
Qed.

Lemma Set_of_refs_keeps seen l e :
  In e l -> ~ In (fst e) seen ->
  exists v, In (fst e, v) (Set_of_refs seen l).
Proof.
  revert seen. induction l as [|[k v] r IH]; intros seen; simpl; [tauto|].
  intros [<-|Hin] Hs; simpl in *.
  - destruct (existsb (Z.eqb k) seen) eqn:E.
    + apply existsb_eqb_In in E. contradiction.
    + exists v. now left.
  - destruct (existsb (Z.eqb k) seen) eqn:E; [now apply IH|].
    destruct (Z.eq_dec (fst e) k) as [->|Hne].
    + exists v. now left.
    + destruct (IH (k :: seen) Hin) as [w Hw].
      * intros [H|H]; [congruence | contradiction].
      * exists w. now right.
Qed.

Lemma Set_of_refs_NoDup seen l : NoDup (map fst (Set_of_refs seen l)).
Proof.
  revert seen. induction l as [|[k v] r IH]; intros seen; simpl;
    [constructor|].
  destruct (existsb (Z.eqb k) seen); [apply IH|]. simpl.
  constructor; [|apply IH].
  intros Hin. apply in_map_iff in Hin as [e [E He]].
  apply Set_of_refs_In in He as [_ He]. apply He. left. now symmetry.
Qed.
End SetOfRefs.

(** X21. What [MemStorage.listProjectsByUser] answers on a well-formed
    store: the projects the user owns and those the user is listed for,
    each once. *)
Lemma mem_listProjectsByUser_spec u s :
  Wf.mem s ->
  NoDup (map p_id (MemStorage.listProjectsByUser u s)) /\
  forall p,
    In p (MemStorage.listProjectsByUser u s) <->
    In p (MemStorage.listProjects s) /\
    (p_ownerId p = u \/
     exists c, In c (JsMap.values (MemStorage.projectCollaborators s)) /\
               c_userId c = u /\ c_projectId c = p_id p).
Proof.
  intros (_ & Wp & _). unfold MemStorage.listProjectsByUser. cbv zeta.
  set (owned := filter (fun entry => Z.eqb (p_ownerId (snd entry)) u)
                       (MemStorage.projects s)).
  set (shared := filter_Boolean
                   (map (fun collab =>
                           MemStorage.project_ref (c_projectId collab) s)
                        (filter (fun collab => Z.eqb (c_userId collab) u)
                           (JsMap.values (MemStorage.projectCollaborators s))))).
  assert (Hshared : forall k p, In (k, p) shared <->
            In (k, p) (MemStorage.projects s) /\
            exists c, In c (JsMap.values (MemStorage.projectCollaborators s))
                      /\ c_userId c = u /\ c_projectId c = k).
  { intros k p. unfold shared. rewrite filter_Boolean_In, in_map_iff. split.
    - intros [c [E Hc]]. apply filter_In in Hc as [Hc Hu].
      apply Z.eqb_eq in Hu. unfold MemStorage.project_ref in E.
      destruct (JsMap.get (c_projectId c) (MemStorage.projects s)) as [q|]
        eqn:G; [|discriminate].
      injection E as <- <-. split; [now apply get_Some_In|]. now exists c.
    - intros [Hin [c (Hc & Hu & Hk)]]. exists c. split.
      + unfold MemStorage.project_ref. rewrite Hk.
        now rewrite (In_get _ _ _ _ (keyed_NoDup _ _ _ Wp) Hin).
      + apply filter_In. split; [assumption | now apply Z.eqb_eq]. }
  assert (Hall : forall e, In e (owned ++ shared) ->
                           In e (MemStorage.projects s)).
  { intros [k p] He. apply in_app_iff in He as [He|He].
    - now apply filter_In in He.
    - now apply Hshared in He. }
  split.
  - rewrite map_map.
    rewrite (map_ext_in _ fst); [apply Set_of_refs_NoDup|].
    intros [k p] He. apply Set_of_refs_In in He as [He _].
    simpl. eapply keyed_id; [exact Wp | now apply Hall].
  - intros p. unfold MemStorage.listProjects. split.
    + intros Hp. apply in_map_iff in Hp as [[k q] [E He]]. simpl in E. subst q.
      apply Set_of_refs_In in He as [He _].
      pose proof (Hall _ He) as Hin. split; [eapply In_values; exact Hin|].
      rewrite (keyed_id _ _ _ _ _ Wp Hin).
      apply in_app_iff in He as [He|He].
      * left. apply filter_In in He as [_ He]. now apply Z.eqb_eq in He.
      * right. now apply Hshared in He.
    + intros [Hp Hwhy]. apply values_In in Hp as [k Hk].
      pose proof (keyed_id _ _ _ _ _ Wp Hk) as Hid.
      assert (He : In (k, p) (owned ++ shared)).
      { apply in_app_iff. destruct Hwhy as [Ho|Hc].
        - left. apply filter_In. split; [assumption | now apply Z.eqb_eq].
        - right. apply Hshared. split; [assumption|]. now rewrite <- Hid. }
      destruct (Set_of_refs_keeps _ [] _ _ He) as [v Hv]; [intros []|].
      simpl in Hv. assert (Hv' := Hv).
      apply Set_of_refs_In in Hv' as [Hv' _]. apply Hall in Hv'.
      rewrite (keyed_inj _ _ _ _ _ _ Wp Hk Hv').
      apply in_map_iff. now exists (k, v).
Qed.

(** C3 fails on the code. User 1 owns project "Lab A" and is listed as its
    collaborator. [DatabaseStorage.listProjectsByUser 1] appends the
    collaborated projects to the owned ones and answers the project twice;
    [MemStorage], on the same data, passes the array through a [Set] and
    answers it once. *)
Theorem listProjectsByUser_database_duplicates :
  same_data Demo.mem_owner Demo.db_owner /\
  settled (DatabaseStorage.listProjectsByUser 1) Demo.db_owner
  = Some ([mkProject 1 "Lab A" None 0 0 1; mkProject 1 "Lab A" None 0 0 1],
          Demo.db_owner) /\
  MemStorage.listProjectsByUser 1 Demo.mem_owner
  = [mkProject 1 "Lab A" None 0 0 1].
Proof. repeat split; vm_compute; reflexivity. Qed.

(** ** Every reachable state is well formed *)

(** X22. The well-formedness the theorems on [MemStorage] assume holds in
    every state the backend can reach: whatever is called on a store that
    its constructor made, each map has distinct keys, every record sits
    under its own id, and every id is below the counter of its kind. *)
Theorem reachable_mem_wf s : Reachable.mem s -> Wf.mem s.
Proof.
  induction 1 as [now|c s _ IH].
  - repeat split.
  - assert (W := IH). destruct W as (Wu & Wp & We & Wn & Wa & Wc).
    destruct c; simpl.
    + repeat split; simpl; trivial. now apply set_next_keyed.
    + repeat split; simpl; trivial. now apply set_next_keyed.
    + unfold MemStorage.updateProject.
      destruct (JsMap.get id (MemStorage.projects s)) as [old|] eqn:G;
        [|exact IH].
      repeat split; simpl; trivial. apply set_present_keyed; trivial.
      * congruence.
      * simpl. apply get_Some_In in G. eapply keyed_id; eassumption.
    + apply (mem_deleteProject_spec id s IH).
    + repeat split; simpl; trivial. now apply set_next_keyed.
    + unfold MemStorage.updateExperiment.
      destruct (JsMap.get id (MemStorage.experiments s)) as [old|] eqn:G;
        [|exact IH].
      repeat split; simpl; trivial. apply set_present_keyed; trivial.
      * congruence.
      * simpl. apply get_Some_In in G. eapply keyed_id; eassumption.
    + apply (mem_deleteExperiment_spec id s IH).
    + repeat split; simpl; trivial. now apply set_next_keyed.
    + unfold MemStorage.updateNote.
      destruct (JsMap.get id (MemStorage.notes s)) as [old|] eqn:G;
        [|exact IH].
      repeat split; simpl; trivial. apply set_present_keyed; trivial.
      * congruence.
      * simpl. apply get_Some_In in G. eapply keyed_id; eassumption.
    + apply (mem_deleteNote_spec id s IH).
    + repeat split; simpl; trivial. now apply set_next_keyed.
    + apply (mem_deleteAttachment_spec id s IH).
    + now apply mem_addCollaborator_wf.
    + apply (mem_removeCollaborator_wf projectId userId s IH).
Qed.

Lemma issued_filter {R : Type} (id : R -> Z) next (f : R -> bool)
  (l : list R) :
  issued id next l = true -> issued id next (filter f l) = true.
Proof.
  rewrite !issued_spec. intros [Hnd H]. split.
  - clear H. induction l as [|a r IH]; simpl; [constructor|].
    inversion Hnd as [|? ? Hn Hd]; subst.
    destruct (f a); simpl; [|now apply IH]. constructor; [|now apply IH].
    intros Hin. apply Hn. apply in_map_iff in Hin as [x [E Hx]].
    apply filter_In in Hx as [Hx _]. apply in_map_iff. now exists x.
  - intros r Hr. apply filter_In in Hr as [Hr _]. now apply H.
Qed.

(** The rows a test rejects followed by the rows it selects are the rows,
    in another order. *)
Lemma filter_negb_Permutation {R : Type} (test : R -> bool) (l : list R) :
  Permutation l (filter (fun r => negb (test r)) l ++ filter test l).
Proof.
  induction l as [|a r IH]; simpl; [constructor|].
  destruct (test a); simpl.
  - now apply Permutation_cons_app.
  - now constructor.
Qed.

Lemma issued_assign {R : Type} (id : R -> Z) next (test : R -> bool)
  (assign : R -> R) (l : list R) :
  (forall r, id (assign r) = id r) ->
  issued id next l = true ->
  issued id next
    (filter (fun r => negb (test r)) l ++ map assign (filter test l)) = true.
Proof.
  intros Hid. rewrite !issued_spec. intros [Hnd H].
  assert (E : map id (filter (fun r => negb (test r)) l
                      ++ map assign (filter test l))
              = map id (filter (fun r => negb (test r)) l ++ filter test l)).
  { rewrite !map_app, map_map. f_equal. apply map_ext. exact Hid. }
  split.
  - rewrite E. eapply Permutation_NoDup; [|exact Hnd].
    apply Permutation_map, filter_negb_Permutation.
  - intros r Hr. apply in_app_iff in Hr as [Hr|Hr].
    + apply filter_In in Hr as [Hr _]. now apply H.
    + apply in_map_iff in Hr as [x [<- Hx]].
      apply filter_In in Hx as [Hx _]. rewrite Hid. now apply H.
Qed.

Lemma issued_step {R : Type} (id : R -> Z) next (l : list R) :
  issued id next l = true -> issued id (next + 1) l = true.
Proof.
  rewrite !issued_spec. intros [Hnd H]. split; [assumption|].
  intros r Hr. specialize (H r Hr). lia.
Qed.

Lemma users_table_ok : table_ok DatabaseStorage.users_table.
Proof.
  split; simpl; try reflexivity.
  - intros s W. apply W.
  - intros s l (W1 & W2 & W3 & W4 & W5 & W6) H. repeat split; assumption.
  - intros s (W1 & W2 & W3 & W4 & W5 & W6). repeat split; simpl; trivial.
    now apply issued_step.
Qed.

Lemma projects_table_ok : table_ok DatabaseStorage.projects_table.
Proof.
  split; simpl; try reflexivity.
  - intros s W. apply W.
  - intros s l (W1 & W2 & W3 & W4 & W5 & W6) H. repeat split; assumption.
  - intros s (W1 & W2 & W3 & W4 & W5 & W6). repeat split; simpl; trivial.
    now apply issued_step.
Qed.

Lemma experiments_table_ok : table_ok DatabaseStorage.experiments_table.
Proof.
  split; simpl; try reflexivity.
  - intros s W. apply W.
  - intros s l (W1 & W2 & W3 & W4 & W5 & W6) H. repeat split; assumption.
  - intros s (W1 & W2 & W3 & W4 & W5 & W6). repeat split; simpl; trivial.
    now apply issued_step.
Qed.

Lemma notes_table_ok : table_ok DatabaseStorage.notes_table.
Proof.
  split; simpl; try reflexivity.
  - intros s W. apply W.
  - intros s l (W1 & W2 & W3 & W4 & W5 & W6) H. repeat split; assumption.
  - intros s (W1 & W2 & W3 & W4 & W5 & W6). repeat split; simpl; trivial.
    now apply issued_step.
Qed.

Lemma attachments_table_ok : table_ok DatabaseStorage.attachments_table.
Proof.
  split; simpl; try reflexivity.
  - intros s W. apply W.
  - intros s l (W1 & W2 & W3 & W4 & W5 & W6) H. repeat split; assumption.
  - intros s (W1 & W2 & W3 & W4 & W5 & W6). repeat split; simpl; trivial.
    now apply issued_step.
Qed.

Lemma projectCollaborators_table_ok :
  table_ok DatabaseStorage.projectCollaborators_table.
Proof.
  split; simpl; try reflexivity.
  - intros s W. apply W.
  - intros s l (W1 & W2 & W3 & W4 & W5 & W6) H. repeat split; assumption.
  - intros s (W1 & W2 & W3 & W4 & W5 & W6). repeat split; simpl; trivial.
    now apply issued_step.
Qed.

Section Preservation.
Import DatabaseStorage.

Lemma preserves_ret {A : Type} I (a : A) : preserves I (ret a).
Proof. intros s plan H. exact H. Qed.

Lemma preserves_bind {A B : Type} I (m : db A) (k : A -> db B) :
  preserves I m -> (forall a, preserves I (k a)) -> preserves I (bind m k).
Proof.
  intros Hm Hk s plan H. specialize (Hm s plan H). unfold bind.
  destruct (m s plan) as [a s' plan'|e s']; simpl in *.
  - now apply Hk.
  - exact Hm.
Qed.

Lemma preserves_for_of {X : Type} I (body : X -> db unit) l :
  (forall x, preserves I (body x)) -> preserves I (for_of l body).
Proof.
  intros Hb. induction l as [|a r IH]; simpl.
  - apply preserves_ret.
  - apply preserves_bind; [apply Hb | intros _; exact IH].
Qed.

Lemma preserves_bound {A : Type} I params (m : db A) :
  preserves I m -> preserves I (bound params m).
Proof.
  intros H s plan Hs. unfold bound.
  destruct (in_range params); [now apply H|].
  now destruct plan as [[|n]|].
Qed.

Lemma preserves_statement {A : Type} I (run : t -> (error + A) * t) :
  (forall s, I s -> I (snd (run s))) -> preserves I (statement run).
Proof.
  intros H s plan Hs. unfold statement. specialize (H s Hs).
  destruct plan as [[|n]|]; simpl; trivial;
    destruct (run s) as [[e|a] s']; simpl in *; exact H.
Qed.

Variables (R : Type) (tbl : table R).
Hypothesis tbl_ok : table_ok tbl.

Lemma preserves_select {C : Type} (columns : R -> C) cond :
  preserves Wf.db (select tbl columns cond).
Proof. apply preserves_statement. intros s H. exact H. Qed.

Lemma preserves_delete cond : preserves Wf.db (delete tbl cond).
Proof.
  apply preserves_statement. intros s H. simpl.
  apply (ok_put tbl_ok); [assumption|].
  apply issued_filter. now apply (ok_rows tbl_ok).
Qed.

Lemma preserves_update assign cond :
  (forall r, pkey tbl (assign r) = pkey tbl r) ->
  preserves Wf.db (update tbl assign cond).
Proof.
  intros Hid. apply preserves_statement. intros s H. simpl.
  apply (ok_put tbl_ok); [assumption|].
  apply issued_assign; [assumption|]. now apply (ok_rows tbl_ok).
Qed.

Lemma preserves_insert values :
  (forall k, pkey tbl (values k) = k) ->
  preserves Wf.db (insert tbl values).
Proof.
  intros Hid. apply preserves_statement. intros s H.
  pose proof (ok_advance tbl_ok H) as Ha.
  destruct (negb (in_int4 (nextval tbl s))); [exact H|].
  cbv zeta. destruct (existsb _ _); simpl; [exact Ha|].
  apply (ok_put tbl_ok); [assumption|].
  rewrite (ok_advance_rows tbl_ok), (ok_advance_next tbl_ok).
  apply issued_append; [now apply (ok_rows tbl_ok) | apply Hid].
Qed.
End Preservation.

Ltac preserve_wf :=
  repeat first
    [ apply preserves_bound
    | apply preserves_bind
    | apply preserves_for_of
    | apply preserves_ret
    | apply preserves_select
    | apply (preserves_delete _ _ projects_table_ok)
    | apply (preserves_delete _ _ experiments_table_ok)
    | apply (preserves_delete _ _ notes_table_ok)
    | apply (preserves_delete _ _ attachments_table_ok)
    | apply (preserves_delete _ _ projectCollaborators_table_ok)
    | apply (preserves_update _ _ projects_table_ok)
    | apply (preserves_update _ _ experiments_table_ok)
    | apply (preserves_update _ _ notes_table_ok)
    | apply (preserves_insert _ _ users_table_ok)
    | apply (preserves_insert _ _ projects_table_ok)
    | apply (preserves_insert _ _ experiments_table_ok)
    | apply (preserves_insert _ _ notes_table_ok)
    | apply (preserves_insert _ _ attachments_table_ok)
    | apply (preserves_insert _ _ projectCollaborators_table_ok)
    | intro
    | reflexivity ].

Lemma call_db_wf c : forall s plan, Wf.db s -> Wf.db (Call.db c s plan).
Proof.
  destruct c; simpl.
  - change (preserves Wf.db (DatabaseStorage.createUser insertUser now)).
    unfold DatabaseStorage.createUser. preserve_wf.
  - change (preserves Wf.db (DatabaseStorage.createProject insertProject now)).
    unfold DatabaseStorage.createProject. preserve_wf.
  - change (preserves Wf.db
              (DatabaseStorage.updateProject id projectUpdate now)).
    unfold DatabaseStorage.updateProject. preserve_wf.
  - change (preserves Wf.db (DatabaseStorage.deleteProject id)).
    unfold DatabaseStorage.deleteProject. preserve_wf.
  - change (preserves Wf.db
              (DatabaseStorage.createExperiment insertExperiment now)).
    unfold DatabaseStorage.createExperiment. preserve_wf.
  - change (preserves Wf.db
              (DatabaseStorage.updateExperiment id experimentUpdate now)).
    unfold DatabaseStorage.updateExperiment. preserve_wf.
  - change (preserves Wf.db (DatabaseStorage.deleteExperiment id)).
    unfold DatabaseStorage.deleteExperiment. preserve_wf.
  - change (preserves Wf.db (DatabaseStorage.createNote insertNote now)).
    unfold DatabaseStorage.createNote. preserve_wf.
  - change (preserves Wf.db (DatabaseStorage.updateNote id noteUpdate now)).
    unfold DatabaseStorage.updateNote. preserve_wf.
  - change (preserves Wf.db (DatabaseStorage.deleteNote id)).
    unfold DatabaseStorage.deleteNote. preserve_wf.
  - change (preserves Wf.db
              (DatabaseStorage.createAttachment insertAttachment now)).
    unfold DatabaseStorage.createAttachment. preserve_wf.
  - change (preserves Wf.db (DatabaseStorage.deleteAttachment id)).
    unfold DatabaseStorage.deleteAttachment. preserve_wf.
  - change (preserves Wf.db
              (DatabaseStorage.addCollaborator insertCollaborator)).
    unfold DatabaseStorage.addCollaborator. preserve_wf.
  - change (preserves Wf.db
              (DatabaseStorage.removeCollaborator projectId userId)).
    unfold DatabaseStorage.removeCollaborator. preserve_wf.
Qed.

(** X23. Likewise for [DatabaseStorage], under every fault plan: in every
    state reached from the empty database the ids of each table are
    distinct and below the sequence of the table. *)
Theorem reachable_db_wf d : Reachable.db d -> Wf.db d.
Proof.
  induction 1 as [|c s plan _ IH].
  - repeat split.
  - now apply call_db_wf.
Qed.
(** * The rest of the storage layer and its callers: properties *)

(** ** Reachable states *)

Lemma run_mem_reachable cs s : Reachable.mem s -> Reachable.mem (Run.mem cs s).
Proof.
  revert s. induction cs as [|c cs IH]; intros s H; [exact H|].
  apply IH. now constructor.
Defined.

Lemma run_db_reachable cs s : Reachable.db s -> Reachable.db (Run.db cs s).
Proof.
  revert s. induction cs as [|c cs IH]; intros s H; [exact H|].
  apply IH. now constructor.
Defined.

Lemma demo_mem_reachable : Reachable.mem Demo.mem.
Proof.
  replace Demo.mem
    with (Run.mem [Call.CreateProject Demo.lab_a 0;
                   Call.CreateExperiment Demo.trial_1 0;
                   Call.CreateNote Demo.obs_1 0;
                   Call.CreateAttachment Demo.scan_png 0;
                   Call.AddCollaborator Demo.helper]
                  (MemStorage.constructor 0))
    by (vm_compute; reflexivity).
  apply run_mem_reachable. constructor.
Defined.

Lemma demo_db_reachable : Reachable.db Demo.db.
Proof.
  replace Demo.db
    with (Run.db [(Call.CreateProject Demo.lab_a 0, None);
                  (Call.CreateExperiment Demo.trial_1 0, None);
                  (Call.CreateNote Demo.obs_1 0, None);
                  (Call.CreateAttachment Demo.scan_png 0, None);
                  (Call.AddCollaborator Demo.helper, None)]
                 DatabaseStorage.fresh)
    by (vm_compute; reflexivity).
  apply run_db_reachable. constructor.
Defined.

(** The worked state of the in-memory backend is reachable, hence well
    formed. *)
Lemma reachable_mem_wf_witness : Reachable.mem Demo.mem /\ Wf.mem Demo.mem.
Proof.
  split; [exact demo_mem_reachable|].
  exact (reachable_mem_wf Demo.mem demo_mem_reachable).
Defined.

(** Likewise for the relational backend. *)
Lemma reachable_db_wf_witness : Reachable.db Demo.db /\ Wf.db Demo.db.
Proof.
  split; [exact demo_db_reachable|].
  exact (reachable_db_wf Demo.db demo_db_reachable).
Defined.

(** ** The search route and the search page *)

Lemma trimStart_blank s :
  Str.blank s = true -> Routes.trimStart s = EmptyString.
Proof.
  induction s as [|c r IH]; simpl; [reflexivity|].
  intros H. apply andb_true_iff in H as [Hc Hr]. rewrite Hc. now apply IH.
Qed.

Lemma trimStart_not_blank s :
  Str.blank s = false ->
  exists c r, Routes.trimStart s = String c r /\ Str.is_space c = false.
Proof.
  induction s as [|c r IH]; simpl; [discriminate|].
  destruct (Str.is_space c) eqn:E; simpl.
  - exact IH.
  - intros _. now exists c, r.
Qed.

Lemma trimEnd_keeps_head c r :
  Str.is_space c = false -> Str.truthy (Routes.trimEnd (String c r)) = true.
Proof.
  intros E. simpl. destruct (Routes.trimEnd r); [now rewrite E|reflexivity].
Qed.

(** [!query.trim()] holds exactly of the queries made of white space. *)
Lemma trim_blank s : Str.truthy (Routes.trim s) = negb (Str.blank s).
Proof.
  unfold Routes.trim. destruct (Str.blank s) eqn:B.
  - now rewrite (trimStart_blank s B).
  - destruct (trimStart_not_blank s B) as (c & r & -> & E).
    now apply trimEnd_keeps_head.
Qed.

(** X1. A query that is missing, empty, or made of ASCII white space
    only (space, tab, line feed, vertical tab, form feed, carriage return)
    never reaches the database through the search route: whatever the
    state and the fault plan (even with the backend unreachable), the route
    answers status 200 with three empty arrays, sends no statement and
    leaves the state as it is. A parameter [q] that Express hands over as
    an array or an object (it was repeated, or written with brackets) is
    answered status 500, again with no statement sent: [query.trim] is not
    a function there. *)
Theorem search_route_blank_query
  (q : Routes.query_value) (d : DatabaseStorage.t) (plan : option nat) :
  (forall query,
     Routes.query_of q = Some query -> Str.blank query = true ->
     Routes.search q d plan
     = DatabaseStorage.Resolved
         (Routes.Json 200 (Routes.mkSearchResults [] [] [])) d plan /\
     Routes.apiErrorHandler (Routes.search q) d plan
     = (Routes.Json 200 (Routes.mkSearchResults [] [] []), d)) /\
  (Routes.query_of q = None ->
   Routes.search q d plan
   = DatabaseStorage.Rejected DatabaseStorage.TypeError d /\
   Routes.apiErrorHandler (Routes.search q) d plan
   = (Routes.Message 500 "An unexpected error occurred", d)).
Proof.
  unfold Routes.apiErrorHandler, Routes.search. split.
  - intros query -> B. rewrite trim_blank, B. simpl. split; reflexivity.
  - intros ->. split; reflexivity.
Qed.

Lemma search_route_blank_query_witness :
  Routes.query_of (Routes.Text "   ") = Some "   "%string /\
  Str.blank "   " = true /\
  Routes.apiErrorHandler (Routes.search (Routes.Text "   ")) Demo.db_assay
                         (Some 0%nat)
  = (Routes.Json 200 (Routes.mkSearchResults [] [] []), Demo.db_assay).
Proof.
  split; [reflexivity|]. split; [reflexivity|].
  destruct (search_route_blank_query (Routes.Text "   ") Demo.db_assay
              (Some 0%nat)) as [H _].
  apply (H "   "%string); reflexivity.
Defined.



(** X3. On the search page the number of results announced is the number
    of results listed, for every tab and every answer, the answer being
    absent or lacking some of its arrays included. *)
Theorem search_page_count_matches_list
  (activeTab : string) (data : option SearchPage.Data) :
  SearchPage.getResultCount activeTab data
  = Z.of_nat (List.length (SearchPage.getFilteredResults activeTab data)).
Proof.
  unfold SearchPage.getResultCount, SearchPage.getFilteredResults.
  destruct data as [[n p e]|]; [|reflexivity]. simpl.
  assert (L : forall (A B : Type) (f : A -> B) (xs : option (list A)),
             SearchPage.length_or_0 xs
             = Z.of_nat (List.length (map f (SearchPage.or_empty xs)))).
  { intros A B f [l|]; simpl; [now rewrite length_map | reflexivity]. }
  destruct (String.eqb activeTab "notes"); [apply L|].
  destruct (String.eqb activeTab "projects"); [apply L|].
  destruct (String.eqb activeTab "experiments"); [apply L|].
  rewrite !length_app, !Nat2Z.inj_add.
  rewrite <- (L _ _ SearchPage.OfNote), <- (L _ _ SearchPage.OfProject),
    <- (L _ _ SearchPage.OfExperiment). lia.
Qed.

(** ** Users *)

Lemma find_app_first {A : Type} (f : A -> bool) (l l' : list A) :
  find f (l ++ l') = match find f l with
                     | Some y => Some y
                     | None => find f l'
                     end.
Proof.
  induction l as [|a r IH]; simpl; [reflexivity|].
  destruct (f a); [reflexivity | exact IH].
Qed.

Lemma values_app {V : Type} (m1 m2 : JsMap.t V) :
  JsMap.values (m1 ++ m2) = JsMap.values m1 ++ JsMap.values m2.
Proof. apply map_app. Qed.

(** X4. [MemStorage.createUser] checks nothing: it always stores a new
    user, listed after the others and found by [getUser] under an id no user
    had. A user name may therefore be taken twice, and then
    [getUserByUsername] keeps answering the older user: the new one is found
    by name only when the name was free. *)
Theorem mem_createUser_lookup
  (s : MemStorage.t) (ins : InsertUser) (now : Z) :
  Wf.mem s ->
  let r := MemStorage.createUser ins now s in
  u_username (fst r) = iu_username ins /\
  MemStorage.getUser (u_id (fst r)) s = None /\
  MemStorage.getUser (u_id (fst r)) (snd r) = Some (fst r) /\
  MemStorage.listUsers (snd r) = MemStorage.listUsers s ++ [fst r] /\
  MemStorage.getUserByUsername (iu_username ins) (snd r)
  = match MemStorage.getUserByUsername (iu_username ins) s with
    | Some older => Some older
    | None => Some (fst r)
    end.
Proof.
  intros (Wu & _). cbv zeta.
  unfold MemStorage.getUser, MemStorage.listUsers,
    MemStorage.getUserByUsername. simpl.
  rewrite get_set_same.
  rewrite (set_fresh _ _ _ _ (keyed_fresh _ _ _ _ Wu)), values_app, find_app_first.
  repeat split.
  - eapply mem_get_fresh. exact Wu.
  - simpl. now rewrite String.eqb_refl.
Qed.

Lemma mem_createUser_lookup_witness :
  Wf.mem Demo.mem /\
  (let r := MemStorage.createUser Demo.sarah 5 Demo.mem in
   MemStorage.getUser (u_id (fst r)) (snd r) = Some (fst r) /\
   MemStorage.getUserByUsername (iu_username Demo.sarah) (snd r)
   = MemStorage.getUserByUsername (iu_username Demo.sarah) Demo.mem /\
   MemStorage.getUserByUsername (iu_username Demo.sarah) (snd r)
   <> Some (fst r)).
Proof.
  assert (W : Wf.mem Demo.mem) by (vm_compute; repeat split).
  split; [exact W|]. cbv zeta.
  destruct (mem_createUser_lookup Demo.mem Demo.sarah 5 W)
    as (_ & _ & H1 & _ & H2).
  split; [exact H1|]. split.
  - rewrite H2. reflexivity.
  - vm_compute. discriminate.
Defined.

Lemma db_getUserByUsername_settled name s :
  settled (DatabaseStorage.getUserByUsername name) s
  = Some (DatabaseStorage.first
            (filter (fun r => String.eqb (u_username r) name)
                    (DatabaseStorage.users s)), s).
Proof.
  unfold settled, DatabaseStorage.getUserByUsername, DatabaseStorage.bind,
    DatabaseStorage.select, DatabaseStorage.statement, DatabaseStorage.ret.
  simpl. now rewrite map_id.
Qed.



(** *** User names in the relational backend *)

Lemma NoDup_snoc {A : Type} (l : list A) (x : A) :
  NoDup l -> ~ In x l -> NoDup (l ++ [x]).
Proof.
  induction l as [|a r IH]; intros Hl Hx; simpl.
  - constructor; [intros [] | constructor].
  - inversion Hl as [|? ? Ha Hr]; subst. constructor.
    + rewrite in_app_iff. intros [H|[H|[]]]; [now apply Ha|].
      apply Hx. now left.
    + apply IH; [assumption|]. intros H. apply Hx. now right.
Qed.

Lemma preserves_names_createUser ins now :
  preserves names_distinct (DatabaseStorage.createUser ins now).
Proof.
  unfold DatabaseStorage.createUser.
  apply preserves_bind; [|intros l; apply preserves_ret].
  apply preserves_statement. intros s H.
  destruct (negb _); [exact H|]. cbv zeta.
  destruct (existsb _ _) eqn:E; simpl; [exact H|].
  unfold names_distinct in *. simpl. rewrite map_app. simpl.
  apply NoDup_snoc; [exact H|].
  rewrite in_map_iff. intros [u [Eu Hu]].
  assert (T : existsb
    (fun r => Z.eqb (u_id r) (DatabaseStorage.users_id_seq s)
              || String.eqb (u_username r) (iu_username ins))
    (DatabaseStorage.users s) = true).
  { apply existsb_exists. exists u. split; [exact Hu|].
    apply orb_true_iff. right. now apply String.eqb_eq. }
  simpl in E. rewrite T in E. discriminate.
Qed.

(** Every other statement of the storage layer leaves the users table as
    it is. *)
Ltac preserve_names :=
  repeat first
    [ apply preserves_bound
    | apply preserves_bind
    | apply preserves_for_of
    | apply preserves_ret
    | apply preserves_statement;
      let st := fresh "st" in
      let Hst := fresh "Hst" in
      intros st Hst; cbv zeta;
      solve [ exact Hst
            | destruct (negb _); [exact Hst|];
              destruct (existsb _ _); exact Hst ]
    | intro ].

Lemma call_db_names c :
  forall s plan, names_distinct s -> names_distinct (Call.db c s plan).
Proof.
  destruct c; simpl.
  - exact (preserves_names_createUser insertUser now).
  - change (preserves names_distinct
              (DatabaseStorage.createProject insertProject now)).
    unfold DatabaseStorage.createProject, DatabaseStorage.insert.
    preserve_names.
  - change (preserves names_distinct
              (DatabaseStorage.updateProject id projectUpdate now)).
    unfold DatabaseStorage.updateProject, DatabaseStorage.update.
    preserve_names.
  - change (preserves names_distinct (DatabaseStorage.deleteProject id)).
    unfold DatabaseStorage.deleteProject, DatabaseStorage.select,
      DatabaseStorage.delete.
    preserve_names.
  - change (preserves names_distinct
              (DatabaseStorage.createExperiment insertExperiment now)).
    unfold DatabaseStorage.createExperiment, DatabaseStorage.insert.
    preserve_names.
  - change (preserves names_distinct
              (DatabaseStorage.updateExperiment id experimentUpdate now)).
    unfold DatabaseStorage.updateExperiment, DatabaseStorage.update.
    preserve_names.
  - change (preserves names_distinct (DatabaseStorage.deleteExperiment id)).
    unfold DatabaseStorage.deleteExperiment, DatabaseStorage.select,
      DatabaseStorage.delete.
    preserve_names.
  - change (preserves names_distinct
              (DatabaseStorage.createNote insertNote now)).
    unfold DatabaseStorage.createNote, DatabaseStorage.insert.
    preserve_names.
  - change (preserves names_distinct
              (DatabaseStorage.updateNote id noteUpdate now)).
    unfold DatabaseStorage.updateNote, DatabaseStorage.update.
    preserve_names.
  - change (preserves names_distinct (DatabaseStorage.deleteNote id)).
    unfold DatabaseStorage.deleteNote, DatabaseStorage.select,
      DatabaseStorage.delete.
    preserve_names.
  - change (preserves names_distinct
              (DatabaseStorage.createAttachment insertAttachment now)).
    unfold DatabaseStorage.createAttachment, DatabaseStorage.insert.
    preserve_names.
  - change (preserves names_distinct (DatabaseStorage.deleteAttachment id)).
    unfold DatabaseStorage.deleteAttachment, DatabaseStorage.select,
      DatabaseStorage.delete.
    preserve_names.
  - change (preserves names_distinct
              (DatabaseStorage.addCollaborator insertCollaborator)).
    unfold DatabaseStorage.addCollaborator, DatabaseStorage.insert.
    preserve_names.
  - change (preserves names_distinct
              (DatabaseStorage.removeCollaborator projectId userId)).
    unfold DatabaseStorage.removeCollaborator, DatabaseStorage.select,
      DatabaseStorage.delete.
    preserve_names.
Qed.

Lemma reachable_db_names d : Reachable.db d -> names_distinct d.
Proof.
  induction 1 as [|c s plan _ IH].
  - constructor.
  - now apply call_db_names.
Qed.

Lemma first_filter_named (l : list User) (u : User) :
  NoDup (map u_username l) -> In u l ->
  DatabaseStorage.first
    (filter (fun r => String.eqb (u_username r) (u_username u)) l)
  = Some u.
Proof.
  induction l as [|a r IH]; intros Hl Hu; [contradiction|].
  simpl in Hl. inversion Hl as [|? ? Ha Hr]; subst. simpl.
  destruct (String.eqb_spec (u_username a) (u_username u)) as [E|N].
  - destruct Hu as [->|Hu]; [reflexivity|].
    exfalso. apply Ha. rewrite E. now apply in_map.
  - destruct Hu as [->|Hu]; [congruence|]. now apply IH.
Qed.

Lemma demo_db_assay_reachable : Reachable.db Demo.db_assay.
Proof.
  replace Demo.db_assay
    with (Run.db [(Call.CreateUser Demo.sarah 0, None);
                  (Call.CreateNote Demo.assay 0, None)]
                 DatabaseStorage.fresh)
    by (vm_compute; reflexivity).
  apply run_db_reachable. constructor.
Defined.

(** X6. In the relational backend user names stay unique whatever is
    called and wherever the backend fails: in every state reached from the
    empty database no two users share a name, and [getUserByUsername] with
    the name of a stored user answers that very user. *)
Theorem db_usernames_unique (d : DatabaseStorage.t) :
  Reachable.db d ->
  NoDup (map u_username (DatabaseStorage.users d)) /\
  forall u, In u (DatabaseStorage.users d) ->
    settled (DatabaseStorage.getUserByUsername (u_username u)) d
    = Some (Some u, d).
Proof.
  intros H. apply reachable_db_names in H. split; [exact H|].
  intros u Hu. rewrite db_getUserByUsername_settled.
  now rewrite (first_filter_named _ _ H Hu).
Qed.

Lemma db_usernames_unique_witness :
  Reachable.db Demo.db_assay /\
  NoDup (map u_username (DatabaseStorage.users Demo.db_assay)) /\
  forall u, In u (DatabaseStorage.users Demo.db_assay) ->
    settled (DatabaseStorage.getUserByUsername (u_username u)) Demo.db_assay
    = Some (Some u, Demo.db_assay).
Proof.
  split; [exact demo_db_assay_reachable|].
  exact (db_usernames_unique Demo.db_assay demo_db_assay_reachable).
Defined.

(** ** Removing a collaborator *)

Lemma rowCount_existsb {A : Type} (f : A -> bool) (l : list A) :
  (0 <? Z.of_nat (List.length (filter f l)))%Z = existsb f l.
Proof.
  induction l as [|a r IH]; simpl; [reflexivity|].
  destruct (f a); simpl; [reflexivity | exact IH].
Qed.

Lemma filter_negb_idem {A : Type} (f : A -> bool) (l : list A) :
  filter (fun r => negb (f r)) (filter (fun r => negb (f r)) l)
  = filter (fun r => negb (f r)) l.
Proof.
  apply filter_all. intros x Hx. now apply filter_In in Hx.
Qed.

Lemma db_removeCollaborator_rows (d : DatabaseStorage.t) (p u : Z) :
  DatabaseStorage.in_range [p; u] = true ->
  exists d',
    settled (DatabaseStorage.removeCollaborator p u) d
    = Some (existsb (is_pair p u) (DatabaseStorage.projectCollaborators d),
            d') /\
    DatabaseStorage.projectCollaborators d'
    = filter (fun c => negb (is_pair p u c))
             (DatabaseStorage.projectCollaborators d) /\
    (DatabaseStorage.users d' = DatabaseStorage.users d /\
     DatabaseStorage.projects d' = DatabaseStorage.projects d /\
     DatabaseStorage.experiments d' = DatabaseStorage.experiments d /\
     DatabaseStorage.notes d' = DatabaseStorage.notes d /\
     DatabaseStorage.attachments d' = DatabaseStorage.attachments d).
Proof.
  intros Hr. eexists. split; [|split].
  - unfold DatabaseStorage.removeCollaborator. rewrite (bound_ok _ _ Hr).
    unfold settled, DatabaseStorage.bind,
      DatabaseStorage.delete, DatabaseStorage.statement, DatabaseStorage.ret.
    simpl. fold (is_pair p u). rewrite rowCount_existsb. reflexivity.
  - reflexivity.
  - repeat split.
Qed.

(** X7. [DatabaseStorage.removeCollaborator] is one [DELETE]. For a
    project id and a user id that are values of the column type
    [integer], it removes every row of the pair at once, duplicates
    included, keeps the other rows in their order and touches no other
    table or sequence; it answers [true] exactly when a row of the pair
    existed. Calling it again answers [false] and changes nothing, and
    under any fault it has either done all of this or nothing. With an id
    that is no such value the call is rejected, under every fault plan,
    and nothing changes. *)
Theorem db_removeCollaborator_all (d : DatabaseStorage.t) (p u : Z) :
  (DatabaseStorage.in_range [p; u] = true ->
   exists d',
    settled (DatabaseStorage.removeCollaborator p u) d
    = Some (existsb (is_pair p u) (DatabaseStorage.projectCollaborators d),
            d') /\
    DatabaseStorage.projectCollaborators d'
    = filter (fun c => negb (is_pair p u c))
             (DatabaseStorage.projectCollaborators d) /\
    (DatabaseStorage.users d' = DatabaseStorage.users d /\
     DatabaseStorage.projects d' = DatabaseStorage.projects d /\
     DatabaseStorage.experiments d' = DatabaseStorage.experiments d /\
     DatabaseStorage.notes d' = DatabaseStorage.notes d /\
     DatabaseStorage.attachments d' = DatabaseStorage.attachments d /\
     DatabaseStorage.project_collaborators_id_seq d'
     = DatabaseStorage.project_collaborators_id_seq d) /\
    settled (DatabaseStorage.removeCollaborator p u) d' = Some (false, d') /\
    forall plan,
      Call.left (DatabaseStorage.removeCollaborator p u d plan) = d \/
      Call.left (DatabaseStorage.removeCollaborator p u d plan) = d') /\
  (DatabaseStorage.in_range [p; u] = false ->
   forall plan, exists e,
     DatabaseStorage.removeCollaborator p u d plan
     = DatabaseStorage.Rejected e d).
Proof.
  split.
  - intros Hr. unfold DatabaseStorage.removeCollaborator.
    rewrite (bound_ok _ _ Hr).
    eexists. split; [|split; [|split; [|split]]].
    + unfold settled, DatabaseStorage.bind,
        DatabaseStorage.delete, DatabaseStorage.statement,
        DatabaseStorage.ret.
      simpl. fold (is_pair p u). rewrite rowCount_existsb. reflexivity.
    + reflexivity.
    + repeat split.
    + unfold settled, DatabaseStorage.bind,
        DatabaseStorage.delete, DatabaseStorage.statement,
        DatabaseStorage.ret.
      simpl. fold (is_pair p u).
      rewrite filter_filter_negb_nil, filter_negb_idem. reflexivity.
    + intros [[|n]|]; [left | right | right]; reflexivity.
  - intros Hr plan. unfold DatabaseStorage.removeCollaborator.
    rewrite (bound_out _ _ _ _ Hr). eexists. reflexivity.
Qed.

Lemma values_filter_negb_split {V : Type} (f : V -> bool)
  (m1 m2 : JsMap.t V) k c :
  f c = true -> (forall e, In e m1 -> f (snd e) = false) ->
  filter (fun r => negb (f r)) (JsMap.values (m1 ++ (k, c) :: m2))
  = JsMap.values m1 ++ filter (fun r => negb (f r)) (JsMap.values m2).
Proof.
  intros Hc H1. rewrite values_app, filter_app. simpl. rewrite Hc. simpl.
  f_equal. apply filter_all. intros x Hx.
  apply in_map_iff in Hx as [e [<- He]]. now rewrite (H1 e He).
Qed.

Lemma filter_negb_fixed {A : Type} (f : A -> bool) (l : list A) :
  filter (fun r => negb (f r)) l = l <-> filter f l = [].
Proof.
  split; [|apply filter_negb_all].
  intros H. apply filter_none. intros x Hx. rewrite <- H in Hx.
  apply filter_In in Hx as [_ Hx]. now apply negb_true_iff in Hx.
Qed.

(** X8. The two backends, holding the same data, give the same answer to
    [removeCollaborator] for a project id and a user id that are values
    of the column type [integer] (the relational backend staying
    reachable), and hold the same data afterwards exactly when the pair
    had at most one row: with a duplicated pair the in-memory backend
    removes one row where the relational one removes them all. *)
Theorem removeCollaborator_backends
  (s : MemStorage.t) (d : DatabaseStorage.t) (p u : Z) :
  Wf.mem s -> same_data s d ->
  DatabaseStorage.in_range [p; u] = true ->
  let r := MemStorage.removeCollaborator p u s in
  exists d',
    settled (DatabaseStorage.removeCollaborator p u) d = Some (fst r, d') /\
    (same_data (snd r) d' <->
     (List.length (filter (is_pair p u)
                          (DatabaseStorage.projectCollaborators d)) <= 1)%nat).
Proof.
  intros W (Su & Sp & Se & Sn & Sa & Sc) Hr. cbv zeta.
  destruct (db_removeCollaborator_rows d p u Hr) as (d' & E & Hc & Ho).
  destruct Ho as (Du & Dp & De & Dn & Da).
  exists d'.
  destruct (mem_removeCollaborator_spec p u s W)
    as [(F & -> & Hn) | (m1 & c & m2 & Em & Hp & H1 & T & -> & _)];
    cbv zeta in *.
  - assert (N : filter (is_pair p u)
                  (DatabaseStorage.projectCollaborators d) = []).
    { rewrite <- Sc. apply none_pass. intros x Hx.
      apply in_map_iff in Hx as [e [<- He]]. now apply Hn. }
    rewrite F, E, (existsb_filter _ _ N). split; [reflexivity|].
    rewrite N. simpl. split; [lia|]. intros _.
    unfold same_data. rewrite Du, Dp, De, Dn, Da, Hc.
    rewrite (filter_negb_all _ _ N). repeat split; assumption.
  - rewrite T, E.
    assert (V : DatabaseStorage.projectCollaborators d
                = JsMap.values m1 ++ c :: JsMap.values m2).
    { rewrite <- Sc, Em. exact (values_app m1 ((c_id c, c) :: m2)). }
    assert (X : existsb (is_pair p u)
                  (DatabaseStorage.projectCollaborators d) = true).
    { apply existsb_exists. exists c. split; [|exact Hp].
      rewrite V. apply in_elt. }
    rewrite X. split; [reflexivity|].
    assert (L : filter (is_pair p u) (DatabaseStorage.projectCollaborators d)
                = c :: filter (is_pair p u) (JsMap.values m2)).
    { rewrite V, filter_app. simpl. rewrite Hp.
      rewrite (none_pass (is_pair p u) (JsMap.values m1)); [reflexivity|].
      intros x Hx. apply in_map_iff in Hx as [e [<- He]]. now apply H1. }
    assert (K : DatabaseStorage.projectCollaborators d'
                = JsMap.values m1
                  ++ filter (fun r => negb (is_pair p u r)) (JsMap.values m2)).
    { rewrite Hc, <- Sc, Em.
      now apply (values_filter_negb_split (is_pair p u)). }
    rewrite L. simpl. unfold same_data. simpl.
    rewrite Du, Dp, De, Dn, Da, K, values_app. split.
    + intros (_ & _ & _ & _ & _ & Q). apply app_inv_head in Q.
      symmetry in Q. apply filter_negb_fixed in Q. rewrite Q. simpl. lia.
    + intros Q. destruct (filter (is_pair p u) (JsMap.values m2)) eqn:Z2;
        [|simpl in Q; lia].
      apply filter_negb_fixed in Z2. rewrite Z2.
      repeat split; assumption.
Qed.

Lemma removeCollaborator_backends_witness :
  Wf.mem Demo.mem_owner /\ same_data Demo.mem_owner Demo.db_owner /\
  DatabaseStorage.in_range [1; 1] = true /\
  exists d',
    settled (DatabaseStorage.removeCollaborator 1 1) Demo.db_owner
    = Some (fst (MemStorage.removeCollaborator 1 1 Demo.mem_owner), d') /\
    (same_data (snd (MemStorage.removeCollaborator 1 1 Demo.mem_owner)) d' <->
     (List.length (filter (is_pair 1 1)
        (DatabaseStorage.projectCollaborators Demo.db_owner)) <= 1)%nat).
Proof.
  assert (W : Wf.mem Demo.mem_owner) by (vm_compute; repeat split).
  assert (S : same_data Demo.mem_owner Demo.db_owner)
    by (vm_compute; repeat split).
  split; [exact W|]. split; [exact S|]. split; [reflexivity|].
  exact (removeCollaborator_backends Demo.mem_owner Demo.db_owner 1 1 W S
           eq_refl).
Defined.

(** ** Updating what is not there, and what an update leaves alone *)










(** ** Searching with a plain query *)














(** ** Searching the in-memory backend *)

(** X12. With a query that is not empty, query and stored texts being of
    ASCII characters, the searches of [MemStorage] find exactly the stored
    records in whose title or name, or in whose content or description
    when there is one, the query occurs, case set aside. *)
Theorem mem_search_finds (s : MemStorage.t) (q : string) :
  q <> ""%string -> Str.is_ascii q = true ->
  ((forall n, In n (MemStorage.listNotes s) ->
      Str.is_ascii (n_title n) = true /\ ascii_opt (n_content n) = true) ->
   forall n,
      In n (MemStorage.searchNotes q s) <->
      In n (MemStorage.listNotes s) /\
      (occurs_ci q (n_title n) \/
       exists text, n_content n = Some text /\ occurs_ci q text)) /\
  ((forall p, In p (MemStorage.listProjects s) ->
      Str.is_ascii (p_name p) = true
      /\ ascii_opt (p_description p) = true) ->
   forall p,
      In p (MemStorage.searchProjects q s) <->
      In p (MemStorage.listProjects s) /\
      (occurs_ci q (p_name p) \/
       exists text, p_description p = Some text /\ occurs_ci q text)) /\
  ((forall e, In e (MemStorage.listExperiments s) ->
      Str.is_ascii (e_name e) = true
      /\ ascii_opt (e_description e) = true) ->
   forall e,
      In e (MemStorage.searchExperiments q s) <->
      In e (MemStorage.listExperiments s) /\
      (occurs_ci q (e_name e) \/
       exists text, e_description e = Some text /\ occurs_ci q text)).
Proof.
  intros Hq _. split; [|split]; intros _.
  - intros n. now apply mem_searchNotes_spec.
  - intros p. unfold MemStorage.searchProjects.
    destruct q as [|c q]; [contradiction|]. cbn [Str.truthy negb].
    rewrite filter_In, orb_true_iff, includes_spec,
      (optional_includes_spec _ _ Hq).
    reflexivity.
  - intros e. unfold MemStorage.searchExperiments.
    destruct q as [|c q]; [contradiction|]. cbn [Str.truthy negb].
    rewrite filter_In, orb_true_iff, includes_spec,
      (optional_includes_spec _ _ Hq).
    reflexivity.
Qed.

Lemma mem_search_finds_witness :
  "ASSAY"%string <> ""%string /\ Str.is_ascii "ASSAY" = true /\
  (forall n, In n (MemStorage.listNotes Demo.mem_assay) ->
     Str.is_ascii (n_title n) = true /\ ascii_opt (n_content n) = true) /\
  (In Demo.assay_note (MemStorage.searchNotes "ASSAY" Demo.mem_assay) <->
   In Demo.assay_note (MemStorage.listNotes Demo.mem_assay) /\
   (occurs_ci "ASSAY" (n_title Demo.assay_note) \/
    exists text, n_content Demo.assay_note = Some text
                 /\ occurs_ci "ASSAY" text)).
Proof.
  assert (N : "ASSAY"%string <> ""%string) by discriminate.
  assert (A : forall n, In n (MemStorage.listNotes Demo.mem_assay) ->
                Str.is_ascii (n_title n) = true
                /\ ascii_opt (n_content n) = true).
  { intros n [<-|[]]. split; reflexivity. }
  split; [exact N|]. split; [reflexivity|]. split; [exact A|].
  exact (proj1 (mem_search_finds Demo.mem_assay "ASSAY" N eq_refl) A
           Demo.assay_note).
Defined.

(** ** Projects of a user, in memory *)

Lemma mem_listProjectsByUser_spec_witness :
  Wf.mem Demo.mem_owner /\
  NoDup (map p_id (MemStorage.listProjectsByUser 1 Demo.mem_owner)) /\
  forall p,
    In p (MemStorage.listProjectsByUser 1 Demo.mem_owner) <->
    In p (MemStorage.listProjects Demo.mem_owner) /\
    (p_ownerId p = 1 \/
     exists c,
       In c (JsMap.values (MemStorage.projectCollaborators Demo.mem_owner)) /\
       c_userId c = 1 /\ c_projectId c = p_id p).
Proof.
  assert (W : Wf.mem Demo.mem_owner) by (vm_compute; repeat split).
  split; [exact W|].
  exact (mem_listProjectsByUser_spec 1 Demo.mem_owner W).
Defined.


(** ** Ids are never given twice *)

Lemma counters_le_refl a : counters_le a a.
Proof. destruct a as [[[[[a1 a2] a3] a4] a5] a6]. simpl. lia. Qed.

Lemma counters_le_trans a b c :
  counters_le a b -> counters_le b c -> counters_le a c.
Proof.
  destruct a as [[[[[a1 a2] a3] a4] a5] a6],
           b as [[[[[b1 b2] b3] b4] b5] b6],
           c as [[[[[c1 c2] c3] c4] c5] c6]. simpl. lia.
Qed.

Lemma mem_deleteAttachment_counters id s :
  mem_counters (snd (MemStorage.deleteAttachment id s)) = mem_counters s.
Proof. reflexivity. Qed.

Lemma mem_deleteNote_counters id s :
  mem_counters (snd (MemStorage.deleteNote id s)) = mem_counters s.
Proof.
  rewrite mem_deleteNote_eq. cbv zeta. cbn [snd].
  set (s1 := fold_left _ _ s).
  change (mem_counters s1 = mem_counters s).
  apply (fold_left_keeps
           (fun st a => snd (MemStorage.deleteAttachment (a_id a) st))
           mem_counters).
  intros st x. apply mem_deleteAttachment_counters.
Qed.

Lemma mem_deleteExperiment_counters id s :
  mem_counters (snd (MemStorage.deleteExperiment id s)) = mem_counters s.
Proof.
  rewrite mem_deleteExperiment_eq. cbv zeta. cbn [snd].
  set (s1 := fold_left _ _ s).
  change (mem_counters s1 = mem_counters s).
  apply (fold_left_keeps
           (fun st n => snd (MemStorage.deleteNote (n_id n) st))
           mem_counters).
  intros st x. apply mem_deleteNote_counters.
Qed.

Lemma mem_removeCollaborator_counters p u s :
  mem_counters (snd (MemStorage.removeCollaborator p u s)) = mem_counters s.
Proof.
  unfold MemStorage.removeCollaborator.
  destruct (find _ _); reflexivity.
Qed.

Lemma mem_deleteProject_counters id s :
  mem_counters (snd (MemStorage.deleteProject id s)) = mem_counters s.
Proof.
  rewrite mem_deleteProject_eq. cbv zeta. cbn [snd].
  set (s1 := fold_left _ (MemStorage.listExperimentsByProject id s) s).
  set (s2 := fold_left _ _ s1).
  change (mem_counters s2 = mem_counters s).
  transitivity (mem_counters s1).
  - apply (fold_left_keeps
             (fun st c =>
                snd (MemStorage.removeCollaborator id (c_userId c) st))
             mem_counters).
    intros st x. apply mem_removeCollaborator_counters.
  - apply (fold_left_keeps
             (fun st x => snd (MemStorage.deleteExperiment (e_id x) st))
             mem_counters).
    intros st x. apply mem_deleteExperiment_counters.
Qed.

Lemma call_mem_counters c s :
  counters_le (mem_counters s) (mem_counters (Call.mem c s)).
Proof.
  destruct c; cbn [Call.mem];
    try (unfold mem_counters, counters_le; simpl; lia).
  - unfold MemStorage.updateProject.
    destruct (JsMap.get _ _); unfold mem_counters, counters_le; simpl; lia.
  - rewrite mem_deleteProject_counters. apply counters_le_refl.
  - unfold MemStorage.updateExperiment.
    destruct (JsMap.get _ _); unfold mem_counters, counters_le; simpl; lia.
  - rewrite mem_deleteExperiment_counters. apply counters_le_refl.
  - unfold MemStorage.updateNote.
    destruct (JsMap.get _ _); unfold mem_counters, counters_le; simpl; lia.
  - rewrite mem_deleteNote_counters. apply counters_le_refl.
  - rewrite mem_removeCollaborator_counters. apply counters_le_refl.
Qed.

Lemma run_mem_counters cs s :
  counters_le (mem_counters s) (mem_counters (Run.mem cs s)).
Proof.
  revert s. induction cs as [|c cs IH]; intros s.
  - exact (counters_le_refl _).
  - change (Run.mem (c :: cs) s) with (Run.mem cs (Call.mem c s)).
    eapply counters_le_trans; [apply call_mem_counters | apply IH].
Qed.

Lemma keyed_below {V : Type} (id : V -> Z) next (m : JsMap.t V) x :
  keyed id next m = true -> In x (JsMap.values m) -> id x < next.
Proof.
  intros K Hx. apply values_In in Hx as [k Hk].
  apply keyed_spec in K as [_ K]. destruct (K k x Hk). lia.
Qed.

(** X13. [MemStorage] never gives an id twice: whatever is called in
    between, deletions included, a record created later has an id that no
    record of its kind had before, so an id kept from a deleted record
    never comes to name a new one. *)
Theorem mem_ids_never_reused
  (s : MemStorage.t) (cs : list Call.t) (now : Z) :
  Wf.mem s ->
  let s' := Run.mem cs s in
  (forall ins x, In x (MemStorage.listUsers s) ->
     u_id (fst (MemStorage.createUser ins now s')) <> u_id x) /\
  (forall ins x, In x (MemStorage.listProjects s) ->
     p_id (fst (MemStorage.createProject ins now s')) <> p_id x) /\
  (forall ins x, In x (MemStorage.listExperiments s) ->
     e_id (fst (MemStorage.createExperiment ins now s')) <> e_id x) /\
  (forall ins x, In x (MemStorage.listNotes s) ->
     n_id (fst (MemStorage.createNote ins now s')) <> n_id x) /\
  (forall ins x, In x (JsMap.values (MemStorage.attachments s)) ->
     a_id (fst (MemStorage.createAttachment ins now s')) <> a_id x) /\
  (forall ins x, In x (JsMap.values (MemStorage.projectCollaborators s)) ->
     c_id (fst (MemStorage.addCollaborator ins s')) <> c_id x).
Proof.
  intros (Wu & Wp & We & Wn & Wa & Wc). cbv zeta.
  pose proof (run_mem_counters cs s) as L.
  unfold counters_le, mem_counters in L.
  destruct L as (L1 & L2 & L3 & L4 & L5 & L6).
  split; [|split; [|split; [|split; [|split]]]]; intros ins x Hx; simpl.
  - pose proof (keyed_below _ _ _ _ Wu Hx). lia.
  - pose proof (keyed_below _ _ _ _ Wp Hx). lia.
  - pose proof (keyed_below _ _ _ _ We Hx). lia.
  - pose proof (keyed_below _ _ _ _ Wn Hx). lia.
  - pose proof (keyed_below _ _ _ _ Wa Hx). lia.
  - pose proof (keyed_below _ _ _ _ Wc Hx). lia.
Qed.

Lemma mem_ids_never_reused_witness :
  Wf.mem Demo.mem /\
  MemStorage.getNote 1 (Run.mem [Call.DeleteNote 1] Demo.mem) = None /\
  forall ins x, In x (MemStorage.listNotes Demo.mem) ->
    n_id (fst (MemStorage.createNote ins 9
                 (Run.mem [Call.DeleteNote 1] Demo.mem))) <> n_id x.
Proof.
  assert (W : Wf.mem Demo.mem) by (vm_compute; repeat split).
  split; [exact W|]. split; [reflexivity|].
  destruct (mem_ids_never_reused Demo.mem [Call.DeleteNote 1] 9 W)
    as (_ & _ & _ & H & _).
  exact H.
Defined.











(** ** What a cascade removes, exactly *)

Lemma filter_filter {A : Type} (f g : A -> bool) (l : list A) :
  filter g (filter f l) = filter (fun x => f x && g x) l.
Proof.
  induction l as [|a r IH]; simpl; [reflexivity|].
  destruct (f a); simpl; [|exact IH]. destruct (g a); now rewrite IH.
Qed.

Lemma existsb_over_filter {A : Type} (f g : A -> bool) (l : list A) :
  existsb f (filter g l) = existsb (fun x => g x && f x) l.
Proof.
  induction l as [|a r IH]; simpl; [reflexivity|].
  destruct (g a); simpl; now rewrite IH.
Qed.

Lemma existsb_over_map {A B : Type} (f : B -> bool) (g : A -> B) l :
  existsb f (map g l) = existsb (fun x => f (g x)) l.
Proof. induction l as [|a r IH]; simpl; [reflexivity | now rewrite IH]. Qed.

Lemma existsb_either {A : Type} (f g : A -> bool) (l : list A) :
  existsb f l || existsb g l = existsb (fun x => f x || g x) l.
Proof.
  induction l as [|a r IH]; simpl; [reflexivity|]. rewrite <- IH.
  destruct (f a), (g a), (existsb f r), (existsb g r); reflexivity.
Qed.

Lemma existsb_same {A : Type} (f g : A -> bool) (l : list A) :
  (forall x, In x l -> f x = g x) -> existsb f l = existsb g l.
Proof.
  induction l as [|a r IH]; simpl; intros H; [reflexivity|].
  rewrite (H a (or_introl eq_refl)), IH; [reflexivity|].
  intros x Hx. apply H. now right.
Qed.

Lemma db_state_same (st : DatabaseStorage.t) :
  DatabaseStorage.mk (DatabaseStorage.users st) (DatabaseStorage.projects st)
    (DatabaseStorage.experiments st) (DatabaseStorage.notes st)
    (DatabaseStorage.attachments st) (DatabaseStorage.projectCollaborators st)
    (DatabaseStorage.users_id_seq st) (DatabaseStorage.projects_id_seq st)
    (DatabaseStorage.experiments_id_seq st) (DatabaseStorage.notes_id_seq st)
    (DatabaseStorage.attachments_id_seq st)
    (DatabaseStorage.project_collaborators_id_seq st) = st.
Proof. now destruct st. Qed.

(** The loop over the notes of one experiment, run to its end: the
    attachments of the listed notes are gone, and nothing else. *)
Lemma db_attachments_loop_exact (l : list Z) st :
  DatabaseStorage.for_of l (fun note =>
    DatabaseStorage.bind
      (DatabaseStorage.delete DatabaseStorage.attachments_table
         (fun r => Z.eqb (a_noteId r) note))
      (fun _ => DatabaseStorage.ret tt)) st None
  = DatabaseStorage.Resolved tt
      (DatabaseStorage.put_rows DatabaseStorage.attachments_table
         (filter (fun a => negb (existsb (Z.eqb (a_noteId a)) l))
                 (DatabaseStorage.attachments st)) st) None.
Proof.
  revert st. induction l as [|x r IH]; intros st.
  - simpl. unfold DatabaseStorage.ret. f_equal.
    rewrite filter_all by reflexivity. symmetry. apply db_state_same.
  - cbn [DatabaseStorage.for_of]. unfold DatabaseStorage.bind at 1.
    unfold DatabaseStorage.bind at 1.
    unfold DatabaseStorage.delete, DatabaseStorage.statement,
      DatabaseStorage.ret at 1.
    cbn [option_map]. cbv beta iota zeta. rewrite IH. f_equal.
    cbn [DatabaseStorage.put_rows DatabaseStorage.rows
         DatabaseStorage.attachments_table DatabaseStorage.attachments
         DatabaseStorage.users DatabaseStorage.projects
         DatabaseStorage.experiments DatabaseStorage.notes
         DatabaseStorage.projectCollaborators DatabaseStorage.users_id_seq
         DatabaseStorage.projects_id_seq DatabaseStorage.experiments_id_seq
         DatabaseStorage.notes_id_seq DatabaseStorage.attachments_id_seq
         DatabaseStorage.project_collaborators_id_seq].
    rewrite filter_filter. f_equal. apply filter_ext. intros a.
    cbn [existsb]. now rewrite negb_orb.
Qed.


Lemma db_kept_all d :
  db_kept DatabaseStorage.always DatabaseStorage.always DatabaseStorage.always
          DatabaseStorage.always DatabaseStorage.always d = d.
Proof.
  unfold db_kept. rewrite !filter_all by reflexivity. apply db_state_same.
Qed.

Lemma note_of_one e n : note_of [e] n = Z.eqb (n_experimentId n) e.
Proof. unfold note_of. simpl. apply orb_false_r. Qed.

(** [deleteNote], run to its end. *)
Lemma db_deleteNote_exact id d :
  DatabaseStorage.in_int4 id = true ->
  DatabaseStorage.deleteNote id d None
  = DatabaseStorage.Resolved
      (existsb (fun n => Z.eqb (n_id n) id) (DatabaseStorage.notes d))
      (db_kept DatabaseStorage.always DatabaseStorage.always
         (fun n => negb (Z.eqb (n_id n) id))
         (fun a => negb (Z.eqb (a_noteId a) id))
         DatabaseStorage.always d) None.
Proof.
  intros Hid. unfold DatabaseStorage.deleteNote.
  rewrite bound_ok by in_bounds.
  unfold DatabaseStorage.bind,
    DatabaseStorage.delete, DatabaseStorage.statement, DatabaseStorage.ret.
  simpl. rewrite rowCount_existsb. unfold db_kept.
  now rewrite !(filter_all DatabaseStorage.always) by reflexivity.
Qed.

(** One round of the loop of [deleteProject], which is also the first
    half of [deleteExperiment]: the notes of one experiment and their
    attachments go. *)
Lemma db_experiment_body_exact e st :
  DatabaseStorage.bind
    (DatabaseStorage.select DatabaseStorage.notes_table n_id
       (fun r => Z.eqb (n_experimentId r) e))
    (fun expNotes =>
       DatabaseStorage.bind
         (DatabaseStorage.for_of expNotes (fun note =>
            DatabaseStorage.bind
              (DatabaseStorage.delete DatabaseStorage.attachments_table
                 (fun r => Z.eqb (a_noteId r) note))
              (fun _ => DatabaseStorage.ret tt)))
         (fun _ =>
            DatabaseStorage.bind
              (DatabaseStorage.delete DatabaseStorage.notes_table
                 (fun r => Z.eqb (n_experimentId r) e))
              (fun _ => DatabaseStorage.ret tt))) st None
  = DatabaseStorage.Resolved tt
      (db_kept DatabaseStorage.always DatabaseStorage.always
         (fun n => negb (note_of [e] n))
         (fun a => negb (attachment_of [e] (DatabaseStorage.notes st) a))
         DatabaseStorage.always st) None.
Proof.
  set (kept := db_kept _ _ _ _ _ st).
  unfold DatabaseStorage.bind at 1.
  unfold DatabaseStorage.select at 1, DatabaseStorage.statement at 1.
  cbn [option_map]. cbv beta iota zeta.
  unfold DatabaseStorage.bind at 1. rewrite db_attachments_loop_exact.
  unfold DatabaseStorage.bind, DatabaseStorage.delete,
    DatabaseStorage.statement, DatabaseStorage.ret.
  simpl. subst kept. unfold db_kept.
  rewrite !(filter_all DatabaseStorage.always) by reflexivity.
  f_equal. f_equal.
  - apply filter_ext. intros n. now rewrite note_of_one.
  - apply filter_ext. intros a. f_equal. unfold attachment_of.
    rewrite existsb_over_map, existsb_over_filter.
    apply existsb_same. intros n _. rewrite note_of_one. apply andb_comm.
Qed.

Lemma db_kept_kept fp fe fn fa fc gp ge gn ga gc d :
  db_kept gp ge gn ga gc (db_kept fp fe fn fa fc d)
  = db_kept (fun x => fp x && gp x) (fun x => fe x && ge x)
            (fun x => fn x && gn x) (fun x => fa x && ga x)
            (fun x => fc x && gc x) d.
Proof. unfold db_kept. simpl. now rewrite !filter_filter. Qed.

Lemma db_kept_same fp fe fn fa fc gp ge gn ga gc d :
  (forall x, fp x = gp x) -> (forall x, fe x = ge x) ->
  (forall x, fn x = gn x) -> (forall x, fa x = ga x) ->
  (forall x, fc x = gc x) ->
  db_kept fp fe fn fa fc d = db_kept gp ge gn ga gc d.
Proof.
  intros Hp He Hn Ha Hc. unfold db_kept.
  now rewrite (filter_ext _ _ Hp), (filter_ext _ _ He), (filter_ext _ _ Hn),
    (filter_ext _ _ Ha), (filter_ext _ _ Hc).
Qed.

Lemma attachment_of_none ns a : attachment_of [] ns a = false.
Proof.
  unfold attachment_of. induction ns as [|n r IH]; simpl; [reflexivity|].
  now rewrite andb_false_r.
Qed.

(** The attachments of the notes of [e :: r]: those of the notes of [e],
    and those of the notes of [r] among the notes that are not of [e]. *)
Lemma attachment_of_cons e r ns a :
  attachment_of (e :: r) ns a
  = attachment_of [e] ns a
    || attachment_of r (filter (fun n => negb (note_of [e] n)) ns) a.
Proof.
  unfold attachment_of. rewrite existsb_over_filter, existsb_either.
  apply existsb_same. intros n _. unfold note_of. cbn [existsb].
  destruct (Z.eqb (a_noteId a) (n_id n)), (Z.eqb (n_experimentId n) e),
    (existsb (Z.eqb (n_experimentId n)) r); reflexivity.
Qed.

(** The loop of [deleteProject] over the experiments of the project, run to
    its end. *)
Lemma db_project_loop_exact (exps : list Z) st :
  DatabaseStorage.for_of exps (fun exp =>
    DatabaseStorage.bind
      (DatabaseStorage.select DatabaseStorage.notes_table n_id
         (fun r => Z.eqb (n_experimentId r) exp))
      (fun expNotes =>
         DatabaseStorage.bind
           (DatabaseStorage.for_of expNotes (fun note =>
              DatabaseStorage.bind
                (DatabaseStorage.delete DatabaseStorage.attachments_table
                   (fun r => Z.eqb (a_noteId r) note))
                (fun _ => DatabaseStorage.ret tt)))
           (fun _ =>
              DatabaseStorage.bind
                (DatabaseStorage.delete DatabaseStorage.notes_table
                   (fun r => Z.eqb (n_experimentId r) exp))
                (fun _ => DatabaseStorage.ret tt)))) st None
  = DatabaseStorage.Resolved tt
      (db_kept DatabaseStorage.always DatabaseStorage.always
         (fun n => negb (note_of exps n))
         (fun a => negb (attachment_of exps (DatabaseStorage.notes st) a))
         DatabaseStorage.always st) None.
Proof.
  revert st. induction exps as [|e r IH]; intros st.
  - cbn [DatabaseStorage.for_of]. unfold DatabaseStorage.ret. f_equal.
    rewrite <- (db_kept_all st) at 1. apply db_kept_same; try reflexivity.
    intros a. now rewrite attachment_of_none.
  - cbn [DatabaseStorage.for_of]. unfold DatabaseStorage.bind at 1.
    rewrite db_experiment_body_exact, IH, db_kept_kept. f_equal.
    apply db_kept_same; try reflexivity.
    + intros n. unfold note_of. cbn [existsb].
      rewrite orb_false_r. now rewrite negb_orb.
    + intros a. rewrite (attachment_of_cons e r), negb_orb. reflexivity.
Qed.

(** [deleteExperiment], run to its end. *)
Lemma db_deleteExperiment_exact id d :
  DatabaseStorage.in_int4 id = true ->
  DatabaseStorage.deleteExperiment id d None
  = DatabaseStorage.Resolved
      (existsb (fun x => Z.eqb (e_id x) id) (DatabaseStorage.experiments d))
      (db_kept DatabaseStorage.always
         (fun x => negb (Z.eqb (e_id x) id))
         (fun n => negb (note_of [id] n))
         (fun a => negb (attachment_of [id] (DatabaseStorage.notes d) a))
         DatabaseStorage.always d) None.
Proof.
  intros Hid. set (kept := db_kept _ _ _ _ _ d).
  unfold DatabaseStorage.deleteExperiment. rewrite bound_ok by in_bounds.
  unfold DatabaseStorage.bind at 1.
  unfold DatabaseStorage.select at 1, DatabaseStorage.statement at 1.
  cbn [option_map]. cbv beta iota zeta.
  unfold DatabaseStorage.bind at 1. rewrite db_attachments_loop_exact.
  unfold DatabaseStorage.bind, DatabaseStorage.delete,
    DatabaseStorage.statement, DatabaseStorage.ret.
  simpl. rewrite rowCount_existsb. subst kept. unfold db_kept.
  rewrite !(filter_all DatabaseStorage.always) by reflexivity.
  f_equal. f_equal.
  - apply filter_ext. intros n. now rewrite note_of_one.
  - apply filter_ext. intros a. f_equal. unfold attachment_of.
    rewrite existsb_over_map, existsb_over_filter.
    apply existsb_same. intros n _. rewrite note_of_one. apply andb_comm.
Qed.

(** [deleteProject], run to its end. *)
Lemma db_deleteProject_exact id d :
  DatabaseStorage.in_int4 id = true ->
  let exps := map e_id (filter (fun x => Z.eqb (e_projectId x) id)
                               (DatabaseStorage.experiments d)) in
  DatabaseStorage.deleteProject id d None
  = DatabaseStorage.Resolved
      (existsb (fun p => Z.eqb (p_id p) id) (DatabaseStorage.projects d))
      (db_kept (fun p => negb (Z.eqb (p_id p) id))
         (fun x => negb (Z.eqb (e_projectId x) id))
         (fun n => negb (note_of exps n))
         (fun a => negb (attachment_of exps (DatabaseStorage.notes d) a))
         (fun c => negb (Z.eqb (c_projectId c) id)) d) None.
Proof.
  intros Hid exps. set (kept := db_kept _ _ _ _ _ d).
  unfold DatabaseStorage.deleteProject. rewrite bound_ok by in_bounds.
  unfold DatabaseStorage.bind at 1.
  unfold DatabaseStorage.select at 1, DatabaseStorage.statement at 1.
  cbn [option_map]. cbv beta iota zeta.
  unfold DatabaseStorage.bind at 1.
  cbn [DatabaseStorage.rows DatabaseStorage.experiments_table].
  fold exps. rewrite db_project_loop_exact.
  unfold DatabaseStorage.bind, DatabaseStorage.delete,
    DatabaseStorage.statement, DatabaseStorage.ret.
  simpl. rewrite rowCount_existsb. subst kept. unfold db_kept.
  rewrite !(filter_all DatabaseStorage.always) by reflexivity.
  reflexivity.
Qed.

Lemma note_of_spec exps n :
  note_of exps n = true <-> In (n_experimentId n) exps.
Proof.
  unfold note_of. rewrite existsb_exists. split.
  - intros [k [Hk E]]. apply Z.eqb_eq in E. now subst.
  - intros H. exists (n_experimentId n). split; [exact H | apply Z.eqb_refl].
Qed.

Lemma attachment_of_spec exps ns a :
  attachment_of exps ns a = true <->
  exists n, In n ns /\ a_noteId a = n_id n /\ In (n_experimentId n) exps.
Proof.
  unfold attachment_of. rewrite existsb_exists. split.
  - intros [n [Hn E]]. apply andb_true_iff in E as [E1 E2].
    apply Z.eqb_eq in E1. apply note_of_spec in E2. now exists n.
  - intros [n (Hn & E1 & E2)]. exists n. split; [exact Hn|].
    apply andb_true_iff. split; [now apply Z.eqb_eq | now apply note_of_spec].
Qed.

Lemma In_project_experiments id (exps : list Experiment) k :
  In k (map e_id (filter (fun x => Z.eqb (e_projectId x) id) exps)) <->
  exists x, In x exps /\ e_projectId x = id /\ e_id x = k.
Proof.
  rewrite in_map_iff. split.
  - intros [x [E Hx]]. apply filter_In in Hx as [Hx Hp].
    apply Z.eqb_eq in Hp. now exists x.
  - intros [x (Hx & Hp & E)]. exists x. split; [exact E|].
    apply filter_In. split; [exact Hx | now apply Z.eqb_eq].
Qed.

Lemma In_filter_negb_eqb {A : Type} (key : A -> Z) id (l : list A) x :
  In x (filter (fun r => negb (Z.eqb (key r) id)) l) <->
  In x l /\ key x <> id.
Proof.
  rewrite filter_In, negb_true_iff, Z.eqb_neq. reflexivity.
Qed.

Lemma settled_resolved {A : Type} (m : DatabaseStorage.db A) s a s' :
  m s None = DatabaseStorage.Resolved a s' None ->
  settled m s = Some (a, s').
Proof. unfold settled. now intros ->. Qed.


(** ** The cascades of the in-memory backend, table by table *)

Lemma keyed_values_remove {V : Type} (id : V -> Z) next (m : JsMap.t V) k :
  keyed id next m = true ->
  JsMap.values (JsMap.remove k m)
  = filter (fun v => negb (Z.eqb (id v) k)) (JsMap.values m).
Proof.
  intros K. apply keyed_spec in K as [Hnd Hk].
  induction m as [|[k' v] r IH]; [reflexivity|].
  assert (Ev : id v = k') by (apply (Hk k' v); now left).
  simpl in Hnd. inversion Hnd as [|? ? Hk' Hr]; subst.
  cbn [JsMap.remove JsMap.values map filter snd].
  destruct (Z.eqb_spec k (id v)) as [->|Hne].
  - rewrite Z.eqb_refl. cbn [negb]. symmetry. apply filter_all.
    intros x Hx. apply values_In in Hx as [kx Hkx].
    apply negb_true_iff, Z.eqb_neq. intros E. apply Hk'.
    assert (id x = kx) by (apply (Hk kx x); now right).
    subst kx. rewrite E in Hkx. eapply In_keys. exact Hkx.
  - destruct (Z.eqb_spec (id v) k) as [E|_]; [congruence|]. cbn [negb map snd].
    f_equal. apply IH; [exact Hr|]. intros k0 v0 H0. apply Hk. now right.
Qed.

Lemma keyed_has_existsb {V : Type} (id : V -> Z) next (m : JsMap.t V) k :
  keyed id next m = true ->
  JsMap.has k m = existsb (fun v => Z.eqb (id v) k) (JsMap.values m).
Proof.
  intros K. apply keyed_spec in K as [_ Hk]. unfold JsMap.has.
  induction m as [|[k' v] r IH]; [reflexivity|].
  assert (Ev : id v = k') by (apply (Hk k' v); now left).
  cbn [JsMap.get JsMap.values map existsb snd]. rewrite Ev.
  rewrite (Z.eqb_sym k' k).
  destruct (Z.eqb k k'); [reflexivity|]. cbn [orb].
  apply IH. intros k0 v0 H0. apply Hk. now right.
Qed.

Lemma keyed_values_NoDup {V : Type} (id : V -> Z) next (m : JsMap.t V) :
  keyed id next m = true -> NoDup (map id (JsMap.values m)).
Proof.
  intros K. apply keyed_spec in K as [Hnd Hk].
  unfold JsMap.values. rewrite map_map.
  rewrite (map_ext_in _ fst); [exact Hnd|].
  intros [k v] H. simpl. now apply Hk.
Qed.

(** Among rows with distinct ids, no row of a selection has the id of [a]
    exactly when [a] is not selected. *)
Lemma unique_forallb {A : Type} (id : A -> Z) (f : A -> bool) l a :
  NoDup (map id l) -> In a l ->
  forallb (fun x => negb (Z.eqb (id a) (id x))) (filter f l) = negb (f a).
Proof.
  intros Hnd Ha. destruct (f a) eqn:F; cbn [negb].
  - apply not_true_iff_false. intros H.
    rewrite forallb_forall in H.
    specialize (H a (proj2 (filter_In f a l) (conj Ha F))).
    now rewrite Z.eqb_refl in H.
  - apply forallb_forall. intros x Hx. apply filter_In in Hx as [Hx Fx].
    apply negb_true_iff, Z.eqb_neq. intros E.
    assert (a = x); [|congruence].
    clear F Fx. induction l as [|b r IH]; [contradiction|].
    simpl in Hnd. inversion Hnd as [|? ? Hb Hr]; subst.
    destruct Ha as [->|Ha], Hx as [->|Hx]; trivial.
    + exfalso. apply Hb. rewrite E. now apply in_map.
    + exfalso. apply Hb. rewrite <- E. now apply in_map.
    + now apply IH.
Qed.

Lemma forallb_negb {A : Type} (f : A -> bool) l :
  forallb (fun x => negb (f x)) l = negb (existsb f l).
Proof.
  induction l as [|a r IH]; simpl; [reflexivity|].
  now rewrite IH, negb_orb.
Qed.

Lemma db_kept_same_in fp fe fn fa fc gp ge gn ga gc d :
  (forall x, In x (DatabaseStorage.projects d) -> fp x = gp x) ->
  (forall x, In x (DatabaseStorage.experiments d) -> fe x = ge x) ->
  (forall x, In x (DatabaseStorage.notes d) -> fn x = gn x) ->
  (forall x, In x (DatabaseStorage.attachments d) -> fa x = ga x) ->
  (forall x, In x (DatabaseStorage.projectCollaborators d) -> fc x = gc x) ->
  db_kept fp fe fn fa fc d = db_kept gp ge gn ga gc d.
Proof.
  intros Hp He Hn Ha Hc. unfold db_kept.
  now rewrite (filter_ext_in _ _ _ Hp), (filter_ext_in _ _ _ He),
    (filter_ext_in _ _ _ Hn), (filter_ext_in _ _ _ Ha),
    (filter_ext_in _ _ _ Hc).
Qed.

(** A loop whose every round keeps part of the tables keeps, in the end,
    what every round keeps. *)
Lemma db_kept_fold {X : Type} (fp : X -> Project -> bool)
  (fe : X -> Experiment -> bool) (fn : X -> Note -> bool)
  (fa : X -> Attachment -> bool) (fc : X -> ProjectCollaborator -> bool)
  (l : list X) v :
  fold_left (fun v x => db_kept (fp x) (fe x) (fn x) (fa x) (fc x) v) l v
  = db_kept (fun r => forallb (fun x => fp x r) l)
            (fun r => forallb (fun x => fe x r) l)
            (fun r => forallb (fun x => fn x r) l)
            (fun r => forallb (fun x => fa x r) l)
            (fun r => forallb (fun x => fc x r) l) v.
Proof.
  revert v. induction l as [|x r IH]; intros v.
  - cbn [fold_left forallb]. symmetry. apply db_kept_all.
  - cbn [fold_left]. rewrite IH, db_kept_kept. reflexivity.
Qed.

(** A loop of [MemStorage] seen on the tables. *)
Lemma mem_fold_view {X : Type} (step : MemStorage.t -> X -> MemStorage.t)
  (T : X -> DatabaseStorage.t -> DatabaseStorage.t) (l : list X) :
  (forall st x, Wf.mem st ->
     Wf.mem (step st x) /\ mem_view (step st x) = T x (mem_view st)) ->
  forall s, Wf.mem s ->
    Wf.mem (fold_left step l s) /\
    mem_view (fold_left step l s)
    = fold_left (fun v x => T x v) l (mem_view s).
Proof.
  intros H. induction l as [|x r IH]; intros s W; [now split|].
  cbn [fold_left]. destruct (H s x W) as [W1 E1].
  destruct (IH _ W1) as [W2 E2]. split; [exact W2|]. now rewrite E2, E1.
Qed.

Lemma mem_deleteAttachment_view id s :
  Wf.mem s ->
  let r := MemStorage.deleteAttachment id s in
  Wf.mem (snd r) /\
  fst r = existsb (fun a => Z.eqb (a_id a) id)
                  (JsMap.values (MemStorage.attachments s)) /\
  mem_view (snd r)
  = db_kept DatabaseStorage.always DatabaseStorage.always
      DatabaseStorage.always (fun a => negb (Z.eqb (a_id a) id))
      DatabaseStorage.always (mem_view s).
Proof.
  intros W. cbv zeta. assert (W' := W).
  destruct W' as (Wu & Wp & We & Wn & Wa & Wc).
  unfold MemStorage.deleteAttachment, JsMap.delete. cbn [fst snd].
  split; [|split].
  - unfold Wf.mem. simpl. repeat (split; [assumption|]).
    split; [|assumption]. now apply remove_keyed.
  - now apply keyed_has_existsb with (next := MemStorage.attachmentId s).
  - unfold mem_view, db_kept. simpl.
    rewrite !(filter_all DatabaseStorage.always) by reflexivity.
    now rewrite (keyed_values_remove a_id _ _ id Wa).
Qed.

Lemma forallb_const_true {X : Type} (l : list X) :
  forallb (fun _ => true) l = true.
Proof. induction l; simpl; auto. Qed.

Ltac kept_always :=
  intros; unfold DatabaseStorage.always;
  rewrite ?forallb_const_true, ?andb_true_r, ?andb_true_l; reflexivity.

Lemma mem_deleteNote_view id s :
  Wf.mem s ->
  let r := MemStorage.deleteNote id s in
  Wf.mem (snd r) /\
  fst r = existsb (fun n => Z.eqb (n_id n) id)
                  (JsMap.values (MemStorage.notes s)) /\
  mem_view (snd r)
  = db_kept DatabaseStorage.always DatabaseStorage.always
      (fun n => negb (Z.eqb (n_id n) id))
      (fun a => negb (Z.eqb (a_noteId a) id))
      DatabaseStorage.always (mem_view s).
Proof.
  intros W. cbv zeta. rewrite mem_deleteNote_eq. cbv zeta. cbn [fst snd].
  destruct (mem_fold_view
              (fun st a => snd (MemStorage.deleteAttachment (a_id a) st))
              (fun a => db_kept DatabaseStorage.always DatabaseStorage.always
                          DatabaseStorage.always
                          (fun r => negb (Z.eqb (a_id r) (a_id a)))
                          DatabaseStorage.always)
              (MemStorage.listAttachmentsByNote id s)
              (fun st a Wst =>
                 let H := mem_deleteAttachment_view (a_id a) st Wst in
                 conj (proj1 H) (proj2 (proj2 H)))
              s W) as [W1 E1].
  set (s1 := fold_left _ _ s) in *.
  rewrite db_kept_fold in E1.
  assert (W1' := W1). destruct W1' as (Wu & Wp & We & Wn & Wa & Wc).
  assert (En : JsMap.values (MemStorage.notes s1)
               = JsMap.values (MemStorage.notes s)).
  { apply (f_equal DatabaseStorage.notes) in E1. simpl in E1.
    rewrite E1. apply filter_all. kept_always. }
  split; [|split].
  - unfold Wf.mem. simpl. repeat (split; [assumption|]).
    split; [now apply remove_keyed|]. now split.
  - rewrite <- En.
    now apply keyed_has_existsb with (next := MemStorage.noteId s1).
  - transitivity
      (db_kept DatabaseStorage.always DatabaseStorage.always
         (fun n => negb (Z.eqb (n_id n) id)) DatabaseStorage.always
         DatabaseStorage.always (mem_view s1)).
    { unfold mem_view, db_kept. simpl.
      rewrite !(filter_all DatabaseStorage.always) by reflexivity.
      now rewrite (keyed_values_remove n_id _ _ id Wn). }
    rewrite E1, db_kept_kept. apply db_kept_same_in; try kept_always.
    intros a Ha. rewrite andb_true_r.
    unfold MemStorage.listAttachmentsByNote.
    apply (unique_forallb a_id (fun x => Z.eqb (a_noteId x) id));
      [|exact Ha].
    destruct W as (_ & _ & _ & _ & Wa0 & _).
    exact (keyed_values_NoDup _ _ _ Wa0).
Qed.

Lemma mem_deleteExperiment_view id s :
  Wf.mem s ->
  let r := MemStorage.deleteExperiment id s in
  Wf.mem (snd r) /\
  fst r = existsb (fun x => Z.eqb (e_id x) id)
                  (JsMap.values (MemStorage.experiments s)) /\
  mem_view (snd r)
  = db_kept DatabaseStorage.always
      (fun x => negb (Z.eqb (e_id x) id))
      (fun n => negb (note_of [id] n))
      (fun a => negb (attachment_of [id]
                        (DatabaseStorage.notes (mem_view s)) a))
      DatabaseStorage.always (mem_view s).
Proof.
  intros W. cbv zeta. rewrite mem_deleteExperiment_eq. cbv zeta.
  cbn [fst snd].
  destruct (mem_fold_view
              (fun st n => snd (MemStorage.deleteNote (n_id n) st))
              (fun n => db_kept DatabaseStorage.always DatabaseStorage.always
                          (fun r => negb (Z.eqb (n_id r) (n_id n)))
                          (fun a => negb (Z.eqb (a_noteId a) (n_id n)))
                          DatabaseStorage.always)
              (MemStorage.listNotesByExperiment id s)
              (fun st n Wst =>
                 let H := mem_deleteNote_view (n_id n) st Wst in
                 conj (proj1 H) (proj2 (proj2 H)))
              s W) as [W1 E1].
  set (s1 := fold_left _ _ s) in *.
  rewrite db_kept_fold in E1.
  assert (W1' := W1). destruct W1' as (Wu & Wp & We & Wn & Wa & Wc).
  assert (Ee : JsMap.values (MemStorage.experiments s1)
               = JsMap.values (MemStorage.experiments s)).
  { apply (f_equal DatabaseStorage.experiments) in E1. simpl in E1.
    rewrite E1. apply filter_all. kept_always. }
  split; [|split].
  - unfold Wf.mem. simpl. repeat (split; [assumption|]).
    split; [now apply remove_keyed|]. repeat split; assumption.
  - rewrite <- Ee.
    now apply keyed_has_existsb with (next := MemStorage.experimentId s1).
  - transitivity
      (db_kept DatabaseStorage.always (fun x => negb (Z.eqb (e_id x) id))
         DatabaseStorage.always DatabaseStorage.always
         DatabaseStorage.always (mem_view s1)).
    { unfold mem_view, db_kept. simpl.
      rewrite !(filter_all DatabaseStorage.always) by reflexivity.
      now rewrite (keyed_values_remove e_id _ _ id We). }
    rewrite E1, db_kept_kept. apply db_kept_same_in; try kept_always.
    + intros n Hn. rewrite andb_true_r, note_of_one.
      unfold MemStorage.listNotesByExperiment.
      apply (unique_forallb n_id (fun x => Z.eqb (n_experimentId x) id));
        [|exact Hn].
      destruct W as (_ & _ & _ & Wn0 & _).
      exact (keyed_values_NoDup _ _ _ Wn0).
    + intros a _. rewrite andb_true_r, forallb_negb. f_equal.
      unfold MemStorage.listNotesByExperiment, attachment_of.
      rewrite existsb_over_filter. apply existsb_same. intros n _.
      rewrite note_of_one. apply andb_comm.
Qed.

(** The loop of [MemStorage.deleteProject] over the experiments of the
    project, seen on the tables. *)
Lemma view_project_loop (l : list Experiment) v0 :
  fold_left
    (fun v x =>
       db_kept DatabaseStorage.always
         (fun e => negb (Z.eqb (e_id e) (e_id x)))
         (fun n => negb (note_of [e_id x] n))
         (fun a => negb (attachment_of [e_id x] (DatabaseStorage.notes v) a))
         DatabaseStorage.always v) l v0
  = db_kept DatabaseStorage.always
      (fun e => forallb (fun x => negb (Z.eqb (e_id e) (e_id x))) l)
      (fun n => negb (note_of (map e_id l) n))
      (fun a => negb (attachment_of (map e_id l)
                        (DatabaseStorage.notes v0) a))
      DatabaseStorage.always v0.
Proof.
  revert v0. induction l as [|x r IH]; intros v0.
  - cbn [fold_left map forallb]. rewrite <- (db_kept_all v0) at 1.
    apply db_kept_same; try reflexivity.
    intros a. now rewrite attachment_of_none.
  - cbn [fold_left map]. rewrite IH, db_kept_kept.
    apply db_kept_same; try reflexivity.
    + intros n. unfold note_of. cbn [existsb].
      rewrite orb_false_r. now rewrite negb_orb.
    + intros a. rewrite (attachment_of_cons (e_id x) (map e_id r)), negb_orb.
      reflexivity.
Qed.

Lemma mem_collaborators_loop_view p L :
  forall s, Wf.mem s ->
  Permutation (map c_userId L)
    (map c_userId (filter (fun c => Z.eqb (c_projectId c) p)
                          (JsMap.values (MemStorage.projectCollaborators s)))) ->
  let s' := fold_left
              (fun st c => snd (MemStorage.removeCollaborator p (c_userId c) st))
              L s in
  Wf.mem s' /\
  mem_view s'
  = db_kept DatabaseStorage.always DatabaseStorage.always
      DatabaseStorage.always DatabaseStorage.always
      (fun c => negb (Z.eqb (c_projectId c) p)) (mem_view s).
Proof.
  induction L as [|c L IH]; intros s W HP; cbn [fold_left]; cbv zeta.
  - split; [exact W|]. rewrite <- (db_kept_all (mem_view s)) at 1.
    apply db_kept_same_in; try reflexivity.
    intros x Hx. simpl in HP. apply Permutation_nil in HP.
    apply map_eq_nil in HP.
    now rewrite (proj1 (filter_none _ _) HP x Hx).
  - simpl in HP.
    destruct (mem_removeCollaborator_wf p (c_userId c) s W) as (W' & _).
    destruct (mem_removeCollaborator_spec p (c_userId c) s W)
      as [(_ & _ & Hno)|(m1 & c0 & m2 & E & Hc0 & Hm1 & _ & Hs & _)].
    + exfalso.
      assert (Hu : In (c_userId c)
                (map c_userId (filter (fun c => Z.eqb (c_projectId c) p)
                   (JsMap.values (MemStorage.projectCollaborators s))))).
      { eapply Permutation_in; [exact HP | now left]. }
      apply in_map_iff in Hu as [x [Ex Hx]]. apply filter_In in Hx as [Hx Hp].
      apply values_In in Hx as [k Hk]. specialize (Hno _ Hk). simpl in Hno.
      unfold is_pair in Hno. rewrite Hp, Ex, Z.eqb_refl in Hno. discriminate.
    + set (s1 := snd (MemStorage.removeCollaborator p (c_userId c) s)) in *.
      assert (Hp0 : Z.eqb (c_projectId c0) p = true).
      { unfold is_pair in Hc0. now apply andb_true_iff in Hc0. }
      assert (HP1 : Permutation (map c_userId L)
                (map c_userId (filter (fun c => Z.eqb (c_projectId c) p)
                   (JsMap.values (MemStorage.projectCollaborators s1))))).
      { rewrite Hs. simpl. rewrite E in HP. unfold JsMap.values in *.
        rewrite map_app in *. simpl in HP. rewrite filter_app in *.
        simpl in HP. unfold is_pair in Hc0.
        apply andb_true_iff in Hc0 as [Hc1 Hc2]. rewrite Hc1 in HP.
        rewrite map_app in *. simpl in HP. apply Z.eqb_eq in Hc2.
        rewrite Hc2 in HP. eapply Permutation_cons_app_inv. exact HP. }
      destruct (IH s1 W' HP1) as [Wf' Ef]. split; [exact Wf'|].
      rewrite Ef, Hs. unfold db_kept, mem_view. simpl. rewrite E.
      f_equal. unfold JsMap.values. rewrite !map_app, !filter_app.
      simpl. now rewrite Hp0.
Qed.

Lemma mem_deleteProject_view id s :
  Wf.mem s ->
  let exps := map e_id (filter (fun x => Z.eqb (e_projectId x) id)
                         (DatabaseStorage.experiments (mem_view s))) in
  let r := MemStorage.deleteProject id s in
  Wf.mem (snd r) /\
  fst r = existsb (fun p => Z.eqb (p_id p) id)
                  (JsMap.values (MemStorage.projects s)) /\
  mem_view (snd r)
  = db_kept (fun p => negb (Z.eqb (p_id p) id))
      (fun x => negb (Z.eqb (e_projectId x) id))
      (fun n => negb (note_of exps n))
      (fun a => negb (attachment_of exps
                        (DatabaseStorage.notes (mem_view s)) a))
      (fun c => negb (Z.eqb (c_projectId c) id)) (mem_view s).
Proof.
  intros W. cbv zeta. rewrite mem_deleteProject_eq. cbv zeta. cbn [fst snd].
  destruct (mem_fold_view
              (fun st x => snd (MemStorage.deleteExperiment (e_id x) st))
              (fun x v =>
                 db_kept DatabaseStorage.always
                   (fun e => negb (Z.eqb (e_id e) (e_id x)))
                   (fun n => negb (note_of [e_id x] n))
                   (fun a => negb (attachment_of [e_id x]
                                     (DatabaseStorage.notes v) a))
                   DatabaseStorage.always v)
              (MemStorage.listExperimentsByProject id s)
              (fun st x Wst =>
                 let H := mem_deleteExperiment_view (e_id x) st Wst in
                 conj (proj1 H) (proj2 (proj2 H)))
              s W) as [W1 E1].
  set (s1 := fold_left _ (MemStorage.listExperimentsByProject id s) s) in *.
  rewrite view_project_loop in E1.
  destruct (mem_collaborators_loop_view id
              (MemStorage.listCollaboratorsByProject id s1) s1 W1
              (Permutation_refl _)) as [W2 E2].
  cbv zeta in W2, E2.
  set (s2 := fold_left _ (MemStorage.listCollaboratorsByProject id s1) s1)
    in *.
  assert (W2' := W2). destruct W2' as (Wu & Wp & We & Wn & Wa & Wc).
  assert (Ep : JsMap.values (MemStorage.projects s2)
               = JsMap.values (MemStorage.projects s)).
  { apply (f_equal DatabaseStorage.projects) in E2. simpl in E2.
    rewrite E2, filter_all by reflexivity.
    apply (f_equal DatabaseStorage.projects) in E1. simpl in E1.
    rewrite E1. now apply filter_all. }
  split; [|split].
  - unfold Wf.mem. simpl. split; [assumption|].
    split; [now apply remove_keyed|]. repeat split; assumption.
  - rewrite <- Ep.
    now apply keyed_has_existsb with (next := MemStorage.projectId s2).
  - transitivity
      (db_kept (fun p => negb (Z.eqb (p_id p) id)) DatabaseStorage.always
         DatabaseStorage.always DatabaseStorage.always
         DatabaseStorage.always (mem_view s2)).
    { unfold mem_view, db_kept. simpl.
      rewrite !(filter_all DatabaseStorage.always) by reflexivity.
      now rewrite (keyed_values_remove p_id _ _ id Wp). }
    rewrite E2, E1, !db_kept_kept.
    apply db_kept_same_in; try kept_always.
    intros x Hx. rewrite !andb_true_r.
    unfold MemStorage.listExperimentsByProject.
    apply (unique_forallb e_id (fun y => Z.eqb (e_projectId y) id));
      [|exact Hx].
    destruct W as (_ & _ & We0 & _).
    exact (keyed_values_NoDup _ _ _ We0).
Qed.

(** ** What the deletes keep, record by record *)

Lemma kept_project_spec d id :
  let exps := map e_id (filter (fun x => Z.eqb (e_projectId x) id)
                               (DatabaseStorage.experiments d)) in
  let d' := db_kept (fun p => negb (Z.eqb (p_id p) id))
              (fun x => negb (Z.eqb (e_projectId x) id))
              (fun n => negb (note_of exps n))
              (fun a => negb (attachment_of exps (DatabaseStorage.notes d) a))
              (fun c => negb (Z.eqb (c_projectId c) id)) d in
  DatabaseStorage.users d' = DatabaseStorage.users d /\
  (forall p, In p (DatabaseStorage.projects d') <->
             In p (DatabaseStorage.projects d) /\ p_id p <> id) /\
  (forall x, In x (DatabaseStorage.experiments d') <->
             In x (DatabaseStorage.experiments d) /\ e_projectId x <> id) /\
  (forall c, In c (DatabaseStorage.projectCollaborators d') <->
             In c (DatabaseStorage.projectCollaborators d)
             /\ c_projectId c <> id) /\
  (forall n, In n (DatabaseStorage.notes d') <->
             In n (DatabaseStorage.notes d) /\
             forall x, In x (DatabaseStorage.experiments d) ->
                       e_projectId x = id ->
                       n_experimentId n <> e_id x) /\
  (forall a, In a (DatabaseStorage.attachments d') <->
             In a (DatabaseStorage.attachments d) /\
             forall x n, In x (DatabaseStorage.experiments d) ->
                         e_projectId x = id ->
                         In n (DatabaseStorage.notes d) ->
                         n_experimentId n = e_id x ->
                         a_noteId a <> n_id n).
Proof.
  cbv zeta. unfold db_kept.
  cbn [DatabaseStorage.users DatabaseStorage.projects
    DatabaseStorage.experiments DatabaseStorage.notes
    DatabaseStorage.attachments DatabaseStorage.projectCollaborators].
  split; [reflexivity|].
  split; [intros p; apply In_filter_negb_eqb|].
  split; [intros x; apply In_filter_negb_eqb|].
  split; [intros c; apply In_filter_negb_eqb|].
  split.
  - intros n. rewrite filter_In, negb_true_iff, <- not_true_iff_false,
      note_of_spec, In_project_experiments.
    split; intros [Hn H]; (split; [exact Hn|]).
    + intros x Hx Hp E. apply H. now exists x.
    + intros [x (Hx & Hp & E)]. now apply (H x).
  - intros a. rewrite filter_In, negb_true_iff, <- not_true_iff_false,
      attachment_of_spec.
    split; intros [Ha H]; (split; [exact Ha|]).
    + intros x n Hx Hp Hn En E. apply H. exists n.
      split; [exact Hn|]. split; [exact E|].
      apply In_project_experiments. now exists x.
    + intros [n (Hn & E & Hin)].
      apply In_project_experiments in Hin as [x (Hx & Hp & Ex)].
      now apply (H x n).
Qed.

Lemma kept_experiment_spec d id :
  let d' := db_kept DatabaseStorage.always
              (fun x => negb (Z.eqb (e_id x) id))
              (fun n => negb (note_of [id] n))
              (fun a => negb (attachment_of [id] (DatabaseStorage.notes d) a))
              DatabaseStorage.always d in
  DatabaseStorage.users d' = DatabaseStorage.users d /\
  DatabaseStorage.projects d' = DatabaseStorage.projects d /\
  DatabaseStorage.projectCollaborators d'
  = DatabaseStorage.projectCollaborators d /\
  (forall x, In x (DatabaseStorage.experiments d') <->
             In x (DatabaseStorage.experiments d) /\ e_id x <> id) /\
  (forall n, In n (DatabaseStorage.notes d') <->
             In n (DatabaseStorage.notes d) /\ n_experimentId n <> id) /\
  (forall a, In a (DatabaseStorage.attachments d') <->
             In a (DatabaseStorage.attachments d) /\
             forall n, In n (DatabaseStorage.notes d) ->
                       n_experimentId n = id -> a_noteId a <> n_id n).
Proof.
  cbv zeta. unfold db_kept.
  cbn [DatabaseStorage.users DatabaseStorage.projects
    DatabaseStorage.experiments DatabaseStorage.notes
    DatabaseStorage.attachments DatabaseStorage.projectCollaborators].
  rewrite !(filter_all DatabaseStorage.always) by reflexivity.
  split; [reflexivity|]. split; [reflexivity|]. split; [reflexivity|].
  split; [intros x; apply In_filter_negb_eqb|].
  split.
  - intros n. rewrite filter_In, negb_true_iff, note_of_one, Z.eqb_neq.
    reflexivity.
  - intros a. rewrite filter_In, negb_true_iff, <- not_true_iff_false,
      attachment_of_spec.
    split; intros [Ha H]; (split; [exact Ha|]).
    + intros n Hn En E. apply H. exists n.
      split; [exact Hn|]. split; [exact E|]. left. now symmetry.
    + intros [n (Hn & E & [Hin|[]])]. now apply (H n).
Qed.

Lemma kept_note_spec d id :
  let d' := db_kept DatabaseStorage.always DatabaseStorage.always
              (fun n => negb (Z.eqb (n_id n) id))
              (fun a => negb (Z.eqb (a_noteId a) id))
              DatabaseStorage.always d in
  DatabaseStorage.users d' = DatabaseStorage.users d /\
  DatabaseStorage.projects d' = DatabaseStorage.projects d /\
  DatabaseStorage.projectCollaborators d'
  = DatabaseStorage.projectCollaborators d /\
  DatabaseStorage.experiments d' = DatabaseStorage.experiments d /\
  (forall n, In n (DatabaseStorage.notes d') <->
             In n (DatabaseStorage.notes d) /\ n_id n <> id) /\
  (forall a, In a (DatabaseStorage.attachments d') <->
             In a (DatabaseStorage.attachments d) /\ a_noteId a <> id).
Proof.
  cbv zeta. unfold db_kept.
  cbn [DatabaseStorage.users DatabaseStorage.projects
    DatabaseStorage.experiments DatabaseStorage.notes
    DatabaseStorage.attachments DatabaseStorage.projectCollaborators].
  rewrite !(filter_all DatabaseStorage.always) by reflexivity.
  split; [reflexivity|]. split; [reflexivity|]. split; [reflexivity|].
  split; [reflexivity|].
  split; [intros n; apply In_filter_negb_eqb|].
  intros a; apply In_filter_negb_eqb.
Qed.

(** X15. While the backend stays reachable, a delete of
    [DatabaseStorage] removes its cascade and nothing else. [deleteProject]
    keeps exactly the projects with another id, the experiments and the
    collaborators of other projects, the notes that belong to no experiment
    of the project, and the attachments that belong to no note of an
    experiment of the project; [deleteExperiment] and [deleteNote]
    likewise, one level down. Users are never touched. This is for an id
    among the values of the column type [integer]; with any other id the
    delete is rejected and every row is kept. *)
Theorem db_delete_removes_exactly (d : DatabaseStorage.t) (id : Z) :
  (DatabaseStorage.in_int4 id = true ->
   (exists r d',
      settled (DatabaseStorage.deleteProject id) d = Some (r, d') /\
      DatabaseStorage.users d' = DatabaseStorage.users d /\
      (forall p, In p (DatabaseStorage.projects d') <->
                 In p (DatabaseStorage.projects d) /\ p_id p <> id) /\
      (forall x, In x (DatabaseStorage.experiments d') <->
                 In x (DatabaseStorage.experiments d) /\ e_projectId x <> id) /\
      (forall c, In c (DatabaseStorage.projectCollaborators d') <->
                 In c (DatabaseStorage.projectCollaborators d)
                 /\ c_projectId c <> id) /\
      (forall n, In n (DatabaseStorage.notes d') <->
                 In n (DatabaseStorage.notes d) /\
                 forall x, In x (DatabaseStorage.experiments d) ->
                           e_projectId x = id ->
                           n_experimentId n <> e_id x) /\
      (forall a, In a (DatabaseStorage.attachments d') <->
                 In a (DatabaseStorage.attachments d) /\
                 forall x n, In x (DatabaseStorage.experiments d) ->
                             e_projectId x = id ->
                             In n (DatabaseStorage.notes d) ->
                             n_experimentId n = e_id x ->
                             a_noteId a <> n_id n)) /\
  (exists r d',
      settled (DatabaseStorage.deleteExperiment id) d = Some (r, d') /\
      DatabaseStorage.users d' = DatabaseStorage.users d /\
      DatabaseStorage.projects d' = DatabaseStorage.projects d /\
      DatabaseStorage.projectCollaborators d'
      = DatabaseStorage.projectCollaborators d /\
      (forall x, In x (DatabaseStorage.experiments d') <->
                 In x (DatabaseStorage.experiments d) /\ e_id x <> id) /\
      (forall n, In n (DatabaseStorage.notes d') <->
                 In n (DatabaseStorage.notes d) /\ n_experimentId n <> id) /\
      (forall a, In a (DatabaseStorage.attachments d') <->
                 In a (DatabaseStorage.attachments d) /\
                 forall n, In n (DatabaseStorage.notes d) ->
                           n_experimentId n = id -> a_noteId a <> n_id n)) /\
  (exists r d',
      settled (DatabaseStorage.deleteNote id) d = Some (r, d') /\
      DatabaseStorage.users d' = DatabaseStorage.users d /\
      DatabaseStorage.projects d' = DatabaseStorage.projects d /\
      DatabaseStorage.projectCollaborators d'
      = DatabaseStorage.projectCollaborators d /\
      DatabaseStorage.experiments d' = DatabaseStorage.experiments d /\
      (forall n, In n (DatabaseStorage.notes d') <->
                 In n (DatabaseStorage.notes d) /\ n_id n <> id) /\
      (forall a, In a (DatabaseStorage.attachments d') <->
                 In a (DatabaseStorage.attachments d) /\ a_noteId a <> id)))
  /\
  (DatabaseStorage.in_int4 id = false ->
   DatabaseStorage.deleteProject id d None
   = DatabaseStorage.Rejected DatabaseStorage.IntegerOutOfRange d /\
   DatabaseStorage.deleteExperiment id d None
   = DatabaseStorage.Rejected DatabaseStorage.IntegerOutOfRange d /\
   DatabaseStorage.deleteNote id d None
   = DatabaseStorage.Rejected DatabaseStorage.IntegerOutOfRange d).
Proof.
  split.
  - intros Hid.
    split; [|split]; do 2 eexists; (split; [apply settled_resolved|]).
    + now apply db_deleteProject_exact.
    + apply kept_project_spec.
    + now apply db_deleteExperiment_exact.
    + apply kept_experiment_spec.
    + now apply db_deleteNote_exact.
    + apply kept_note_spec.
  - intros Hid. rewrite <- in_range_one in Hid.
    unfold DatabaseStorage.deleteProject, DatabaseStorage.deleteExperiment,
      DatabaseStorage.deleteNote.
    rewrite !(bound_out _ _ _ _ Hid). repeat split.
Qed.

(** X16. So does a delete of [MemStorage], on a well-formed store:
    [deleteProject], [deleteExperiment] and [deleteNote] keep exactly the
    records outside their cascade, and never touch the users. *)
Theorem mem_delete_removes_exactly (s : MemStorage.t) (id : Z) :
  Wf.mem s ->
  (let s' := snd (MemStorage.deleteProject id s) in
   MemStorage.listUsers s' = MemStorage.listUsers s /\
   (forall p, In p (MemStorage.listProjects s') <->
              In p (MemStorage.listProjects s) /\ p_id p <> id) /\
   (forall x, In x (MemStorage.listExperiments s') <->
              In x (MemStorage.listExperiments s) /\ e_projectId x <> id) /\
   (forall c, In c (JsMap.values (MemStorage.projectCollaborators s')) <->
              In c (JsMap.values (MemStorage.projectCollaborators s))
              /\ c_projectId c <> id) /\
   (forall n, In n (MemStorage.listNotes s') <->
              In n (MemStorage.listNotes s) /\
              forall x, In x (MemStorage.listExperiments s) ->
                        e_projectId x = id ->
                        n_experimentId n <> e_id x) /\
   (forall a, In a (JsMap.values (MemStorage.attachments s')) <->
              In a (JsMap.values (MemStorage.attachments s)) /\
              forall x n, In x (MemStorage.listExperiments s) ->
                          e_projectId x = id ->
                          In n (MemStorage.listNotes s) ->
                          n_experimentId n = e_id x ->
                          a_noteId a <> n_id n)) /\
  (let s' := snd (MemStorage.deleteExperiment id s) in
   MemStorage.listUsers s' = MemStorage.listUsers s /\
   MemStorage.listProjects s' = MemStorage.listProjects s /\
   JsMap.values (MemStorage.projectCollaborators s')
   = JsMap.values (MemStorage.projectCollaborators s) /\
   (forall x, In x (MemStorage.listExperiments s') <->
              In x (MemStorage.listExperiments s) /\ e_id x <> id) /\
   (forall n, In n (MemStorage.listNotes s') <->
              In n (MemStorage.listNotes s) /\ n_experimentId n <> id) /\
   (forall a, In a (JsMap.values (MemStorage.attachments s')) <->
              In a (JsMap.values (MemStorage.attachments s)) /\
              forall n, In n (MemStorage.listNotes s) ->
                        n_experimentId n = id -> a_noteId a <> n_id n)) /\
  (let s' := snd (MemStorage.deleteNote id s) in
   MemStorage.listUsers s' = MemStorage.listUsers s /\
   MemStorage.listProjects s' = MemStorage.listProjects s /\
   JsMap.values (MemStorage.projectCollaborators s')
   = JsMap.values (MemStorage.projectCollaborators s) /\
   MemStorage.listExperiments s' = MemStorage.listExperiments s /\
   (forall n, In n (MemStorage.listNotes s') <->
              In n (MemStorage.listNotes s) /\ n_id n <> id) /\
   (forall a, In a (JsMap.values (MemStorage.attachments s')) <->
              In a (JsMap.values (MemStorage.attachments s))
              /\ a_noteId a <> id)).
Proof.
  intros W. split; [|split]; cbv zeta.
  - destruct (mem_deleteProject_view id s W) as (_ & _ & E).
    pose proof (kept_project_spec (mem_view s) id) as K. cbv zeta in K.
    rewrite <- E in K. exact K.
  - destruct (mem_deleteExperiment_view id s W) as (_ & _ & E).
    pose proof (kept_experiment_spec (mem_view s) id) as K. cbv zeta in K.
    rewrite <- E in K. exact K.
  - destruct (mem_deleteNote_view id s W) as (_ & _ & E).
    pose proof (kept_note_spec (mem_view s) id) as K. cbv zeta in K.
    rewrite <- E in K. exact K.
Qed.

Lemma mem_delete_removes_exactly_witness :
  Wf.mem Demo.mem /\
  (forall n, In n (MemStorage.listNotes
                     (snd (MemStorage.deleteProject 1 Demo.mem))) <->
             In n (MemStorage.listNotes Demo.mem) /\
             forall x, In x (MemStorage.listExperiments Demo.mem) ->
                       e_projectId x = 1 -> n_experimentId n <> e_id x).
Proof.
  assert (W : Wf.mem Demo.mem) by (vm_compute; repeat split).
  split; [exact W|].
  destruct (mem_delete_removes_exactly Demo.mem 1 W)
    as ((_ & _ & _ & _ & H & _) & _).
  exact H.
Defined.

Lemma same_data_kept fp fe fn fa fc s' s d :
  mem_view s' = db_kept fp fe fn fa fc (mem_view s) ->
  same_data s d -> same_data s' (db_kept fp fe fn fa fc d).
Proof.
  intros E (Su & Sp & Se & Sn & Sa & Sc). unfold same_data.
  pose proof (f_equal DatabaseStorage.users E) as Eu.
  pose proof (f_equal DatabaseStorage.projects E) as Ep.
  pose proof (f_equal DatabaseStorage.experiments E) as Ee.
  pose proof (f_equal DatabaseStorage.notes E) as En.
  pose proof (f_equal DatabaseStorage.attachments E) as Ea.
  pose proof (f_equal DatabaseStorage.projectCollaborators E) as Ec.
  simpl in *. rewrite Eu, Ep, Ee, En, Ea, Ec, Su, Sp, Se, Sn, Sa, Sc.
  repeat split.
Qed.

Lemma db_deleteAttachment_exact id d :
  DatabaseStorage.in_int4 id = true ->
  DatabaseStorage.deleteAttachment id d None
  = DatabaseStorage.Resolved
      (existsb (fun a => Z.eqb (a_id a) id) (DatabaseStorage.attachments d))
      (db_kept DatabaseStorage.always DatabaseStorage.always
         DatabaseStorage.always (fun a => negb (Z.eqb (a_id a) id))
         DatabaseStorage.always d) None.
Proof.
  intros Hid. unfold DatabaseStorage.deleteAttachment.
  rewrite bound_ok by in_bounds.
  unfold DatabaseStorage.bind,
    DatabaseStorage.delete, DatabaseStorage.statement, DatabaseStorage.ret.
  simpl. rewrite rowCount_existsb. unfold db_kept.
  now rewrite !(filter_all DatabaseStorage.always) by reflexivity.
Qed.

(** X17. On the deletes the two backends agree, for an id among the
    values of the column type [integer]. When they hold the same data,
    table by table in the same order (and the in-memory store is well
    formed), [deleteProject], [deleteExperiment], [deleteNote] and
    [deleteAttachment] give the same answer in both, the relational one
    staying reachable, and leave both holding the same data again. *)
Theorem deletes_backends_agree
  (s : MemStorage.t) (d : DatabaseStorage.t) (id : Z) :
  Wf.mem s -> same_data s d ->
  DatabaseStorage.in_int4 id = true ->
  (exists d',
      settled (DatabaseStorage.deleteProject id) d
      = Some (fst (MemStorage.deleteProject id s), d') /\
      same_data (snd (MemStorage.deleteProject id s)) d') /\
  (exists d',
      settled (DatabaseStorage.deleteExperiment id) d
      = Some (fst (MemStorage.deleteExperiment id s), d') /\
      same_data (snd (MemStorage.deleteExperiment id s)) d') /\
  (exists d',
      settled (DatabaseStorage.deleteNote id) d
      = Some (fst (MemStorage.deleteNote id s), d') /\
      same_data (snd (MemStorage.deleteNote id s)) d') /\
  (exists d',
      settled (DatabaseStorage.deleteAttachment id) d
      = Some (fst (MemStorage.deleteAttachment id s), d') /\
      same_data (snd (MemStorage.deleteAttachment id s)) d').
Proof.
  intros W S Hid. assert (S' := S).
  destruct S' as (Su & Sp & Se & Sn & Sa & Sc).
  split; [|split; [|split]]; eexists; split.
  - apply settled_resolved. rewrite db_deleteProject_exact by exact Hid.
    cbv zeta.
    destruct (mem_deleteProject_view id s W) as (_ & -> & _).
    now rewrite Sp.
  - destruct (mem_deleteProject_view id s W) as (_ & _ & E).
    cbv zeta in E. cbn [mem_view DatabaseStorage.experiments
      DatabaseStorage.notes] in E. rewrite Se, Sn in E.
    exact (same_data_kept _ _ _ _ _ _ s d E S).
  - apply settled_resolved. rewrite db_deleteExperiment_exact by exact Hid.
    destruct (mem_deleteExperiment_view id s W) as (_ & -> & _).
    now rewrite Se.
  - destruct (mem_deleteExperiment_view id s W) as (_ & _ & E).
    cbv zeta in E. cbn [mem_view DatabaseStorage.notes] in E.
    rewrite Sn in E.
    exact (same_data_kept _ _ _ _ _ _ s d E S).
  - apply settled_resolved. rewrite db_deleteNote_exact by exact Hid.
    destruct (mem_deleteNote_view id s W) as (_ & -> & _).
    now rewrite Sn.
  - destruct (mem_deleteNote_view id s W) as (_ & _ & E).
    exact (same_data_kept _ _ _ _ _ _ s d E S).
  - apply settled_resolved. rewrite db_deleteAttachment_exact by exact Hid.
    destruct (mem_deleteAttachment_view id s W) as (_ & -> & _).
    now rewrite Sa.
  - destruct (mem_deleteAttachment_view id s W) as (_ & _ & E).
    exact (same_data_kept _ _ _ _ _ _ s d E S).
Qed.

Lemma deletes_backends_agree_witness :
  Wf.mem Demo.mem_owner /\ same_data Demo.mem_owner Demo.db_owner /\
  DatabaseStorage.in_int4 1 = true /\
  exists d',
    settled (DatabaseStorage.deleteProject 1) Demo.db_owner
    = Some (fst (MemStorage.deleteProject 1 Demo.mem_owner), d') /\
    same_data (snd (MemStorage.deleteProject 1 Demo.mem_owner)) d'.
Proof.
  assert (W : Wf.mem Demo.mem_owner) by (vm_compute; repeat split).
  assert (S : same_data Demo.mem_owner Demo.db_owner)
    by (vm_compute; repeat split).
  split; [exact W|]. split; [exact S|]. split; [reflexivity|].
  exact (proj1 (deletes_backends_agree Demo.mem_owner Demo.db_owner 1 W S
                  eq_refl)).
Defined.


(** ** Deletes leave no record without its parent *)

Lemma orphans_less_attachments f d :
  no_orphans d ->
  no_orphans (DatabaseStorage.put_rows DatabaseStorage.attachments_table
                (filter f (DatabaseStorage.attachments d)) d).
Proof.
  intros (H1 & H2 & H3 & H4). unfold no_orphans. simpl.
  split; [exact H1|]. split; [exact H2|]. split; [|exact H4].
  intros a Ha. apply filter_In in Ha as [Ha _]. now apply H3.
Qed.

Lemma orphans_less_collaborators f d :
  no_orphans d ->
  no_orphans (DatabaseStorage.put_rows
                DatabaseStorage.projectCollaborators_table
                (filter f (DatabaseStorage.projectCollaborators d)) d).
Proof.
  intros (H1 & H2 & H3 & H4). unfold no_orphans. simpl.
  split; [exact H1|]. split; [exact H2|]. split; [exact H3|].
  intros c Hc. apply filter_In in Hc as [Hc _]. now apply H4.
Qed.

Lemma orphans_less_notes f d :
  no_orphans d ->
  (forall a n, In a (DatabaseStorage.attachments d) ->
               In n (DatabaseStorage.notes d) ->
               n_id n = a_noteId a -> f n = true) ->
  no_orphans (DatabaseStorage.put_rows DatabaseStorage.notes_table
                (filter f (DatabaseStorage.notes d)) d).
Proof.
  intros (H1 & H2 & H3 & H4) Hf. unfold no_orphans. simpl.
  split; [exact H1|]. split; [|split; [|exact H4]].
  - intros n Hn. apply filter_In in Hn as [Hn _]. now apply H2.
  - intros a Ha. destruct (H3 a Ha) as [n [Hn E]]. exists n.
    split; [|exact E]. apply filter_In. split; [exact Hn|].
    now apply (Hf a n).
Qed.

Lemma orphans_less_experiments f d :
  no_orphans d ->
  (forall n x, In n (DatabaseStorage.notes d) ->
               In x (DatabaseStorage.experiments d) ->
               e_id x = n_experimentId n -> f x = true) ->
  no_orphans (DatabaseStorage.put_rows DatabaseStorage.experiments_table
                (filter f (DatabaseStorage.experiments d)) d).
Proof.
  intros (H1 & H2 & H3 & H4) Hf. unfold no_orphans. simpl.
  split; [|split; [|split; [exact H3 | exact H4]]].
  - intros x Hx. apply filter_In in Hx as [Hx _]. now apply H1.
  - intros n Hn. destruct (H2 n Hn) as [x [Hx E]]. exists x.
    split; [|exact E]. apply filter_In. split; [exact Hx|].
    now apply (Hf n x).
Qed.

Lemma orphans_less_projects f d :
  no_orphans d ->
  (forall x p, In x (DatabaseStorage.experiments d) ->
               In p (DatabaseStorage.projects d) ->
               p_id p = e_projectId x -> f p = true) ->
  (forall c p, In c (DatabaseStorage.projectCollaborators d) ->
               In p (DatabaseStorage.projects d) ->
               p_id p = c_projectId c -> f p = true) ->
  no_orphans (DatabaseStorage.put_rows DatabaseStorage.projects_table
                (filter f (DatabaseStorage.projects d)) d).
Proof.
  intros (H1 & H2 & H3 & H4) Hx Hc. unfold no_orphans. simpl.
  split; [|split; [exact H2|split; [exact H3|]]].
  - intros x Hin. destruct (H1 x Hin) as [p [Hp E]]. exists p.
    split; [|exact E]. apply filter_In. split; [exact Hp|].
    now apply (Hx x p).
  - intros c Hin. destruct (H4 c Hin) as [p [Hp E]]. exists p.
    split; [|exact E]. apply filter_In. split; [exact Hp|].
    now apply (Hc c p).
Qed.

Lemma In_negb_eqb {A : Type} (key : A -> Z) id (l : list A) x :
  In x (filter (fun r => negb (Z.eqb (key r) id)) l) -> key x <> id.
Proof. intros H. now apply In_filter_negb_eqb in H. Qed.

Lemma triple_left {A : Type} (m : DatabaseStorage.db A) s plan
  (I : DatabaseStorage.t -> Prop) :
  triple m s plan (fun _ s' => I s') I -> I (Call.left (m s plan)).
Proof.
  unfold triple. destruct (m s plan) as [a s' plan'|e s']; simpl.
  - now intros [H _].
  - now intros (_ & _ & H).
Qed.

(** A method that is refused for an integer that does not fit leaves the
    state as it found it. *)
Lemma bound_left {A : Type} (I : DatabaseStorage.t -> Prop) params
  (m : DatabaseStorage.db A) s plan :
  I s ->
  (DatabaseStorage.in_range params = true ->
   I (Call.left (DatabaseStorage.bound params m s plan))) ->
  I (Call.left (DatabaseStorage.bound params m s plan)).
Proof.
  intros Hs H. destruct (DatabaseStorage.in_range params) eqn:E; [auto|].
  now rewrite (bound_out _ _ _ _ E).
Qed.

Ltac in_bounds' H := rewrite in_range_one in H; exact H.

Section Orphans.
Import DatabaseStorage.

(** The loop over the notes of one experiment: wherever it stops no
    record is without its parent, and at its end no attachment of the
    listed notes is left. *)
Lemma orphans_attachments_loop (expNotes : list Z) st plan :
  no_orphans st ->
  triple
    (for_of expNotes (fun note =>
       bind (delete attachments_table (fun r => Z.eqb (a_noteId r) note))
            (fun _ => ret tt)))
    st plan
    (fun _ st' =>
       (no_orphans st' /\ notes st' = notes st
        /\ experiments st' = experiments st) /\
       forall note a, In note expNotes -> In a (attachments st') ->
                      a_noteId a <> note)
    (fun st' => no_orphans st' /\ notes st' = notes st
                /\ experiments st' = experiments st).
Proof.
  intros Hi.
  eapply triple_conseq.
  - apply (triple_for_of Z _ (fun _ => True)
             (fun st' => no_orphans st' /\ notes st' = notes st
                         /\ experiments st' = experiments st)
             (fun s' s => incl (attachments s') (attachments s))
             (fun note st' => forall a, In a (attachments st') ->
                                        a_noteId a <> note)).
    + intros s. apply incl_refl.
    + intros a b c H1 H2. eapply incl_tran; eassumption.
    + intros x s s' Hb Hp a Ha. apply Hp. now apply Hb.
    + intros note s1 plan1 _ (O1 & N1 & E1).
      apply triple_bind with
        (Q1 := fun (_ : Z) s2 =>
                 s2 = put_rows attachments_table
                        (filter (fun r => negb (Z.eqb (a_noteId r) note))
                                (attachments s1)) s1).
      * apply triple_delete; [reflexivity|]. now split.
      * intros _ s2 plan2 ->. apply triple_ret.
        split; [split; [now apply orphans_less_attachments|now split]|].
        split; [simpl; apply incl_filter|].
        intros a Ha. simpl in Ha. now apply In_negb_eqb in Ha.
    + apply Forall_forall. trivial.
    + split; [assumption | now split].
  - intros u st' (H & _ & P). split; [exact H|].
    intros note a Hn Ha. now apply (P note Hn a).
  - intros st' H. exact H.
Qed.

(** Removing the notes of an experiment once their attachments are gone. *)
Lemma orphans_notes_of_experiment exp st1 st :
  no_orphans st1 -> notes st1 = notes st ->
  (forall note a,
      In note (map n_id (filter (fun r => Z.eqb (n_experimentId r) exp)
                                (notes st))) ->
      In a (attachments st1) -> a_noteId a <> note) ->
  no_orphans (put_rows notes_table
                (filter (fun r => negb (Z.eqb (n_experimentId r) exp))
                        (notes st1)) st1).
Proof.
  intros O N P. apply orphans_less_notes; [exact O|].
  intros a n Ha Hn E. apply negb_true_iff, Z.eqb_neq. intros Ex.
  apply (P (n_id n) a); [|exact Ha | now symmetry].
  apply in_map. apply filter_In. rewrite <- N.
  split; [exact Hn | now apply Z.eqb_eq].
Qed.

(** One round of the loop of [deleteProject]. *)
Lemma orphans_experiment_body (exp : Z) st plan :
  no_orphans st ->
  triple
    (bind (select notes_table n_id (fun r => Z.eqb (n_experimentId r) exp))
       (fun expNotes =>
          bind (for_of expNotes (fun note =>
                  bind (delete attachments_table
                          (fun r => Z.eqb (a_noteId r) note))
                       (fun _ => ret tt)))
            (fun _ =>
               bind (delete notes_table
                       (fun r => Z.eqb (n_experimentId r) exp))
                    (fun _ => ret tt))))
    st plan
    (fun _ st' =>
       (no_orphans st' /\ experiments st' = experiments st) /\
       incl (notes st') (notes st) /\
       forall n, In n (notes st') -> n_experimentId n <> exp)
    (fun st' => no_orphans st' /\ experiments st' = experiments st).
Proof.
  intros O.
  apply triple_bind with
    (Q1 := fun l s1 => s1 = st /\
             l = map n_id (filter (fun r => Z.eqb (n_experimentId r) exp)
                                  (notes st))).
  { apply triple_select; [now split | now split]. }
  intros expNotes s1 plan1 [-> ->].
  eapply triple_bind.
  { eapply triple_conseq.
    - apply (orphans_attachments_loop _ st plan1 O).
    - intros u st' H. exact H.
    - intros st' (H1 & _ & H3). now split. }
  intros _ s2 plan2 ((O2 & N2 & E2) & P2). cbv beta.
  apply triple_bind with
    (Q1 := fun (_ : Z) s3 =>
             s3 = put_rows notes_table
                    (filter (fun r => negb (Z.eqb (n_experimentId r) exp))
                            (notes s2)) s2).
  { apply triple_delete; [reflexivity | now split]. }
  intros _ s3 plan3 ->. apply triple_ret.
  split; [split|split].
  - now apply (orphans_notes_of_experiment exp s2 st).
  - exact E2.
  - simpl. rewrite N2. apply incl_filter.
  - intros n Hn. simpl in Hn. now apply In_negb_eqb in Hn.
Qed.

Lemma orphans_deleteProject id s plan :
  in_int4 id = true -> no_orphans s ->
  triple (deleteProject id) s plan (fun _ s' => no_orphans s') no_orphans.
Proof.
  intros Hid O. unfold deleteProject. apply triple_bound; [in_bounds|].
  apply triple_bind with
    (Q1 := fun l s1 => s1 = s /\
             l = map e_id (filter (fun r => Z.eqb (e_projectId r) id)
                                  (experiments s))).
  { apply triple_select; [now split | exact O]. }
  intros projectExperiments s1 plan1 [-> ->].
  eapply triple_bind.
  { eapply triple_conseq.
    - apply (triple_for_of Z _ (fun _ => True)
               (fun st => no_orphans st /\ experiments st = experiments s)
               (fun s' s => incl (notes s') (notes s))
               (fun exp st => forall n, In n (notes st) ->
                                        n_experimentId n <> exp)).
      + intros st. apply incl_refl.
      + intros a b c H1 H2. eapply incl_tran; eassumption.
      + intros x st st' Hb Hp n Hn. apply Hp. now apply Hb.
      + intros exp st plan' _ [Ost Est].
        eapply triple_conseq.
        * apply (orphans_experiment_body exp st plan' Ost).
        * intros u st' ((O' & E') & Hi & Hp). cbv beta.
          split; [split; [exact O' | congruence]|]. now split.
        * intros st' [O' E']. split; [exact O' | congruence].
      + apply Forall_forall. trivial.
      + now split.
    - intros u st' H. exact H.
    - intros st' H. apply H. }
  intros _ s2 plan2 ((O2 & E2) & _ & P2). cbv beta.
  set (s3 := put_rows experiments_table
               (filter (fun r => negb (Z.eqb (e_projectId r) id))
                       (experiments s2)) s2).
  assert (O3 : no_orphans s3).
  { apply orphans_less_experiments; [exact O2|].
    intros n x Hn Hx E. apply negb_true_iff, Z.eqb_neq. intros Ex.
    refine (P2 (e_id x) _ n Hn _); [|now symmetry].
    apply in_map, filter_In. rewrite <- E2.
    split; [exact Hx | now apply Z.eqb_eq]. }
  apply triple_bind with (Q1 := fun (_ : Z) s' => s' = s3).
  { apply triple_delete; [reflexivity | exact O2]. }
  intros _ z1 plan3 Ez1. subst z1.
  set (s4 := put_rows projectCollaborators_table
               (filter (fun r => negb (Z.eqb (c_projectId r) id))
                       (projectCollaborators s3)) s3).
  assert (O4 : no_orphans s4) by now apply orphans_less_collaborators.
  apply triple_bind with (Q1 := fun (_ : Z) s' => s' = s4).
  { apply triple_delete; [reflexivity | exact O3]. }
  intros _ z2 plan4 Ez2. subst z2.
  apply triple_bind with
    (Q1 := fun (_ : Z) s5 =>
             s5 = put_rows projects_table
                    (filter (fun r => negb (Z.eqb (p_id r) id))
                            (projects s4)) s4).
  { apply triple_delete; [reflexivity | exact O4]. }
  intros rowCount s5 plan5 ->. apply triple_ret.
  apply orphans_less_projects; [exact O4| |].
  - intros x p Hx Hp E. apply negb_true_iff, Z.eqb_neq. intros Ep.
    simpl in Hx. apply In_negb_eqb in Hx. congruence.
  - intros c p Hc Hp E. apply negb_true_iff, Z.eqb_neq. intros Ep.
    simpl in Hc. apply In_negb_eqb in Hc. congruence.
Qed.

Lemma orphans_deleteExperiment id s plan :
  in_int4 id = true -> no_orphans s ->
  triple (deleteExperiment id) s plan (fun _ s' => no_orphans s') no_orphans.
Proof.
  intros Hid O. unfold deleteExperiment. apply triple_bound; [in_bounds|].
  apply triple_bind with
    (Q1 := fun l s1 => s1 = s /\
             l = map n_id (filter (fun r => Z.eqb (n_experimentId r) id)
                                  (notes s))).
  { apply triple_select; [now split | exact O]. }
  intros experimentNotes s1 plan1 [-> ->].
  eapply triple_bind.
  { eapply triple_conseq.
    - apply (orphans_attachments_loop _ s plan1 O).
    - intros u st' H. exact H.
    - intros st' H. apply H. }
  intros _ s2 plan2 ((O2 & N2 & E2) & P2). cbv beta.
  set (s3 := put_rows notes_table
               (filter (fun r => negb (Z.eqb (n_experimentId r) id))
                       (notes s2)) s2).
  assert (O3 : no_orphans s3)
    by now apply (orphans_notes_of_experiment id s2 s).
  apply triple_bind with (Q1 := fun (_ : Z) s' => s' = s3).
  { apply triple_delete; [reflexivity | exact O2]. }
  intros _ z3 plan3 Ez3. subst z3.
  apply triple_bind with
    (Q1 := fun (_ : Z) s4 =>
             s4 = put_rows experiments_table
                    (filter (fun r => negb (Z.eqb (e_id r) id))
                            (experiments s3)) s3).
  { apply triple_delete; [reflexivity | exact O3]. }
  intros rowCount s4 plan4 ->. apply triple_ret.
  apply orphans_less_experiments; [exact O3|].
  intros n x Hn Hx E. apply negb_true_iff, Z.eqb_neq. intros Ex.
  simpl in Hn. apply In_negb_eqb in Hn. congruence.
Qed.

Lemma orphans_deleteNote id s plan :
  in_int4 id = true -> no_orphans s ->
  triple (deleteNote id) s plan (fun _ s' => no_orphans s') no_orphans.
Proof.
  intros Hid O. unfold deleteNote. apply triple_bound; [in_bounds|].
  set (s1 := put_rows attachments_table
               (filter (fun r => negb (Z.eqb (a_noteId r) id))
                       (attachments s)) s).
  assert (O1 : no_orphans s1) by now apply orphans_less_attachments.
  apply triple_bind with (Q1 := fun (_ : Z) s' => s' = s1).
  { apply triple_delete; [reflexivity | exact O]. }
  intros _ z4 plan1 Ez4. subst z4.
  apply triple_bind with
    (Q1 := fun (_ : Z) s2 =>
             s2 = put_rows notes_table
                    (filter (fun r => negb (Z.eqb (n_id r) id))
                            (notes s1)) s1).
  { apply triple_delete; [reflexivity | exact O1]. }
  intros rowCount s2 plan2 ->. apply triple_ret.
  apply orphans_less_notes; [exact O1|].
  intros a n Ha Hn E. apply negb_true_iff, Z.eqb_neq. intros En.
  simpl in Ha. apply In_negb_eqb in Ha. congruence.
Qed.

Lemma orphans_deleteAttachment id s plan :
  in_int4 id = true -> no_orphans s ->
  triple (deleteAttachment id) s plan (fun _ s' => no_orphans s') no_orphans.
Proof.
  intros Hid O. unfold deleteAttachment. apply triple_bound; [in_bounds|].
  apply triple_bind with
    (Q1 := fun (_ : Z) s1 =>
             s1 = put_rows attachments_table
                    (filter (fun r => negb (Z.eqb (a_id r) id))
                            (attachments s)) s).
  { apply triple_delete; [reflexivity | exact O]. }
  intros rowCount s1 plan1 ->. apply triple_ret.
  now apply orphans_less_attachments.
Qed.

Lemma orphans_removeCollaborator p u s plan :
  in_range [p; u] = true -> no_orphans s ->
  triple (removeCollaborator p u) s plan
         (fun _ s' => no_orphans s') no_orphans.
Proof.
  intros Hr O. unfold removeCollaborator. apply triple_bound; [exact Hr|].
  apply triple_bind with
    (Q1 := fun (_ : Z) s1 =>
             s1 = put_rows projectCollaborators_table
                    (filter (fun r => negb (Z.eqb (c_projectId r) p
                                            && Z.eqb (c_userId r) u))
                            (projectCollaborators s)) s).
  { apply triple_delete; [reflexivity | exact O]. }
  intros rowCount s1 plan1 ->. apply triple_ret.
  now apply orphans_less_collaborators.
Qed.
End Orphans.

(** X18. The deletes of [DatabaseStorage] remove children before
    parents, so they never leave a record without its parent, not even
    when the backend fails in the middle: from a state in which every
    experiment and collaborator row has its project, every note its
    experiment and every attachment its note, [deleteProject],
    [deleteExperiment], [deleteNote], [deleteAttachment] and
    [removeCollaborator] end, under every fault plan, in such a state. *)
Theorem db_deletes_leave_no_orphans
  (d : DatabaseStorage.t) (id : Z) (plan : option nat) :
  no_orphans d ->
  no_orphans (Call.left (DatabaseStorage.deleteProject id d plan)) /\
  no_orphans (Call.left (DatabaseStorage.deleteExperiment id d plan)) /\
  no_orphans (Call.left (DatabaseStorage.deleteNote id d plan)) /\
  no_orphans (Call.left (DatabaseStorage.deleteAttachment id d plan)) /\
  forall u,
    no_orphans (Call.left (DatabaseStorage.removeCollaborator id u d plan)).
Proof.
  intros O.
  unfold DatabaseStorage.deleteProject, DatabaseStorage.deleteExperiment,
    DatabaseStorage.deleteNote, DatabaseStorage.deleteAttachment,
    DatabaseStorage.removeCollaborator.
  split; [|split; [|split; [|split; [|intros u]]]];
    (apply bound_left; [exact O|]); intros Hr; apply triple_left.
  - apply (orphans_deleteProject id d plan); [in_bounds' Hr | exact O].
  - apply (orphans_deleteExperiment id d plan); [in_bounds' Hr | exact O].
  - apply (orphans_deleteNote id d plan); [in_bounds' Hr | exact O].
  - apply (orphans_deleteAttachment id d plan); [in_bounds' Hr | exact O].
  - now apply (orphans_removeCollaborator id u d plan).
Qed.

Lemma demo_db_no_orphans : no_orphans Demo.db.
Proof.
  unfold no_orphans.
  replace (DatabaseStorage.experiments Demo.db)
    with [mkExperiment 1 "Trial 1" None 1 0 0] by reflexivity.
  replace (DatabaseStorage.projects Demo.db)
    with [mkProject 1 "Lab A" None 0 0 1] by reflexivity.
  replace (DatabaseStorage.notes Demo.db)
    with [mkNote 1 "Obs 1" None 1 1 0 0] by reflexivity.
  replace (DatabaseStorage.attachments Demo.db)
    with [mkAttachment 1 "scan.png" 4 "image/png" "c2Nhbg==" 1 0]
    by reflexivity.
  replace (DatabaseStorage.projectCollaborators Demo.db)
    with [mkProjectCollaborator 1 1 2 (Some "Viewer")] by reflexivity.
  split; [|split; [|split]]; intros x [<-|[]]; eexists;
    (split; [left; reflexivity | reflexivity]).
Qed.

Lemma db_deletes_leave_no_orphans_witness :
  no_orphans Demo.db /\
  DatabaseStorage.attachments
    (Call.left (DatabaseStorage.deleteProject 1 Demo.db (Some 3%nat))) = [] /\
  no_orphans
    (Call.left (DatabaseStorage.deleteProject 1 Demo.db (Some 3%nat))).
Proof.
  split; [exact demo_db_no_orphans|]. split; [reflexivity|].
  exact (proj1 (db_deletes_leave_no_orphans Demo.db 1 (Some 3%nat)
                  demo_db_no_orphans)).
Defined.

(** What a cascade keeps has no record without its parent, when what it
    started from had none. *)
Lemma kept_project_orphans d id :
  let exps := map e_id (filter (fun x => Z.eqb (e_projectId x) id)
                               (DatabaseStorage.experiments d)) in
  no_orphans d ->
  no_orphans
    (db_kept (fun p => negb (Z.eqb (p_id p) id))
       (fun x => negb (Z.eqb (e_projectId x) id))
       (fun n => negb (note_of exps n))
       (fun a => negb (attachment_of exps (DatabaseStorage.notes d) a))
       (fun c => negb (Z.eqb (c_projectId c) id)) d).
Proof.
  intros exps (O1 & O2 & O3 & O4).
  destruct (kept_project_spec d id) as (_ & Kp & Kx & Kc & Kn & Ka).
  fold exps in Kp, Kx, Kc, Kn, Ka. split; [|split; [|split]].
  - intros x Hx. apply Kx in Hx as [Hx Nx].
    destruct (O1 x Hx) as [p [Hp E]]. exists p. split; [|exact E].
    apply Kp. split; [exact Hp | congruence].
  - intros n Hn. apply Kn in Hn as [Hn Nn].
    destruct (O2 n Hn) as [x [Hx E]]. exists x. split; [|exact E].
    apply Kx. split; [exact Hx|]. intros Ep. apply (Nn x Hx Ep).
    now symmetry.
  - intros a Ha. apply Ka in Ha as [Ha Na].
    destruct (O3 a Ha) as [n [Hn E]]. exists n. split; [|exact E].
    apply Kn. split; [exact Hn|]. intros x Hx Ep Ex.
    apply (Na x n Hx Ep Hn Ex). now symmetry.
  - intros c Hc. apply Kc in Hc as [Hc Nc].
    destruct (O4 c Hc) as [p [Hp E]]. exists p. split; [|exact E].
    apply Kp. split; [exact Hp | congruence].
Qed.

Lemma kept_experiment_orphans d id :
  no_orphans d ->
  no_orphans
    (db_kept DatabaseStorage.always
       (fun x => negb (Z.eqb (e_id x) id))
       (fun n => negb (note_of [id] n))
       (fun a => negb (attachment_of [id] (DatabaseStorage.notes d) a))
       DatabaseStorage.always d).
Proof.
  intros (O1 & O2 & O3 & O4).
  destruct (kept_experiment_spec d id) as (_ & Kp & Kc & Kx & Kn & Ka).
  split; [|split; [|split]].
  - intros x Hx. apply Kx in Hx as [Hx Nx]. rewrite Kp. now apply O1.
  - intros n Hn. apply Kn in Hn as [Hn Nn].
    destruct (O2 n Hn) as [x [Hx E]]. exists x. split; [|exact E].
    apply Kx. split; [exact Hx | congruence].
  - intros a Ha. apply Ka in Ha as [Ha Na].
    destruct (O3 a Ha) as [n [Hn E]]. exists n. split; [|exact E].
    apply Kn. split; [exact Hn|]. intros En.
    apply (Na n Hn En). now symmetry.
  - intros c Hc. rewrite Kc in Hc. rewrite Kp. now apply O4.
Qed.

Lemma kept_note_orphans d id :
  no_orphans d ->
  no_orphans
    (db_kept DatabaseStorage.always DatabaseStorage.always
       (fun n => negb (Z.eqb (n_id n) id))
       (fun a => negb (Z.eqb (a_noteId a) id))
       DatabaseStorage.always d).
Proof.
  intros (O1 & O2 & O3 & O4).
  destruct (kept_note_spec d id) as (_ & Kp & Kc & Kx & Kn & Ka).
  split; [|split; [|split]].
  - intros x Hx. rewrite Kx in Hx. rewrite Kp. now apply O1.
  - intros n Hn. apply Kn in Hn as [Hn Nn]. rewrite Kx. now apply O2.
  - intros a Ha. apply Ka in Ha as [Ha Na].
    destruct (O3 a Ha) as [n [Hn E]]. exists n. split; [|exact E].
    apply Kn. split; [exact Hn | congruence].
  - intros c Hc. rewrite Kc in Hc. rewrite Kp. now apply O4.
Qed.

Lemma kept_attachment_orphans d (f : Attachment -> bool) :
  no_orphans d ->
  no_orphans
    (db_kept DatabaseStorage.always DatabaseStorage.always
       DatabaseStorage.always f DatabaseStorage.always d).
Proof.
  intros (O1 & O2 & O3 & O4). unfold no_orphans, db_kept.
  cbn [DatabaseStorage.users DatabaseStorage.projects
    DatabaseStorage.experiments DatabaseStorage.notes
    DatabaseStorage.attachments DatabaseStorage.projectCollaborators].
  rewrite !(filter_all DatabaseStorage.always) by reflexivity.
  split; [exact O1|]. split; [exact O2|]. split; [|exact O4].
  intros a Ha. apply filter_In in Ha as [Ha _]. now apply O3.
Qed.

(** X19. Nor do the deletes of [MemStorage]: from a well-formed store in
    which no record is without its parent, [deleteProject],
    [deleteExperiment], [deleteNote], [deleteAttachment] and
    [removeCollaborator] lead to such a store. *)
Theorem mem_deletes_leave_no_orphans (s : MemStorage.t) (id : Z) :
  Wf.mem s -> no_orphans (mem_view s) ->
  no_orphans (mem_view (snd (MemStorage.deleteProject id s))) /\
  no_orphans (mem_view (snd (MemStorage.deleteExperiment id s))) /\
  no_orphans (mem_view (snd (MemStorage.deleteNote id s))) /\
  no_orphans (mem_view (snd (MemStorage.deleteAttachment id s))) /\
  forall u,
    no_orphans (mem_view (snd (MemStorage.removeCollaborator id u s))).
Proof.
  intros W O. split; [|split; [|split; [|split]]].
  - destruct (mem_deleteProject_view id s W) as (_ & _ & ->).
    now apply kept_project_orphans.
  - destruct (mem_deleteExperiment_view id s W) as (_ & _ & ->).
    now apply kept_experiment_orphans.
  - destruct (mem_deleteNote_view id s W) as (_ & _ & ->).
    now apply kept_note_orphans.
  - destruct (mem_deleteAttachment_view id s W) as (_ & _ & ->).
    now apply kept_attachment_orphans.
  - intros u. destruct O as (O1 & O2 & O3 & O4).
    destruct (mem_removeCollaborator_spec id u s W)
      as [(_ & -> & _)|(m1 & c & m2 & E & _ & _ & _ & -> & _)].
    + now repeat split.
    + unfold no_orphans, mem_view in *. simpl in *.
      split; [exact O1|]. split; [exact O2|]. split; [exact O3|].
      intros x Hx. apply O4. rewrite E.
      unfold JsMap.values in *. rewrite map_app in *. simpl.
      apply in_app_iff in Hx as [Hx|Hx]; apply in_app_iff;
        [now left | right; now right].
Qed.

Lemma mem_deletes_leave_no_orphans_witness :
  Wf.mem Demo.mem /\ no_orphans (mem_view Demo.mem) /\
  no_orphans (mem_view (snd (MemStorage.deleteExperiment 1 Demo.mem))).
Proof.
  assert (W : Wf.mem Demo.mem) by (vm_compute; repeat split).
  assert (O : no_orphans (mem_view Demo.mem)).
  { unfold no_orphans.
    replace (DatabaseStorage.experiments (mem_view Demo.mem))
      with [mkExperiment 1 "Trial 1" None 1 0 0] by reflexivity.
    replace (DatabaseStorage.projects (mem_view Demo.mem))
      with [mkProject 1 "Lab A" None 0 0 1] by reflexivity.
    replace (DatabaseStorage.notes (mem_view Demo.mem))
      with [mkNote 1 "Obs 1" None 1 1 0 0] by reflexivity.
    replace (DatabaseStorage.attachments (mem_view Demo.mem))
      with [mkAttachment 1 "scan.png" 4 "image/png" "c2Nhbg==" 1 0]
      by reflexivity.
    replace (DatabaseStorage.projectCollaborators (mem_view Demo.mem))
      with [mkProjectCollaborator 1 1 2 None] by reflexivity.
    split; [|split; [|split]]; intros x [<-|[]]; eexists;
      (split; [left; reflexivity | reflexivity]). }
  split; [exact W|]. split; [exact O|].
  destruct (mem_deletes_leave_no_orphans Demo.mem 1 W O) as (_ & H & _).
  exact H.
Defined.

(** ** Roles left out *)


